(** * DingTalk channel: AI-card delivery engine

    A shallow embedding of [nanobot/channels/dingtalk.py] (class
    [DingTalkChannel]) and the properties of its card life cycle.

    Modelling choices.
    - The channel object is a record [Channel] of its mutable attributes;
      every method is a command of the monad [M] (state plus Python
      exceptions).
    - [_ActiveCard] objects are mutable and shared between the registry
      [_active_cards] and local variables, so they live in a [heap]
      addressed by locations; the registry maps chat ids to locations.
    - [_active_cards] is a Python dict: an association list in insertion
      order without duplicate keys.
    - The outside world (HTTP server, wall clock, uuid generator) is an
      environment of oracles, each indexed by the number of times it has
      been consulted so far.  Time is counted in whole seconds.
    - Every remote request, log record, bus hand-over, client close and task
      cancellation is appended to [trace], oldest first.
    - Coroutines run to completion: the interleaving of other tasks at an
      [await] is not modelled. *)

From stdpp Require Import base strings list gmap.
From Stdlib Require Import ZArith Lia.

Open Scope string_scope.
Open Scope list_scope.
Open Scope Z_scope.

(* ================================================================== *)
(** ** Python values found in message metadata *)

Inductive PyVal :=
| PNone
| PBool (b : bool)
| PStr (s : string).

(** [bool(v)] *)
Definition py_truthy (v : PyVal) : bool :=
  match v with
  | PNone => false
  | PBool b => b
  | PStr s => negb (String.eqb s "")
  end.

(** [f"{v}"] *)
Definition py_str (v : PyVal) : string :=
  match v with
  | PNone => "None"
  | PBool true => "True"
  | PBool false => "False"
  | PStr s => s
  end.

(** [bool(d.get(k))] *)
Definition meta_truthy (md : gmap string PyVal) (k : string) : bool :=
  match md !! k with
  | Some v => py_truthy v
  | None => false
  end.

(** [d.get(k, "")] *)
Definition meta_get (md : gmap string PyVal) (k : string) : PyVal :=
  default (PStr "") (md !! k).

(** [d.get(k) == "2"] *)
Definition meta_is (md : gmap string PyVal) (k v : string) : bool :=
  match md !! k with
  | Some (PStr s) => String.eqb s v
  | _ => false
  end.

(** Truthiness of a [str | None] value. *)
Definition truthy (o : option string) : bool :=
  match o with
  | Some s => negb (String.eqb s "")
  | None => false
  end.

(* ================================================================== *)
(** ** Data model *)

Definition _CARD_TTL_SECONDS : Z := 600.

Definition loc := nat.

Record _ActiveCard := {
  card_instance_id : string;
  accumulated_content : string;
  inputing_started : bool;
  created_at : Z
}.

Definition with_content (s : string) (c : _ActiveCard) : _ActiveCard :=
  {| card_instance_id := card_instance_id c;
     accumulated_content := s;
     inputing_started := inputing_started c;
     created_at := created_at c |}.

Definition with_inputing (b : bool) (c : _ActiveCard) : _ActiveCard :=
  {| card_instance_id := card_instance_id c;
     accumulated_content := accumulated_content c;
     inputing_started := b;
     created_at := created_at c |}.

Record OutboundMessage := {
  chat_id : string;
  content : string;
  metadata : gmap string PyVal
}.

Record DingTalkConfig := {
  client_id : string;
  client_secret : string;
  reply_mode : string
}.

(** *** Remote protocol *)

Inductive Request :=
| ReqAccessToken (appKey appSecret : string)
| ReqBatchSend (token robotCode userId text : string)
| ReqCreateAndDeliver (token outTrackId openSpaceId : string) (group : bool)
| ReqPutData (token outTrackId flowStatus msgContent : string)
| ReqStreaming (token outTrackId guid content : string) (isFinalize : bool).

(** The [expireIn] field of a token reply: absent, convertible by [int],
    or a value on which [int] raises. *)
Inductive ExpireIn :=
| ExpMissing
| ExpInt (z : Z)
| ExpBad.

(** A reply body: either something [resp.json()] / [.get] raise on, or a
    JSON object with its [accessToken] (absent or null: [None]) and
    [expireIn] fields. *)
Inductive Body :=
| NotJsonObject
| JsonObject (accessToken : option string) (expireIn : ExpireIn).

(** What an awaited [self._http.post/put] gives: a transport exception or
    a response with a status code. *)
Inductive Reply :=
| Raised
| Status (code : Z) (body : Body).

(** [resp.raise_for_status()] returns normally on 2xx only. *)
Definition is_success (code : Z) : bool := (200 <=? code) && (code <? 300).

Inductive Level := Debug | Info | Warning | Error.

Inductive Event :=
| EvHttp (r : Request)
| EvLog (lvl : Level) (template : string)
| EvHandleMessage (sender_id chat_id content : string)
| EvHttpClose
| EvCancel (task : nat).

(** *** Environment *)

Record Env := {
  clock : nat -> Z;       (* n-th value of [time.time()] *)
  replies : nat -> Reply; (* outcome of the n-th HTTP request *)
  uuids : nat -> string   (* n-th [uuid.uuid4().hex] *)
}.

(** *** Channel state *)

Record Channel := {
  _running : bool;
  _http : bool;                       (* [self._http is not None] *)
  _access_token : option string;
  _token_expiry : Z;
  _background_tasks : gset nat;
  _active_cards : list (string * loc);
  heap : list _ActiveCard;
  ticks : nat;
  served : nat;
  minted : nat;
  trace : list Event
}.

Definition set_running (x : bool) (w : Channel) : Channel :=
  {| _running := x; _http := _http w; _access_token := _access_token w;
     _token_expiry := _token_expiry w; _background_tasks := _background_tasks w;
     _active_cards := _active_cards w; heap := heap w; ticks := ticks w;
     served := served w; minted := minted w; trace := trace w |}.

Definition set_http (x : bool) (w : Channel) : Channel :=
  {| _running := _running w; _http := x; _access_token := _access_token w;
     _token_expiry := _token_expiry w; _background_tasks := _background_tasks w;
     _active_cards := _active_cards w; heap := heap w; ticks := ticks w;
     served := served w; minted := minted w; trace := trace w |}.

Definition set_access_token (x : option string) (w : Channel) : Channel :=
  {| _running := _running w; _http := _http w; _access_token := x;
     _token_expiry := _token_expiry w; _background_tasks := _background_tasks w;
     _active_cards := _active_cards w; heap := heap w; ticks := ticks w;
     served := served w; minted := minted w; trace := trace w |}.

Definition set_token_expiry (x : Z) (w : Channel) : Channel :=
  {| _running := _running w; _http := _http w; _access_token := _access_token w;
     _token_expiry := x; _background_tasks := _background_tasks w;
     _active_cards := _active_cards w; heap := heap w; ticks := ticks w;
     served := served w; minted := minted w; trace := trace w |}.

Definition set_background_tasks (x : gset nat) (w : Channel) : Channel :=
  {| _running := _running w; _http := _http w; _access_token := _access_token w;
     _token_expiry := _token_expiry w; _background_tasks := x;
     _active_cards := _active_cards w; heap := heap w; ticks := ticks w;
     served := served w; minted := minted w; trace := trace w |}.

Definition set_active_cards (x : list (string * loc)) (w : Channel) : Channel :=
  {| _running := _running w; _http := _http w; _access_token := _access_token w;
     _token_expiry := _token_expiry w; _background_tasks := _background_tasks w;
     _active_cards := x; heap := heap w; ticks := ticks w;
     served := served w; minted := minted w; trace := trace w |}.

Definition set_heap (x : list _ActiveCard) (w : Channel) : Channel :=
  {| _running := _running w; _http := _http w; _access_token := _access_token w;
     _token_expiry := _token_expiry w; _background_tasks := _background_tasks w;
     _active_cards := _active_cards w; heap := x; ticks := ticks w;
     served := served w; minted := minted w; trace := trace w |}.

Definition set_ticks (x : nat) (w : Channel) : Channel :=
  {| _running := _running w; _http := _http w; _access_token := _access_token w;
     _token_expiry := _token_expiry w; _background_tasks := _background_tasks w;
     _active_cards := _active_cards w; heap := heap w; ticks := x;
     served := served w; minted := minted w; trace := trace w |}.

Definition set_served (x : nat) (w : Channel) : Channel :=
  {| _running := _running w; _http := _http w; _access_token := _access_token w;
     _token_expiry := _token_expiry w; _background_tasks := _background_tasks w;
     _active_cards := _active_cards w; heap := heap w; ticks := ticks w;
     served := x; minted := minted w; trace := trace w |}.

Definition set_minted (x : nat) (w : Channel) : Channel :=
  {| _running := _running w; _http := _http w; _access_token := _access_token w;
     _token_expiry := _token_expiry w; _background_tasks := _background_tasks w;
     _active_cards := _active_cards w; heap := heap w; ticks := ticks w;
     served := served w; minted := x; trace := trace w |}.

Definition set_trace (x : list Event) (w : Channel) : Channel :=
  {| _running := _running w; _http := _http w; _access_token := _access_token w;
     _token_expiry := _token_expiry w; _background_tasks := _background_tasks w;
     _active_cards := _active_cards w; heap := heap w; ticks := ticks w;
     served := served w; minted := minted w; trace := x |}.

(* ================================================================== *)
(** ** The registry: a Python dict in insertion order *)

Module Dict.

Fixpoint get (k : string) (d : list (string * loc)) : option loc :=
  match d with
  | [] => None
  | (k', v) :: d' => if String.eqb k k' then Some v else get k d'
  end.

(** [d[k] = v]: overwrite in place, or append a new key. *)
Fixpoint set (k : string) (v : loc) (d : list (string * loc))
  : list (string * loc) :=
  match d with
  | [] => [(k, v)]
  | (k', v') :: d' =>
      if String.eqb k k' then (k', v) :: d' else (k', v') :: set k v d'
  end.

(** [d.pop(k, None)]: the dict without [k]. *)
Fixpoint remove (k : string) (d : list (string * loc))
  : list (string * loc) :=
  match d with
  | [] => []
  | (k', v) :: d' =>
      if String.eqb k k' then remove k d' else (k', v) :: remove k d'
  end.

Definition keys (d : list (string * loc)) : list string := d.*1.

(** Dict invariant: no key occurs twice. *)
Definition wf (d : list (string * loc)) : Prop := NoDup (keys d).

End Dict.

(* ================================================================== *)
(** ** The command monad: state and exceptions *)

Inductive Res (A : Type) :=
| Val (a : A)
| Exc (e : string).
Arguments Val {A} a.
Arguments Exc {A} e.

Definition M (A : Type) : Type := Channel -> Res A * Channel.

Definition ret {A} (a : A) : M A := fun w => (Val a, w).

Definition bind {A B} (m : M A) (f : A -> M B) : M B :=
  fun w =>
    match m w with
    | (Val a, w') => f a w'
    | (Exc e, w') => (Exc e, w')
    end.

Definition raise {A} (e : string) : M A := fun w => (Exc e, w).

(** [try: m  except Exception as e: h e] *)
Definition try_except {A} (m : M A) (h : string -> M A) : M A :=
  fun w =>
    match m w with
    | (Val a, w') => (Val a, w')
    | (Exc e, w') => h e w'
    end.

Definition gets {A} (f : Channel -> A) : M A := fun w => (Val (f w), w).
Definition modify (f : Channel -> Channel) : M unit := fun w => (Val tt, f w).

Declare Scope cmd_scope.
Delimit Scope cmd_scope with cmd.
Notation "x <- c1 ;; c2" := (bind c1 (fun x => c2))
  (at level 100, c1 at next level, right associativity) : cmd_scope.
Notation "c1 ;;; c2" := (bind c1 (fun _ => c2))
  (at level 100, right associativity) : cmd_scope.
Open Scope cmd_scope.

(** The state a command leaves behind, and the events it added. *)
Definition exec {A} (m : M A) (w : Channel) : Channel := snd (m w).
Definition result {A} (m : M A) (w : Channel) : Res A := fst (m w).

(** [for x in xs: body x] *)
Fixpoint for_each {A} (xs : list A) (body : A -> M unit) : M unit :=
  match xs with
  | [] => ret tt
  | x :: xs' => body x ;;; for_each xs' body
  end.

(** Projections of a trace. *)
Definition http_calls (tr : list Event) : list Request :=
  omap (fun e => match e with EvHttp r => Some r | _ => None end) tr.


Definition is_put_data (flow : string) (r : Request) : bool :=
  match r with
  | ReqPutData _ _ f _ => String.eqb f flow
  | _ => false
  end.


(** The card a request is addressed to, if any. *)
Definition track_of (r : Request) : option string :=
  match r with
  | ReqCreateAndDeliver _ t _ _ => Some t
  | ReqPutData _ t _ _ => Some t
  | ReqStreaming _ t _ _ _ => Some t
  | _ => None
  end.

(* ================================================================== *)
(** ** The file-based memory store ([nanobot/agent/memory.py])

    The files of the memory directory are a finite map from path to
    content; a path that is not in the map does not exist.  The functions
    that write a file ([append_today], [write_long_term],
    [append_history]) give the files after a call that returns; inside
    [consolidate], where a write that raises is caught, the outcome of each
    write is a parameter.  The helper [today_date], the clock of
    [datetime.now], the string built-ins [rstrip] and [upper],
    [json.loads] and the LLM provider are parameters of the functions that
    use them. *)

Module MemoryStore.

Definition nl : string := String (Ascii.ascii_of_nat 10) EmptyString.

(** [sep.join(parts)] *)
Fixpoint join (sep : string) (parts : list string) : string :=
  match parts with
  | [] => ""
  | [p] => p
  | p :: rest => p +:+ sep +:+ join sep rest
  end.

(** The paths of a store: [memory_file], [history_file] and the daily
    file of a date string. *)
Record Store := {
  memory_dir : string
}.

Definition memory_file (st : Store) : string := memory_dir st +:+ "/MEMORY.md".
Definition history_file (st : Store) : string := memory_dir st +:+ "/HISTORY.md".

(** [self.memory_dir / f"{date}.md"] *)
Definition day_file (st : Store) (date : string) : string :=
  memory_dir st +:+ "/" +:+ date +:+ ".md".

(** The file system maps a path to the text the file holds, as written.
    The line separator of the platform is the line feed, so that a write
    in text mode stores the text as it is; a read in text mode
    ([Path.read_text]) goes through Python's universal newlines. *)

Definition cr : Ascii.ascii := Ascii.ascii_of_nat 13.
Definition lf : Ascii.ascii := Ascii.ascii_of_nat 10.

(** Universal newlines: a carriage return followed by a line feed, and a
    carriage return alone, are read as one line feed.  [after_cr] tells
    that the character before was a carriage return, already read as
    a line feed. *)
Fixpoint translate_newlines (after_cr : bool) (s : string) : string :=
  match s with
  | EmptyString => EmptyString
  | String c rest =>
      if Ascii.eqb c cr then String lf (translate_newlines true rest)
      else if Ascii.eqb c lf then
        if after_cr then translate_newlines false rest
        else String lf (translate_newlines false rest)
      else String c (translate_newlines false rest)
  end.

Definition universal_newlines (s : string) : string :=
  translate_newlines false s.

(** The text holds no carriage return. *)
Fixpoint no_cr (s : string) : bool :=
  match s with
  | EmptyString => true
  | String c rest => negb (Ascii.eqb c cr) && no_cr rest
  end.

(** The text a file holds, empty for a file that does not exist. *)
Definition file_text (fs : gmap string string) (p : string) : string :=
  match fs !! p with
  | Some text => text
  | None => ""
  end.

(** [p.read_text(encoding="utf-8") if p.exists() else ""] *)
Definition read_text (fs : gmap string string) (p : string) : string :=
  match fs !! p with
  | Some text => universal_newlines text
  | None => ""
  end.

Definition read_today (st : Store) (today : string) (fs : gmap string string)
    : string :=
  read_text fs (day_file st today).

Definition append_today (st : Store) (today : string) (content : string)
    (fs : gmap string string) : gmap string string :=
  let today_file := day_file st today in
  match fs !! today_file with
  | Some existing =>
      <[today_file := universal_newlines existing +:+ nl +:+ content]> fs
  | None => <[today_file := ("# " +:+ today +:+ nl +:+ nl) +:+ content]> fs
  end.

Definition read_long_term (st : Store) (fs : gmap string string) : string :=
  read_text fs (memory_file st).

Definition write_long_term (st : Store) (content : string)
    (fs : gmap string string) : gmap string string :=
  <[memory_file st := content]> fs.

(** [range(days)] *)
Definition range (days : Z) : list nat := seq 0 (Z.to_nat days).

(** [get_recent_memories]; [date_str i] is the date [i] days before now
    in the format "%Y-%m-%d". *)
Definition get_recent_memories (st : Store) (date_str : nat -> string)
    (days : Z) (fs : gmap string string) : string :=
  join (nl +:+ nl +:+ "---" +:+ nl +:+ nl)
    (omap (fun i => universal_newlines <$> fs !! day_file st (date_str i))
       (range days)).

Definition get_memory_context (st : Store) (today : string)
    (fs : gmap string string) : string :=
  let long_term := read_long_term st fs in
  let parts1 :=
    if String.eqb long_term "" then []
    else [("## Long-term Memory" +:+ nl) +:+ long_term] in
  let today_notes := read_today st today fs in
  let parts :=
    if String.eqb today_notes "" then parts1
    else parts1 ++ [("## Today's Notes" +:+ nl) +:+ today_notes] in
  match parts with
  | [] => ""
  | _ => join (nl +:+ nl) parts
  end.

(** [append_history]: the file is opened for appending and not read. *)
Definition append_history (st : Store) (rstrip : string -> string)
    (entry : string) (fs : gmap string string) : gmap string string :=
  <[history_file st :=
      file_text fs (history_file st) +:+ (rstrip entry +:+ nl +:+ nl)]> fs.

(** *** Consolidation *)

(** A session message: the entries of the dict that [consolidate] reads. *)
Record Message := {
  content : option string;
  role : option string;
  timestamp : option string;
  tools_used : list string
}.

Record Session := {
  messages : list Message;
  last_consolidated : Z
}.

(** [l[start:stop]] for integer bounds. *)
Definition slice_bound {A} (l : list A) (i : Z) : Z :=
  let n := Z.of_nat (length l) in
  if i <? 0 then Z.max (i + n) 0 else Z.min i n.

Definition py_slice {A} (l : list A) (start stop : Z) : list A :=
  let a := slice_bound l start in
  let b := slice_bound l stop in
  take (Z.to_nat (b - a)) (drop (Z.to_nat a) l).

(** One line of the conversation, line 178; [None] where the code raises
    (a message with content but no role). *)
Definition format_line (upper : string -> string) (m : Message)
    : option string :=
  match role m with
  | None => None
  | Some r =>
      let tools :=
        match tools_used m with
        | [] => ""
        | ts => " [tools: " +:+ join ", " ts +:+ "]"
        end in
      Some ("[" +:+ String.substring 0 16 (default "?" (timestamp m)) +:+ "] "
            +:+ upper r +:+ tools +:+ ": " +:+ default "" (content m))
  end.

(** Lines 173-178; messages without content are skipped. *)
Fixpoint format_lines (upper : string -> string) (ms : list Message)
    : option (list string) :=
  match ms with
  | [] => Some []
  | m :: rest =>
      if truthy (content m) then
        match format_line upper m with
        | None => None
        | Some line =>
            match format_lines upper rest with
            | None => None
            | Some lines => Some (line :: lines)
            end
        end
      else format_lines upper rest
  end.

Definition build_prompt (current_memory : string) (lines : list string)
    : string :=
  "Process this conversation and call the save_memory tool with your consolidation."
  +:+ nl +:+ nl +:+ "## Current Long-term Memory" +:+ nl
  +:+ (if String.eqb current_memory "" then "(empty)" else current_memory)
  +:+ nl +:+ nl +:+ "## Conversation to Process" +:+ nl
  +:+ join nl lines.

(** A value of the tool-call arguments: a string, or another JSON value
    with its truthiness and its [json.dumps] text. *)
Inductive JVal :=
| JStr (s : string)
| JOther (is_truthy : bool) (dumped : string).

Definition jtruthy (v : option JVal) : bool :=
  match v with
  | Some (JStr s) => negb (String.eqb s "")
  | Some (JOther b _) => b
  | None => false
  end.

Definition jtext (v : option JVal) : string :=
  match v with
  | Some (JStr s) => s
  | Some (JOther _ d) => d
  | None => ""
  end.

(** The arguments of a tool call: a dict (its two entries), JSON text
    still to be decoded, or something else. *)
Inductive Args :=
| ArgsDict (history_entry memory_update : option JVal)
| ArgsText (s : string)
| ArgsOther.

(** What [provider.chat] and the reading of its first tool call give:
    an exception, a response without tool calls, or the arguments. *)
Inductive ChatReply :=
| ChatRaises
| NoToolCalls
| ToolCall (args : Args).

(** What a write to a file does: it goes through, or it raises (the file
    cannot be opened, the disk is full, the text cannot be encoded) and
    leaves the file as it was ([None]) or with some other text, such as a
    truncated one. *)
Inductive WriteOutcome :=
| Written
| WriteRaises (residue : option string).

(** The provider, the built-ins and the file system [consolidate] relies
    on. *)
Record Deps := {
  chat : string -> string -> ChatReply;   (* model, prompt *)
  json_loads : string -> option Args;     (* [None]: it raises *)
  rstrip : string -> string;
  upper : string -> string;
  write_outcome : string -> string -> WriteOutcome   (* path, text written *)
}.

(** The state [consolidate] works on: the files, the session, the log
    and the prompts sent to the provider so far. *)
Record State := {
  files : gmap string string;
  session : Session;
  logged : list (Level * string);
  prompts : list string
}.

Definition log (lvl : Level) (template : string) (s : State) : State :=
  {| files := files s; session := session s;
     logged := logged s ++ [(lvl, template)]; prompts := prompts s |}.

Definition set_files (fs : gmap string string) (s : State) : State :=
  {| files := fs; session := session s;
     logged := logged s; prompts := prompts s |}.

Definition set_last_consolidated (n : Z) (s : State) : State :=
  {| files := files s;
     session := {| messages := messages (session s); last_consolidated := n |};
     logged := logged s; prompts := prompts s |}.

Definition sent (prompt : string) (s : State) : State :=
  {| files := files s; session := session s;
     logged := logged s; prompts := prompts s ++ [prompt] |}.

(** The files after a write that raised. *)
Definition failed_write (p : string) (residue : option string)
    (fs : gmap string string) : gmap string string :=
  match residue with
  | Some text => <[p := text]> fs
  | None => fs
  end.

(** One write inside the [try] block of lines 187-226: [written] is the
    text handed to the file, [fs'] the files when the write goes through.
    The flag tells whether it did. *)
Definition try_write (d : Deps) (p written : string)
    (fs' : gmap string string) (s : State) : bool * State :=
  match write_outcome d p written with
  | Written => (true, set_files fs' s)
  | WriteRaises residue =>
      (false, set_files (failed_write p residue (files s)) s)
  end.

(** Lines 211-223: the tool call's arguments are applied.  A write that
    raises is caught by the [except] of line 224. *)
Definition apply_args (st : Store) (d : Deps) (archive_all : bool)
    (keep_count : Z) (current_memory : string)
    (history_entry memory_update : option JVal) (s : State)
    : Res bool * State :=
  let r1 :=
    if jtruthy history_entry
    then try_write d (history_file st)
           (rstrip d (jtext history_entry) +:+ nl +:+ nl)
           (append_history st (rstrip d) (jtext history_entry) (files s)) s
    else (true, s) in
  if negb r1.1 then (Val false, log Error "Memory consolidation failed" r1.2)
  else
    let s1 := r1.2 in
    let r2 :=
      if jtruthy memory_update
         && negb (String.eqb (jtext memory_update) current_memory)
      then try_write d (memory_file st) (jtext memory_update)
             (write_long_term st (jtext memory_update) (files s1)) s1
      else (true, s1) in
    if negb r2.1 then (Val false, log Error "Memory consolidation failed" r2.2)
    else
      let s2 := r2.2 in
      let n := Z.of_nat (length (messages (session s2))) in
      let s3 :=
        set_last_consolidated (if archive_all then 0 else n - keep_count) s2 in
      (Val true,
       log Info "Memory consolidation done: {} messages, last_consolidated={}"
         s3).

(** Lines 173-226, from the messages to consolidate on. *)
Definition consolidate_messages (st : Store) (d : Deps) (model : string)
    (archive_all : bool) (keep_count : Z) (old_messages : list Message)
    (s : State) : Res bool * State :=
  match format_lines (upper d) old_messages with
  | None => (Exc "KeyError", s)
  | Some lines =>
      let current_memory := read_long_term st (files s) in
      let prompt := build_prompt current_memory lines in
      let s := sent prompt s in
      match chat d model prompt with
      | ChatRaises => (Val false, log Error "Memory consolidation failed" s)
      | NoToolCalls =>
          (Val false,
           log Warning
             "Memory consolidation: LLM did not call save_memory, skipping" s)
      | ToolCall args =>
          let decoded :=
            match args with
            | ArgsText t => json_loads d t
            | _ => Some args
            end in
          match decoded with
          | None => (Val false, log Error "Memory consolidation failed" s)
          | Some (ArgsDict h u) =>
              apply_args st d archive_all keep_count current_memory h u s
          | Some _ =>
              (Val false,
               log Warning
                 "Memory consolidation: unexpected arguments type {}" s)
          end
      end
  end.

Definition consolidate (st : Store) (d : Deps) (model : string)
    (archive_all : bool) (memory_window : Z) (s : State)
    : Res bool * State :=
  let msgs := messages (session s) in
  let n := Z.of_nat (length msgs) in
  if archive_all then
    consolidate_messages st d model true 0 msgs
      (log Info "Memory consolidation (archive_all): {} messages" s)
  else
    let keep_count := memory_window / 2 in
    if n <=? keep_count then (Val true, s)
    else if n - last_consolidated (session s) <=? 0 then (Val true, s)
    else
      let old_messages :=
        py_slice msgs (last_consolidated (session s)) (- keep_count) in
      match old_messages with
      | [] => (Val true, s)
      | _ =>
          consolidate_messages st d model false keep_count old_messages
            (log Info "Memory consolidation: {} to consolidate, {} keep" s)
      end.

(** *** Sample data *)

Definition store0 : Store := {| memory_dir := "ws/memory" |}.

Definition msg_user (text : string) : Message :=
  {| content := Some text; role := Some "user";
     timestamp := Some "2026-01-02T03:04:05"; tools_used := [] |}.

(** A provider that always calls the tool with the same dict. *)
Definition deps_ok : Deps :=
  {| chat := fun _ _ =>
       ToolCall (ArgsDict (Some (JStr "[2026-01-02 03:04] talked  "))
                   (Some (JStr "likes tea")));
     json_loads := fun _ => None;
     rstrip := fun s => s;
     upper := fun s => s;
     write_outcome := fun _ _ => Written |}.

(** The same provider on a disk where every write raises and leaves the
    file empty. *)
Definition deps_disk_full : Deps :=
  {| chat := chat deps_ok;
     json_loads := fun _ => None;
     rstrip := fun s => s;
     upper := fun s => s;
     write_outcome := fun _ _ => WriteRaises (Some "") |}.

(** A provider whose answer holds no tool call. *)
Definition deps_silent : Deps :=
  {| chat := fun _ _ => NoToolCalls;
     json_loads := fun _ => None;
     rstrip := fun s => s;
     upper := fun s => s;
     write_outcome := fun _ _ => Written |}.

Definition state0 (n : nat) : State :=
  {| files := ∅;
     session := {| messages := map msg_user (replicate n "hi");
                   last_consolidated := 0 |};
     logged := []; prompts := [] |}.

(** The prompt for the first three of five sample messages and an empty
    long-term memory. *)
Definition prompt0 : string :=
  build_prompt ""
    (replicate 3 "[2026-01-02T03:04] user: hi").

(** All the appends of a list of notes, in order, and the text they add
    to a file that exists. *)
Definition append_all (st : Store) (today : string) (notes : list string)
    (fs : gmap string string) : gmap string string :=
  fold_left (fun fs c => append_today st today c fs) notes fs.

Fixpoint appended (notes : list string) : string :=
  match notes with
  | [] => ""
  | c :: rest => nl +:+ c +:+ appended rest
  end.

(** All the history entries written, in order. *)
Definition append_history_all (st : Store) (rstrip : string -> string)
    (entries : list string) (fs : gmap string string) : gmap string string :=
  fold_left (fun fs e => append_history st rstrip e fs) entries fs.

Fixpoint history_text (rstrip : string -> string) (entries : list string)
    : string :=
  match entries with
  | [] => ""
  | e :: rest => rstrip e +:+ nl +:+ nl +:+ history_text rstrip rest
  end.

End MemoryStore.

(* ================================================================== *)
(** ** The channel's methods *)

Section Channel.

Variable cfg : DingTalkConfig.
Variable env : Env.

(** *** Primitive effects *)

Definition emit (e : Event) : M unit :=
  modify (fun w => set_trace (trace w ++ [e]) w).

Definition log (lvl : Level) (template : string) : M unit :=
  emit (EvLog lvl template).

(** [time.time()] *)
Definition time_time : M Z :=
  fun w => (Val (clock env (ticks w)), set_ticks (S (ticks w)) w).

(** [uuid.uuid4().hex] *)
Definition uuid4_hex : M string :=
  fun w => (Val (uuids env (minted w)), set_minted (S (minted w)) w).

(** [await self._http.post(...)] / [put(...)]: the request goes out and
    the server's outcome comes back. *)
Definition http_request (r : Request) : M Reply :=
  fun w => (Val (replies env (served w)),
            set_served (S (served w)) (set_trace (trace w ++ [EvHttp r]) w)).

(** Attribute access on a card object. *)
Definition deref (l : loc) : M _ActiveCard :=
  fun w => match heap w !! l with
           | Some c => (Val c, w)
           | None => (Exc "dangling card", w)
           end.

(** Attribute assignment on a card object. *)
Definition update (l : loc) (f : _ActiveCard -> _ActiveCard) : M unit :=
  c <- deref l ;; modify (fun w => set_heap (<[l := f c]> (heap w)) w).

(** Construction of a new card object. *)
Definition alloc (c : _ActiveCard) : M loc :=
  fun w => (Val (length (heap w)), set_heap (heap w ++ [c]) w).

(** *** [_get_access_token] *)

Definition _get_access_token : M (option string) :=
  tok <- gets _access_token ;;
  (* [and] short-circuits: the clock is read only when a token is cached *)
  valid <- (if truthy tok
            then (now <- time_time ;;
                  expiry <- gets _token_expiry ;;
                  ret (now <? expiry))
            else ret false) ;;
  if valid then ret tok
  else
    http <- gets _http ;;
    if negb http then
      log Warning "DingTalk HTTP client not initialized, cannot refresh token" ;;;
      ret None
    else
      r <- http_request (ReqAccessToken (client_id cfg) (client_secret cfg)) ;;
      match r with
      | Raised =>
          log Error "Failed to get DingTalk access token: {}" ;;; ret None
      | Status code body =>
          if negb (is_success code) then       (* raise_for_status *)
            log Error "Failed to get DingTalk access token: {}" ;;; ret None
          else
            match body with
            | NotJsonObject =>                  (* resp.json() / .get raise *)
                log Error "Failed to get DingTalk access token: {}" ;;;
                ret None
            | JsonObject tok' ttl =>
                modify (set_access_token tok') ;;;
                now <- time_time ;;
                match ttl with
                | ExpBad =>                     (* int(...) raises *)
                    log Error "Failed to get DingTalk access token: {}" ;;;
                    ret None
                | ExpMissing =>
                    modify (set_token_expiry (now + 7200 - 60)) ;;;
                    gets _access_token
                | ExpInt z =>
                    modify (set_token_expiry (now + z - 60)) ;;;
                    gets _access_token
                end
            end
      end.

(** *** [_send_text] *)

Definition _send_text (msg : OutboundMessage) : M unit :=
  if meta_is (metadata msg) "_dingtalk_conversation_type" "2" then
    log Warning
      "Text fallback not supported for group chats, skipping message to {}"
  else
    token <- _get_access_token ;;
    if negb (truthy token) then ret tt
    else
      http <- gets _http ;;
      if negb http then
        log Warning "DingTalk HTTP client not initialized, cannot send"
      else
        r <- http_request (ReqBatchSend (default "" token) (client_id cfg)
                             (chat_id msg) (content msg)) ;;
        match r with
        | Raised => log Error "Error sending DingTalk message: {}"
        | Status code _ =>
            if negb (code =? 200) then log Error "DingTalk send failed: {}"
            else log Debug "DingTalk message sent to {}"
        end.

(** *** Card API helpers *)

Definition _build_open_space_id (md : gmap string PyVal) : string :=
  if meta_is md "_dingtalk_conversation_type" "2" then
    "dtv1.card//IM_GROUP." +:+ py_str (meta_get md "_dingtalk_conversation_id")
  else
    "dtv1.card//IM_ROBOT." +:+ py_str (meta_get md "_dingtalk_sender_staff_id").

Definition _card_create (msg : OutboundMessage) : M (option loc) :=
  token <- _get_access_token ;;
  http <- gets _http ;;
  if negb (truthy token) || negb http then ret None
  else
    u <- uuid4_hex ;;
    let card_instance_id := "card_" +:+ u in
    r <- http_request
           (ReqCreateAndDeliver (default "" token) card_instance_id
              (_build_open_space_id (metadata msg))
              (meta_is (metadata msg) "_dingtalk_conversation_type" "2")) ;;
    match r with
    | Raised => log Error "Error creating DingTalk AI card: {}" ;;; ret None
    | Status code _ =>
        if negb (code =? 200) then
          log Error "DingTalk card create failed ({}): {}" ;;; ret None
        else
          log Debug "DingTalk AI card created: {}" ;;;
          now <- time_time ;;
          l <- alloc {| card_instance_id := card_instance_id;
                        accumulated_content := "";
                        inputing_started := false;
                        created_at := now |} ;;
          ret (Some l)
    end.

Definition _card_put_data (l : loc) (flow_status content : string) : M unit :=
  token <- _get_access_token ;;
  http <- gets _http ;;
  if negb (truthy token) || negb http then ret tt
  else
    card <- deref l ;;
    r <- http_request (ReqPutData (default "" token) (card_instance_id card)
                         flow_status content) ;;
    match r with
    | Raised => log Error "Error updating DingTalk AI card data: {}"
    | Status code _ =>
        if negb (code =? 200) then
          log Error "DingTalk card put_data failed ({}): {}"
        else log Debug "DingTalk card put_data (flowStatus={})"
    end.

Definition _card_ensure_inputing (l : loc) : M unit :=
  card <- deref l ;;
  if inputing_started card then ret tt
  else
    _card_put_data l "2" "" ;;;
    update l (with_inputing true).

Definition _card_stream (l : loc) (content : string) (is_finalize : bool)
  : M unit :=
  _card_ensure_inputing l ;;;
  token <- _get_access_token ;;
  http <- gets _http ;;
  if negb (truthy token) || negb http then ret tt
  else
    card <- deref l ;;
    guid <- uuid4_hex ;;
    r <- http_request (ReqStreaming (default "" token) (card_instance_id card)
                         guid content is_finalize) ;;
    match r with
    | Raised => log Error "Error streaming DingTalk AI card: {}"
    | Status code _ =>
        if negb (code =? 200) then
          log Error "DingTalk card streaming failed ({}): {}"
        else log Debug "DingTalk card streamed (finalize={})"
    end.

(** [card.accumulated_content or "..."] *)
Definition final_content (card : _ActiveCard) : string :=
  if String.eqb (accumulated_content card) "" then "..."
  else accumulated_content card.

Definition _card_finish (l : loc) : M unit :=
  card <- deref l ;;
  let content := final_content card in
  _card_stream l content true ;;;
  _card_put_data l "3" content.

(** *** [_send_ai_card] *)

Definition append_content (s : string) (c : _ActiveCard) : _ActiveCard :=
  with_content (accumulated_content c +:+ s) c.

(** Lines 315-324: the card to go on with, after evicting a stale one. *)
Definition evict_stale (chat : string) : M (option loc) :=
  card <- gets (fun w => Dict.get chat (_active_cards w)) ;;
  match card with
  | None => ret None
  | Some l =>
      c <- deref l ;;
      now <- time_time ;;
      if (now - created_at c) >? _CARD_TTL_SECONDS then
        log Warning "Evicting stale AI card for chat {}" ;;;
        try_except (_card_finish l) (fun _ => ret tt) ;;;
        modify (fun w => set_active_cards (Dict.remove chat (_active_cards w)) w) ;;;
        ret None
      else ret (Some l)
  end.

(** The separator ["\n\n"] put after each progress message. *)
Definition sep : string :=
  String (Ascii.ascii_of_nat 10) (String (Ascii.ascii_of_nat 10) EmptyString).

(** Lines 335-337. *)
Definition accumulate_and_stream (msg : OutboundMessage) (l : loc) : M unit :=
  update l (append_content (content msg +:+ sep)) ;;;
  c <- deref l ;;
  _card_stream l (accumulated_content c) false.

(** Lines 326-352: the dispatch on [is_progress] and on the card found. *)
Definition dispatch (msg : OutboundMessage) (card : option loc) : M unit :=
  let chat := chat_id msg in
  if meta_truthy (metadata msg) "_progress" then
    match card with
    | None =>
        created <- _card_create msg ;;
        match created with
        | None => _send_text msg
        | Some l =>
            modify (fun w => set_active_cards (Dict.set chat l (_active_cards w)) w) ;;;
            accumulate_and_stream msg l
        end
    | Some l => accumulate_and_stream msg l
    end
  else
    match card with
    | Some l =>
        update l (append_content (content msg)) ;;;
        _card_finish l ;;;
        modify (fun w => set_active_cards (Dict.remove chat (_active_cards w)) w)
    | None =>
        created <- _card_create msg ;;
        match created with
        | None => _send_text msg
        | Some l =>
            update l (with_content (content msg)) ;;;
            _card_finish l
        end
    end.

Definition _send_ai_card (msg : OutboundMessage) : M unit :=
  card <- evict_stale (chat_id msg) ;;
  dispatch msg card.

Definition send (msg : OutboundMessage) : M unit :=
  if String.eqb (reply_mode cfg) "ai_card"
     && meta_truthy (metadata msg) "_dingtalk_conversation_type"
  then _send_ai_card msg
  else _send_text msg.

(** *** Inbound path *)

(** Modelled from the spec: [BaseChannel._handle_message] is not among the
    sources.  The spec only fixes that it performs the permission check
    and forwards to the bus; the hand-over to it is recorded as one
    event. *)
Definition _handle_message (sender_id chat content : string) : M unit :=
  emit (EvHandleMessage sender_id chat content).

Definition _on_message (content sender_id sender_name : string)
    (chat : option string) : M unit :=
  let resolved_chat_id := if truthy chat then default "" chat else sender_id in
  try_except
    (old_card <- gets (fun w => Dict.get resolved_chat_id (_active_cards w)) ;;
     modify (fun w => set_active_cards
                        (Dict.remove resolved_chat_id (_active_cards w)) w) ;;;
     match old_card with
     | Some l =>
         log Info "Finishing stale AI card for {} (new message received)" ;;;
         try_except (_card_finish l)
           (fun _ => log Warning "Failed to finish stale card: {}")
     | None => ret tt
     end ;;;
     log Info "DingTalk inbound: {} from {}" ;;;
     _handle_message sender_id resolved_chat_id content)
    (fun _ => log Error "Error publishing DingTalk message: {}").

(** *** [stop] *)

(** [stop] with the finalizer left open: [self._card_finish] is looked up
    on the object, and the loop must cope with one that raises. *)
Definition stop_with (finish : loc -> M unit) : M unit :=
  modify (set_running false) ;;;
  cards <- gets _active_cards ;;
  for_each cards
    (fun kv => try_except (finish kv.2)
                 (fun _ => log Warning "Failed to finish card for {} on stop: {}")) ;;;
  modify (set_active_cards []) ;;;
  http <- gets _http ;;
  (if http then emit EvHttpClose ;;; modify (set_http false) else ret tt) ;;;
  tasks <- gets _background_tasks ;;
  for_each (elements tasks) (fun t => emit (EvCancel t)) ;;;
  modify (set_background_tasks ∅).

Definition stop : M unit := stop_with _card_finish.

(* ================================================================ *)
(** ** Predicates used in the statements *)

(** A card object may only have its [inputing_started] flag raised. *)
Definition heap_kept (h h' : list _ActiveCard) : Prop :=
  length h' = length h /\
  forall l c, h !! l = Some c ->
    h' !! l = Some c \/ h' !! l = Some (with_inputing true c).

Record kept (w w' : Channel) : Prop := {
  kept_cards : _active_cards w' = _active_cards w;
  kept_http : _http w' = _http w;
  kept_tasks : _background_tasks w' = _background_tasks w;
  kept_running : _running w' = _running w;
  kept_heap : heap_kept (heap w) (heap w')
}.

(** Events a command added to the trace. *)
Definition added (w w' : Channel) (evs : list Event) : Prop :=
  trace w' = trace w ++ evs.

(** Events of a token refresh: the exchange request and log records. *)
Definition token_event (e : Event) : Prop :=
  match e with
  | EvLog _ _ => True
  | EvHttp (ReqAccessToken _ _) => True
  | _ => False
  end.

(** Events of the helpers working on the card with track id [id]. *)
Definition card_event (id : string) (e : Event) : Prop :=
  match e with
  | EvLog _ _ => True
  | EvHttp (ReqAccessToken _ _) => True
  | EvHttp (ReqPutData _ i _ _) => i = id
  | EvHttp (ReqStreaming _ i _ _ _) => i = id
  | _ => False
  end.

(** The announce call: a card-data update with flowStatus "2". *)
Definition is_announce (e : Event) : bool :=
  match e with
  | EvHttp r => is_put_data "2" r
  | _ => false
  end.

Definition announces (evs : list Event) : nat :=
  length (List.filter is_announce evs).

(** The client is initialised and the cached token [t] stays valid for
    the whole run. *)
Definition token_ready (t : string) (w : Channel) : Prop :=
  _http w = true /\ _access_token w = Some t /\ t <> "" /\
  forall n, clock env n < _token_expiry w.

(** The announce call of a card that has not been announced yet. *)
Definition announce_call (t : string) (c : _ActiveCard) : list Request :=
  if inputing_started c then []
  else [ReqPutData t (card_instance_id c) "2" ""].

(** *** Claims as the specification words them, where the code differs *)


(** *** Sample configurations, environments and states *)

Definition cfg0 : DingTalkConfig :=
  {| client_id := "bot"; client_secret := "secret"; reply_mode := "ai_card" |}.

Definition uuids0 (n : nat) : string :=
  match n with
  | O => "a0"
  | S O => "a1"
  | S (S O) => "a2"
  | S (S (S O)) => "a3"
  | _ => "a9"
  end.

(** A server that accepts every request, at a fixed time of day. *)
Definition env_ok : Env :=
  {| clock := fun _ => 1000;
     replies := fun _ => Status 200 NotJsonObject;
     uuids := uuids0 |}.

(** A server that answers every request with a 500 error. *)
Definition env_500 : Env :=
  {| clock := fun _ => 1000;
     replies := fun _ => Status 500 NotJsonObject;
     uuids := uuids0 |}.

(** A started channel with a valid cached token and no card. *)
Definition w_ready : Channel :=
  {| _running := true; _http := true;
     _access_token := Some "tok"; _token_expiry := 5000;
     _background_tasks := ∅; _active_cards := []; heap := [];
     ticks := 0; served := 0; minted := 0; trace := [] |}.


Definition with_cards (d : list (string * loc)) (h : list _ActiveCard)
    (w : Channel) : Channel :=
  set_active_cards d (set_heap h w).


(** A run of successive [_card_stream] invocations on one card. *)
Definition stream_all (l : loc) (calls : list (string * bool)) : M unit :=
  for_each calls (fun sf => _card_stream l sf.1 sf.2).

(** C9 as stated: with a usable token, an announce call that the server
    refused is attempted again by the next [_card_stream] on the card. *)
Definition announce_retry_claimed (t : string) (w : Channel) (l : loc) : Prop :=
  forall c s1 f1 s2 f2,
    token_ready t w -> heap w !! l = Some c -> inputing_started c = false ->
    (forall n b, replies env n <> Status 200 b) ->
    let w1 := exec (_card_stream l s1 f1) w in
    exists evs, added w1 (exec (_card_stream l s2 f2) w1) evs /\
                (1 <= announces evs)%nat.

(** A card that has been created but not announced. *)
Definition card_new : _ActiveCard :=
  {| card_instance_id := "card_y"; accumulated_content := "hello";
     inputing_started := false; created_at := 900 |}.

Definition w_new : Channel :=
  with_cards [("chat", 0%nat)] [card_new] w_ready.

(** Events of the plain-text path. *)
Definition text_event (e : Event) : Prop :=
  match e with
  | EvLog _ _ => True
  | EvHttp (ReqAccessToken _ _) => True
  | EvHttp (ReqBatchSend _ _ _ _) => True
  | _ => False
  end.

(** The card object [_card_create] builds with track id [id] at time [now]. *)
Definition new_card (id : string) (now : Z) : _ActiveCard :=
  {| card_instance_id := id; accumulated_content := "";
     inputing_started := false; created_at := now |}.

(** Events of a card creation with track id [id]. *)
Definition create_event (id : string) (e : Event) : Prop :=
  match e with
  | EvLog _ _ => True
  | EvHttp (ReqAccessToken _ _) => True
  | EvHttp (ReqCreateAndDeliver _ i _ _) => i = id
  | _ => False
  end.

Definition is_group (msg : OutboundMessage) : bool :=
  meta_is (metadata msg) "_dingtalk_conversation_type" "2".

Definition is_progress (msg : OutboundMessage) : bool :=
  meta_truthy (metadata msg) "_progress".

Definition group_warning : Event :=
  EvLog Warning
    "Text fallback not supported for group chats, skipping message to {}".

(** A progress message of a group conversation. *)
Definition group_meta : gmap string PyVal :=
  <["_progress" := PBool true]>
    (<["_dingtalk_conversation_type" := PStr "2"]>
       (<["_dingtalk_conversation_id" := PStr "cid42"]> ∅)).

Definition msg_group : OutboundMessage :=
  {| chat_id := "chat"; content := "thinking..."; metadata := group_meta |}.

(** [chat_id or sender_id] *)
Definition resolve_chat (chat : option string) (sender_id : string) : string :=
  if truthy chat then default "" chat else sender_id.

(** The state in which [_on_message] hands the message over, when the
    registry holds card [l] for chat [k]: the card popped, the
    interruption logged, the card finalized, the inbound message logged. *)
Definition interrupted (k : string) (l : loc) (w : Channel) : Channel :=
  exec (log Info "DingTalk inbound: {} from {}")
    (exec (_card_finish l)
       (exec (log Info "Finishing stale AI card for {} (new message received)")
          (set_active_cards (Dict.remove k (_active_cards w)) w))).

Definition stop_warning : Event :=
  EvLog Warning "Failed to finish card for {} on stop: {}".

(** One finalize attempt of [stop]: the finalizer runs, and if it raises
    the failure is logged. *)
Definition attempt (finish : loc -> M unit) (l : loc) (w : Channel) : Channel :=
  match finish l w with
  | (Val _, w1) => w1
  | (Exc _, w1) => set_trace (trace w1 ++ [stop_warning]) w1
  end.

(** The attempts for all the cards of a registry snapshot, in order, each
    on the state its predecessor left. *)
Definition attempt_all (finish : loc -> M unit) (cards : list (string * loc))
    (w : Channel) : Channel :=
  fold_left (fun w kv => attempt finish kv.2 w) cards w.

(** The state after the eviction of the stale card [l] of chat [k]
    (lines 317-324): the clock read, the warning logged, the card
    finalized, the key popped. *)
Definition evicted (k : string) (l : loc) (w : Channel) : Channel :=
  let w2 := exec (_card_finish l)
              (exec (log Warning "Evicting stale AI card for chat {}")
                 (set_ticks (S (ticks w)) w)) in
  set_active_cards (Dict.remove k (_active_cards w2)) w2.

(** Events that concern no card, or a card whose track id was minted by
    the uuid generator. *)
Definition minted_event (e : Event) : Prop :=
  match e with
  | EvLog _ _ => True
  | EvHttp r =>
      match track_of r with
      | Some i => exists n, i = "card_" +:+ uuids env n
      | None => True
      end
  | _ => False
  end.

(** No request of the event is addressed to the card with track id [id]. *)
Definition not_to (id : string) (e : Event) : Prop :=
  forall r, e = EvHttp r -> track_of r <> Some id.

(** The test of line 232: a token is cached and the clock is before its
    expiry. *)
Definition token_valid (w : Channel) : bool :=
  truthy (_access_token w) && (clock env (ticks w) <? _token_expiry w).

(** The state after that test: the clock was read only if a token is
    cached. *)
Definition after_check (w : Channel) : Channel :=
  if truthy (_access_token w) then set_ticks (S (ticks w)) w else w.

(** A refresh that fails before the reply body is used: transport
    exception, error status, or a body that is not a JSON object. *)
Definition exchange_failed (r : Reply) : bool :=
  match r with
  | Raised => true
  | Status code NotJsonObject => true
  | Status code (JsonObject _ _) => negb (is_success code)
  end.

(** A server whose token reply has an [expireIn] that [int] rejects. *)
Definition env_bad_ttl : Env :=
  {| clock := fun _ => 1000;
     replies := fun _ => Status 200 (JsonObject (Some "new") ExpBad);
     uuids := uuids0 |}.

(** A started channel whose cached token "old" expired at time 500. *)
Definition w_expired : Channel :=
  {| _running := true; _http := true;
     _access_token := Some "old"; _token_expiry := 500;
     _background_tasks := ∅; _active_cards := []; heap := [];
     ticks := 0; served := 0; minted := 0; trace := [] |}.

(** The channel holding the unannounced card, its HTTP client gone. *)
Definition w_offline : Channel := set_http false w_new.

(** A card created at time 100, long before the sample clock (1000). *)
Definition card_old : _ActiveCard :=
  {| card_instance_id := "card_old"; accumulated_content := "partial";
     inputing_started := true; created_at := 100 |}.

Definition w_stale : Channel :=
  with_cards [("chat", 0%nat)] [card_old] w_ready.

Definition msg_progress2 : OutboundMessage :=
  {| chat_id := "chat"; content := "still thinking..."; metadata := group_meta |}.

(** A final message: no [_progress] entry. *)
Definition final_meta : gmap string PyVal :=
  <["_dingtalk_conversation_type" := PStr "2"]>
    (<["_dingtalk_conversation_id" := PStr "cid42"]> ∅).

Definition msg_final : OutboundMessage :=
  {| chat_id := "chat"; content := "done"; metadata := final_meta |}.

(** A finalizer that raises on card 0 and is [_card_finish] otherwise. *)
Definition finish_boom (l : loc) : M unit :=
  if Nat.eqb l 0 then raise "boom" else _card_finish l.

(** Two open cards and two tracked background tasks. *)
Definition w_two : Channel :=
  set_background_tasks {[3%nat; 5%nat]}
    (with_cards [("a", 0%nat); ("b", 1%nat)] [card_new; card_old] w_ready).

(** *** Further predicates *)

(** Every registered card is an allocated object. *)
Definition registry_valid (w : Channel) : Prop :=
  forall k (l : loc), Dict.get k (_active_cards w) = Some l ->
    (l < length (heap w))%nat.

(** A private-chat message without card routing data. *)
Definition msg_plain : OutboundMessage :=
  {| chat_id := "user7"; content := "hello"; metadata := ∅ |}.

(** The configuration with the text reply mode. *)
Definition cfg_text : DingTalkConfig :=
  {| client_id := "bot"; client_secret := "secret"; reply_mode := "text" |}.

(** *** The stream handler: [NanobotDingTalkHandler.process] *)

(** A text entry of an incoming message: absent, present as a string, or
    present in a form on which reading the content raises. *)
Inductive TextField :=
| NoText
| BadText
| Text (s : string).

(** The attributes of the SDK's [ChatbotMessage] that [process] reads. *)
Record ChatbotMessage := {
  cm_text : TextField;
  cm_sender_staff_id : option string;
  cm_sender_id : option string;
  cm_sender_nick : option string;
  cm_conversation_type : option string;
  cm_conversation_id : option string;
  cm_sender_corp_id : option string;
  cm_message_id : option string
}.

(** The arguments of the [_on_message] call that [process] schedules. *)
Record InboundCall := {
  ic_content : string;
  ic_sender_id : PyVal;
  ic_sender_name : string;
  ic_chat_id : PyVal;
  ic_metadata : gmap string PyVal
}.

(** What [process] does besides acknowledging: nothing (empty message),
    nothing after an exception, or the scheduling of one call. *)
Inductive Outcome :=
| Ignored
| Errored
| Scheduled (c : InboundCall).

Definition of_attr (a : option string) : PyVal :=
  match a with Some s => PStr s | None => PNone end.

(** [a or b] for an attribute [a]. *)
Definition attr_or (a : option string) (b : PyVal) : PyVal :=
  if truthy a then of_attr a else b.

(** [a or d] for an attribute [a] and a string [d]. *)
Definition attr_or_str (a : option string) (d : string) : string :=
  if truthy a then default "" a else d.

(** The stripped content of a text entry; [strip] is [str.strip]. *)
Definition stripped (strip : string -> string) (f : TextField)
    : option string :=
  match f with
  | NoText => Some (strip "")
  | BadText => None
  | Text s => Some (strip s)
  end.

(** Lines 92-107: the metadata of the call. *)
Definition inbound_metadata (m : ChatbotMessage) (data : gmap string PyVal)
    (sender_name : string) : gmap string PyVal :=
  let base : gmap string PyVal :=
    <["platform" := PStr "dingtalk"]> (<["sender_name" := PStr sender_name]> ∅) in
  if String.eqb (reply_mode cfg) "ai_card" then
    <["_dingtalk_message_id" :=
        attr_or (cm_message_id m) (meta_get data "msgId")]>
    (<["_dingtalk_sender_corp_id" := PStr (attr_or_str (cm_sender_corp_id m) "")]>
    (<["_dingtalk_sender_id" := PStr (attr_or_str (cm_sender_id m) "")]>
    (<["_dingtalk_sender_staff_id" :=
         PStr (attr_or_str (cm_sender_staff_id m) "")]>
    (<["_dingtalk_conversation_id" :=
         attr_or (cm_conversation_id m) (meta_get data "conversationId")]>
    (<["_dingtalk_conversation_type" :=
         PStr (py_str (attr_or (cm_conversation_type m)
                         (meta_get data "conversationType")))]>
       base)))))
  else base.

(** [process], lines 68-129.  [strip] is [str.strip], [parsed] the result
    of [ChatbotMessage.from_dict] ([None]: it raised), [raw_text] the entry
    [data["text"]["content"]] of the raw message. *)
Definition process (strip : string -> string)
    (parsed : option ChatbotMessage) (raw_text : TextField)
    (data : gmap string PyVal) : Outcome :=
  match parsed with
  | None => Errored
  | Some m =>
      match (match cm_text m with
             | NoText => Some ""
             | BadText => None
             | Text s => Some (strip s)
             end) with
      | None => Errored
      | Some c1 =>
          match (if String.eqb c1 "" then stripped strip raw_text
                 else Some c1) with
          | None => Errored
          | Some content =>
              if String.eqb content "" then Ignored
              else
                let sender_id :=
                  attr_or (cm_sender_staff_id m) (of_attr (cm_sender_id m)) in
                let sender_name := attr_or_str (cm_sender_nick m) "Unknown" in
                let metadata := inbound_metadata m data sender_name in
                let chat :=
                  if meta_is metadata "_dingtalk_conversation_type" "2" then
                    attr_or (cm_conversation_id m)
                      (default sender_id (data !! "conversationId"))
                  else sender_id in
                Scheduled {| ic_content := content;
                             ic_sender_id := sender_id;
                             ic_sender_name := sender_name;
                             ic_chat_id := chat;
                             ic_metadata := metadata |}
          end
      end
  end.

(** A reply carries the routing data of the inbound message it answers:
    its metadata agree with it on every key but the progress flag. *)
Definition answers (msg : OutboundMessage) (c : InboundCall) : Prop :=
  forall k, k <> "_progress" -> metadata msg !! k = ic_metadata c !! k.

(** *** Further sample data *)

(** A card created at time 400: at the sample clock (1000) its age is
    exactly the time to live. *)
Definition card_edge : _ActiveCard :=
  {| card_instance_id := "card_e"; accumulated_content := "so far";
     inputing_started := true; created_at := 400 |}.

Definition w_edge : Channel :=
  with_cards [("chat", 0%nat)] [card_edge] w_ready.

(** A server that answers the token exchange with a token valid for two
    hours. *)
Definition env_token : Env :=
  {| clock := fun _ => 1000;
     replies := fun _ => Status 200 (JsonObject (Some "fresh") (ExpInt 7200));
     uuids := uuids0 |}.

(** A text message of a group conversation as the SDK parses it. *)
Definition cm_group : ChatbotMessage :=
  {| cm_text := Text "hello";
     cm_sender_staff_id := Some "staff1";
     cm_sender_id := Some "sid1";
     cm_sender_nick := Some "Ann";
     cm_conversation_type := Some "2";
     cm_conversation_id := Some "cid42";
     cm_sender_corp_id := None;
     cm_message_id := Some "m1" |}.

(** A [strip] for texts without surrounding white space. *)
Definition strip_none (s : string) : string := s.

(* ================================================================ *)
(** ** Registry lemmas *)

Lemma dict_get_remove_eq k d : Dict.get k (Dict.remove k d) = None.
Proof.
  induction d as [|[k' v] d IH]; simpl; [done|].
  destruct (String.eqb k k') eqn:E; [done|]. simpl. by rewrite E.
Qed.

Lemma dict_get_remove_ne k k' d :
  k <> k' -> Dict.get k' (Dict.remove k d) = Dict.get k' d.
Proof.
  intros Hne. induction d as [|[k0 v] d IH]; simpl; [done|].
  destruct (String.eqb k k0) eqn:E.
  - apply String.eqb_eq in E. subst k0.
    destruct (String.eqb k' k) eqn:E'; [|done].
    apply String.eqb_eq in E'. congruence.
  - simpl. by rewrite IH.
Qed.

Lemma dict_get_set_eq k v d : Dict.get k (Dict.set k v d) = Some v.
Proof.
  induction d as [|[k' v'] d IH]; simpl.
  - by rewrite String.eqb_refl.
  - destruct (String.eqb k k') eqn:E; simpl; by rewrite E.
Qed.

Lemma dict_get_set_ne k k' v d :
  k <> k' -> Dict.get k' (Dict.set k v d) = Dict.get k' d.
Proof.
  intros Hne. induction d as [|[k0 v0] d IH]; simpl.
  - destruct (String.eqb k' k) eqn:E; [|done].
    apply String.eqb_eq in E. congruence.
  - destruct (String.eqb k k0) eqn:E; simpl.
    + apply String.eqb_eq in E. subst k0.
      destruct (String.eqb k' k) eqn:E'; [|done].
      apply String.eqb_eq in E'. congruence.
    + by rewrite IH.
Qed.

Lemma dict_keys_set_in k v d :
  k ∈ Dict.keys d -> Dict.keys (Dict.set k v d) = Dict.keys d.
Proof.
  unfold Dict.keys. induction d as [|[k' v'] d IH]; simpl.
  - intros H. by apply elem_of_nil in H.
  - intros H. destruct (String.eqb k k') eqn:E; simpl; [done|].
    f_equal. apply IH. apply elem_of_cons in H as [->|H]; [|done].
    by rewrite String.eqb_refl in E.
Qed.

Lemma dict_keys_set_notin k v d :
  k ∉ Dict.keys d -> Dict.keys (Dict.set k v d) = Dict.keys d ++ [k].
Proof.
  unfold Dict.keys. induction d as [|[k' v'] d IH]; simpl; [done|].
  intros H. apply not_elem_of_cons in H as [Hne H].
  destruct (String.eqb k k') eqn:E; simpl.
  - apply String.eqb_eq in E. congruence.
  - f_equal. by apply IH.
Qed.

Lemma dict_keys_remove_sub k k' d :
  k' ∈ Dict.keys (Dict.remove k d) -> k' ∈ Dict.keys d.
Proof.
  unfold Dict.keys. induction d as [|[k0 v0] d IH]; simpl; [done|].
  destruct (String.eqb k k0); simpl; rewrite !elem_of_cons; tauto.
Qed.

(** At most one card per conversation key: the registry operations keep
    the keys free of duplicates. *)
Lemma dict_wf_set k v d : Dict.wf d -> Dict.wf (Dict.set k v d).
Proof.
  unfold Dict.wf. intros Hwf.
  destruct (decide (k ∈ Dict.keys d)) as [Hin|Hnin].
  - by rewrite dict_keys_set_in.
  - rewrite dict_keys_set_notin by done.
    apply NoDup_app. split; [done|]. split; [|apply NoDup_singleton].
    intros x Hx Hx'. apply list_elem_of_singleton in Hx'. by subst.
Qed.

Lemma dict_wf_remove k d : Dict.wf d -> Dict.wf (Dict.remove k d).
Proof.
  unfold Dict.wf, Dict.keys. induction d as [|[k0 v0] d IH]; simpl; [done|].
  intros Hwf. apply NoDup_cons in Hwf as [Hnin Hwf].
  destruct (String.eqb k k0); simpl; [by apply IH|].
  apply NoDup_cons. split; [|by apply IH].
  intros Hin. apply Hnin. by eapply dict_keys_remove_sub.
Qed.

(* ================================================================ *)
(** ** What every card helper leaves untouched *)

Lemma heap_kept_refl h : heap_kept h h.
Proof. split; [done|]. intros l c H. by left. Qed.

Lemma heap_kept_trans h1 h2 h3 :
  heap_kept h1 h2 -> heap_kept h2 h3 -> heap_kept h1 h3.
Proof.
  intros [L1 H1] [L2 H2]. split; [congruence|].
  intros l c Hl. destruct (H1 l c Hl) as [H|H]; apply H2 in H.
  - done.
  - destruct H as [H|H]; right; done.
Qed.

Lemma kept_refl w : kept w w.
Proof. split; auto using heap_kept_refl. Qed.

Lemma kept_trans w1 w2 w3 : kept w1 w2 -> kept w2 w3 -> kept w1 w3.
Proof.
  intros [] []. split; try congruence. by eapply heap_kept_trans.
Qed.

Lemma added_nil w : added w w [].
Proof. unfold added. by rewrite app_nil_r. Qed.

Lemma added_app w1 w2 w3 e1 e2 :
  added w1 w2 e1 -> added w2 w3 e2 -> added w1 w3 (e1 ++ e2).
Proof. unfold added. intros H1 H2. by rewrite H2, H1, app_assoc. Qed.

(** Symbolic execution of a command on a state given field by field. *)
Ltac unfold_cmd :=
  unfold update, log in *; unfold emit in *;
  unfold bind, ret, gets, modify, raise, try_except, time_time,
    uuid4_hex, http_request, deref, alloc in *.

Ltac case_step :=
  match goal with
  | |- context [if ?b then _ else _] => destruct b eqn:?
  | |- context [match ?x with _ => _ end] => destruct x eqn:?
  end; cbn.

Ltac solve_added :=
  unfold added; cbn;
  first [ symmetry; apply app_nil_r
        | rewrite <- ?app_assoc; reflexivity ].

Ltac solve_kept :=
  split; cbn; try reflexivity; try apply heap_kept_refl.

Lemma _get_access_token_runs w :
  exists tok w' evs,
    _get_access_token w = (Val tok, w') /\
    kept w w' /\ heap w' = heap w /\ minted w' = minted w /\
    added w w' evs /\ Forall token_event evs.
Proof.
  destruct w as [run http tok exp tasks cards hp tk sv mt tr].
  unfold _get_access_token. unfold_cmd. cbn.
  repeat case_step;
    (do 3 eexists; split; [reflexivity|];
     split; [solve_kept|]; split; [reflexivity|]; split; [reflexivity|];
     split; [solve_added|]; repeat constructor).
Qed.

Lemma token_event_card id e : token_event e -> card_event id e.
Proof. destruct e as [[]| | | |]; simpl; tauto. Qed.

Lemma announces_app e1 e2 : announces (e1 ++ e2) = (announces e1 + announces e2)%nat.
Proof. unfold announces. by rewrite List.filter_app, length_app. Qed.

Lemma announces_token evs : Forall token_event evs -> announces evs = 0%nat.
Proof.
  unfold announces. induction 1 as [|e evs He _ IH]; [done|].
  destruct e as [[]| | | |]; simpl in *; try done.
Qed.

Lemma with_inputing_id c :
  inputing_started c = true -> with_inputing true c = c.
Proof. destruct c; simpl; intros ->; reflexivity. Qed.

Lemma _card_put_data_runs w l c flow s :
  heap w !! l = Some c ->
  exists w' evs,
    _card_put_data l flow s w = (Val tt, w') /\
    kept w w' /\ heap w' = heap w /\ minted w' = minted w /\
    added w w' evs /\ Forall (card_event (card_instance_id c)) evs /\
    (announces evs <= if String.eqb flow "2" then 1 else 0)%nat.
Proof.
  intros Hl. unfold _card_put_data. unfold bind at 1.
  destruct (_get_access_token_runs w)
    as (tok & w1 & e1 & E & K1 & Hh & Hm & A1 & F1).
  rewrite E. unfold_cmd. cbn.
  assert (F1' : Forall (card_event (card_instance_id c)) e1).
  { eapply Forall_impl; [exact F1|]. intros; by apply token_event_card. }
  destruct (negb (truthy tok) || negb (_http w1)) eqn:G; cbn.
  - exists w1, e1. repeat split; try done; try apply K1.
    rewrite (announces_token _ F1). lia.
  - rewrite Hh, Hl. cbn.
    destruct (replies env (served w1)) as [|code body]; cbn;
      [|destruct (negb (code =? 200)); cbn];
      (do 2 eexists; split; [reflexivity|];
       split; [eapply kept_trans; [exact K1|solve_kept]|];
       split; [cbn; exact Hh|]; split; [cbn; exact Hm|];
       split; [eapply added_app; [exact A1|solve_added]|];
       split; [apply Forall_app; split; [exact F1'|repeat constructor]|];
       rewrite announces_app, (announces_token _ F1); unfold announces; cbn;
       destruct (String.eqb flow "2"); cbn; lia).
Qed.

Lemma heap_kept_insert h l c :
  h !! l = Some c -> heap_kept h (<[l := with_inputing true c]> h).
Proof.
  intros Hl. split; [apply length_insert|].
  intros l' c' Hl'. destruct (decide (l = l')) as [->|Hne].
  - right. rewrite list_lookup_insert_eq by (by eapply lookup_lt_Some).
    congruence.
  - left. by rewrite list_lookup_insert_ne.
Qed.

Lemma insert_flag_id (h : list _ActiveCard) l c :
  h !! l = Some c -> inputing_started c = true ->
  <[l := with_inputing true c]> h = h.
Proof. intros Hl Hf. rewrite with_inputing_id by done. by apply list_insert_id. Qed.

Lemma _card_ensure_inputing_runs w l c :
  heap w !! l = Some c ->
  exists w' evs,
    _card_ensure_inputing l w = (Val tt, w') /\
    kept w w' /\ heap w' = <[l := with_inputing true c]> (heap w) /\
    minted w' = minted w /\
    added w w' evs /\ Forall (card_event (card_instance_id c)) evs /\
    (announces evs <= if inputing_started c then 0 else 1)%nat.
Proof.
  intros Hl. unfold _card_ensure_inputing. unfold bind at 1, deref.
  rewrite Hl. destruct (inputing_started c) eqn:Hf.
  - exists w, []. repeat split; try done; try apply heap_kept_refl.
    + symmetry. by apply insert_flag_id.
    + apply added_nil.
  - unfold bind at 1.
    destruct (_card_put_data_runs w l c "2" "" Hl)
      as (w1 & e1 & E & K1 & Hh & Hm & A1 & F1 & N1).
    rewrite E. unfold_cmd. cbn. rewrite Hh, Hl. cbn.
    do 2 eexists. split; [reflexivity|].
    split; [eapply kept_trans; [exact K1|]|].
    { split; cbn; try reflexivity. rewrite Hh. by apply heap_kept_insert. }
    split; [cbn; by rewrite Hh|]. split; [exact Hm|].
    split; [|split; [exact F1|exact N1]].
    unfold added in *. cbn. exact A1.
Qed.

Lemma _card_stream_runs w l c s fin :
  heap w !! l = Some c ->
  exists w' evs,
    _card_stream l s fin w = (Val tt, w') /\
    kept w w' /\ heap w' = <[l := with_inputing true c]> (heap w) /\
    added w w' evs /\ Forall (card_event (card_instance_id c)) evs /\
    (announces evs <= if inputing_started c then 0 else 1)%nat.
Proof.
  intros Hl. unfold _card_stream. unfold bind at 1.
  destruct (_card_ensure_inputing_runs w l c Hl)
    as (w1 & e1 & E1 & K1 & Hh1 & _ & A1 & F1 & N1).
  rewrite E1. unfold bind at 1.
  destruct (_get_access_token_runs w1)
    as (tok & w2 & e2 & E2 & K2 & Hh2 & _ & A2 & F2).
  rewrite E2. unfold_cmd. cbn.
  assert (F2' : Forall (card_event (card_instance_id c)) e2).
  { eapply Forall_impl; [exact F2|]. intros; by apply token_event_card. }
  assert (Hl2 : heap w2 !! l = Some (with_inputing true c)).
  { rewrite Hh2, Hh1. apply list_lookup_insert_eq. by eapply lookup_lt_Some. }
  destruct (negb (truthy tok) || negb (_http w2)) eqn:G; cbn.
  - exists w2, (e1 ++ e2).
    split; [reflexivity|]. split; [by eapply kept_trans|].
    split; [congruence|]. split; [by eapply added_app|].
    split; [by apply Forall_app|].
    rewrite announces_app, (announces_token _ F2). lia.
  - rewrite Hl2. cbn.
    destruct (replies env (served w2)) as [|code body]; cbn;
      [|destruct (negb (code =? 200)); cbn];
      (do 2 eexists; split; [reflexivity|];
       split; [eapply kept_trans; [exact K1|];
               eapply kept_trans; [exact K2|solve_kept]|];
       split; [cbn; congruence|];
       split; [eapply added_app; [exact A1|];
               eapply added_app; [exact A2|solve_added]|];
       split; [apply Forall_app; split; [exact F1|];
               apply Forall_app; split; [exact F2'|repeat constructor]|];
       rewrite !announces_app, (announces_token _ F2); unfold announces at 2;
       cbn; lia).
Qed.

Lemma _card_finish_runs w l c :
  heap w !! l = Some c ->
  exists w' evs,
    _card_finish l w = (Val tt, w') /\
    kept w w' /\ heap w' = <[l := with_inputing true c]> (heap w) /\
    added w w' evs /\ Forall (card_event (card_instance_id c)) evs /\
    (announces evs <= if inputing_started c then 0 else 1)%nat.
Proof.
  intros Hl. unfold _card_finish. unfold bind at 1, deref. rewrite Hl.
  unfold bind at 1.
  destruct (_card_stream_runs w l c (final_content c) true Hl)
    as (w1 & e1 & E1 & K1 & Hh1 & A1 & F1 & N1).
  rewrite E1.
  assert (Hl1 : heap w1 !! l = Some (with_inputing true c)).
  { rewrite Hh1. apply list_lookup_insert_eq. by eapply lookup_lt_Some. }
  destruct (_card_put_data_runs w1 l _ "3" (final_content c) Hl1)
    as (w2 & e2 & E2 & K2 & Hh2 & _ & A2 & F2 & N2).
  rewrite E2. exists w2, (e1 ++ e2).
  split; [reflexivity|]. split; [by eapply kept_trans|].
  split; [congruence|]. split; [by eapply added_app|].
  split; [by apply Forall_app|].
  rewrite announces_app. cbn in N2. lia.
Qed.

(* ================================================================ *)
(** ** Runs with a usable cached token *)

Lemma truthy_some t : t <> "" -> truthy (Some t) = true.
Proof.
  intros H. simpl. destruct (String.eqb t "") eqn:E; [|done].
  by apply String.eqb_eq in E.
Qed.

Lemma http_calls_app e1 e2 :
  http_calls (e1 ++ e2) = http_calls e1 ++ http_calls e2.
Proof. unfold http_calls. apply omap_app. Qed.

Lemma token_ready_get t w :
  token_ready t w ->
  _get_access_token w = (Val (Some t), set_ticks (S (ticks w)) w).
Proof.
  intros (Hh & Ht & Hne & Hc). unfold _get_access_token. unfold_cmd. cbn.
  rewrite Ht, (truthy_some _ Hne). cbn.
  destruct (Z.ltb_spec (clock env (ticks w)) (_token_expiry w)) as [_|H];
    [reflexivity|].
  specialize (Hc (ticks w)). lia.
Qed.

Ltac ready_guard Hr :=
  let Hh := fresh in let Hne := fresh in
  pose proof Hr as (Hh & _ & Hne & _);
  apply String.eqb_neq in Hne;
  cbn; rewrite ?Hh, ?Hne; cbn; clear Hh Hne.

Lemma _card_put_data_ready t w l c flow s :
  token_ready t w -> heap w !! l = Some c ->
  exists w' evs,
    _card_put_data l flow s w = (Val tt, w') /\
    token_ready t w' /\ _active_cards w' = _active_cards w /\
    heap w' = heap w /\ minted w' = minted w /\
    added w w' evs /\
    http_calls evs = [ReqPutData t (card_instance_id c) flow s].
Proof.
  intros Hr Hl. unfold _card_put_data. unfold bind at 1.
  rewrite (token_ready_get t w Hr). unfold_cmd. ready_guard Hr.
  rewrite Hl. cbn.
  destruct (replies env (served w)) as [|code body]; cbn;
    [|destruct (negb (code =? 200)); cbn];
    (do 2 eexists; split; [reflexivity|]; split; [exact Hr|];
     split; [reflexivity|]; split; [reflexivity|]; split; [reflexivity|];
     split; [solve_added|reflexivity]).
Qed.

Lemma _card_stream_ready t w l c s fin :
  token_ready t w -> heap w !! l = Some c ->
  exists w' evs,
    _card_stream l s fin w = (Val tt, w') /\
    token_ready t w' /\ _active_cards w' = _active_cards w /\
    heap w' = <[l := with_inputing true c]> (heap w) /\
    minted w' = S (minted w) /\
    added w w' evs /\
    http_calls evs =
      announce_call t c ++
      [ReqStreaming t (card_instance_id c) (uuids env (minted w)) s fin].
Proof.
  intros Hr Hl. unfold _card_stream, _card_ensure_inputing.
  unfold bind at 1. unfold bind at 1. unfold deref at 1. rewrite Hl.
  assert (Hlt : (l < length (heap w))%nat) by (by eapply lookup_lt_Some).
  unfold announce_call. destruct (inputing_started c) eqn:Hf.
  - unfold ret at 1. unfold bind at 1.
    rewrite (token_ready_get t w Hr). unfold_cmd. ready_guard Hr.
    rewrite Hl. cbn.
    destruct (replies env (served w)) as [|code body]; cbn;
      [|destruct (negb (code =? 200)); cbn];
      (do 2 eexists; split; [reflexivity|]; split; [exact Hr|];
       split; [reflexivity|];
       split; [cbn; symmetry; by apply insert_flag_id|];
       split; [reflexivity|]; split; [solve_added|reflexivity]).
  - unfold bind at 1.
    destruct (_card_put_data_ready t w l c "2" "" Hr Hl)
      as (w1 & e1 & E1 & Hr1 & Hc1 & Hh1 & Hm1 & A1 & C1).
    rewrite E1. unfold update. unfold bind at 1. unfold deref at 1.
    rewrite Hh1, Hl. unfold modify at 1. unfold bind at 1.
    match goal with
    | |- context [_get_access_token ?w2] =>
        assert (Hr2 : token_ready t w2) by exact Hr1;
        rewrite (token_ready_get t w2 Hr2)
    end.
    unfold_cmd. ready_guard Hr1. rewrite Hh1.
    rewrite list_lookup_insert_eq by done. cbn. rewrite Hm1.
    destruct (replies env (served w1)) as [|code body]; cbn;
      [|destruct (negb (code =? 200)); cbn];
      (do 2 eexists; split; [reflexivity|]; split; [exact Hr1|];
       split; [cbn; exact Hc1|]; split; [reflexivity|];
       split; [reflexivity|];
       split; [eapply added_app; [exact A1|solve_added]|];
       rewrite http_calls_app, C1; reflexivity).
Qed.

Lemma _card_finish_ready t w l c :
  token_ready t w -> heap w !! l = Some c ->
  exists w' evs,
    _card_finish l w = (Val tt, w') /\
    token_ready t w' /\ _active_cards w' = _active_cards w /\
    heap w' = <[l := with_inputing true c]> (heap w) /\
    minted w' = S (minted w) /\
    added w w' evs /\
    http_calls evs =
      announce_call t c ++
      [ReqStreaming t (card_instance_id c) (uuids env (minted w))
         (final_content c) true;
       ReqPutData t (card_instance_id c) "3" (final_content c)].
Proof.
  intros Hr Hl. unfold _card_finish. unfold bind at 1, deref. rewrite Hl.
  unfold bind at 1.
  destruct (_card_stream_ready t w l c (final_content c) true Hr Hl)
    as (w1 & e1 & E1 & Hr1 & Hc1 & Hh1 & Hm1 & A1 & C1).
  rewrite E1.
  assert (Hl1 : heap w1 !! l = Some (with_inputing true c)).
  { rewrite Hh1. apply list_lookup_insert_eq. by eapply lookup_lt_Some. }
  destruct (_card_put_data_ready t w1 l _ "3" (final_content c) Hr1 Hl1)
    as (w2 & e2 & E2 & Hr2 & Hc2 & Hh2 & Hm2 & A2 & C2).
  rewrite E2. exists w2, (e1 ++ e2).
  split; [reflexivity|]. split; [exact Hr2|]. split; [congruence|].
  split; [congruence|]. split; [congruence|].
  split; [by eapply added_app|].
  rewrite http_calls_app, C1, C2. cbn. by rewrite <- app_assoc.
Qed.


(* ================================================================ *)
(** ** The card calls of a run, whatever the token and the server *)










(* ================================================================ *)
(** ** C5, C9: the announce call *)

Lemma _card_ensure_inputing_started w l c :
  heap w !! l = Some c -> inputing_started c = true ->
  _card_ensure_inputing l w = (Val tt, w).
Proof.
  intros Hl Hf. unfold _card_ensure_inputing, bind, deref, ret.
  by rewrite Hl, Hf.
Qed.

Lemma lookup_insert_flag (h : list _ActiveCard) l c :
  h !! l = Some c ->
  <[l := with_inputing true c]> h !! l = Some (with_inputing true c).
Proof. intros Hl. apply list_lookup_insert_eq. by eapply lookup_lt_Some. Qed.

Lemma stream_all_runs l calls : forall w c,
  heap w !! l = Some c ->
  exists w' evs,
    stream_all l calls w = (Val tt, w') /\
    (exists c', heap w' !! l = Some c' /\
                (calls <> [] -> inputing_started c' = true)) /\
    added w w' evs /\
    (announces evs <= if inputing_started c then 0 else 1)%nat.
Proof.
  unfold stream_all. induction calls as [|[s fin] calls IH]; intros w c Hl.
  - exists w, []. split; [reflexivity|]. split; [by exists c|].
    split; [apply added_nil|]. unfold announces; simpl. lia.
  - simpl. unfold bind at 1.
    destruct (_card_stream_runs w l c s fin Hl)
      as (w1 & e1 & E1 & _ & Hh1 & A1 & _ & N1).
    rewrite E1.
    assert (Hl1 : heap w1 !! l = Some (with_inputing true c))
      by (rewrite Hh1; by apply lookup_insert_flag).
    destruct (IH w1 _ Hl1) as (w2 & e2 & E2 & (c' & Hc' & Hf') & A2 & N2).
    rewrite E2. exists w2, (e1 ++ e2). split; [reflexivity|].
    split.
    { exists c'. split; [exact Hc'|]. intros _.
      destruct calls as [|x calls]; [|by apply Hf'].
      simpl in E2. injection E2 as <-. rewrite Hl1 in Hc'.
      by injection Hc' as <-. }
    split; [by eapply added_app|].
    rewrite announces_app. simpl in N2. lia.
Qed.

(** C5.  Once a card's [inputing_started] flag is set,
    [_card_ensure_inputing] does nothing at all; and any number of
    [_card_stream] invocations on a card issue the announce call
    (card-data update with flowStatus "2") at most once, and not at all
    on a card that was already announced. *)
Theorem announce_at_most_once w l c calls :
  heap w !! l = Some c ->
  (inputing_started c = true -> _card_ensure_inputing l w = (Val tt, w)) /\
  exists evs,
    added w (exec (stream_all l calls) w) evs /\
    (announces evs <= 1)%nat /\
    (inputing_started c = true -> announces evs = 0%nat).
Proof.
  intros Hl. split; [by apply _card_ensure_inputing_started|].
  destruct (stream_all_runs l calls w c Hl) as (w' & evs & E & _ & A & N).
  unfold exec. rewrite E. exists evs. split; [exact A|].
  destruct (inputing_started c); split; try lia; intros; try done; lia.
Qed.

(** C9 (amended).  Whatever became of the announce call (confirmed,
    refused by the server, or skipped for lack of a token), one
    [_card_stream] invocation leaves the card's [inputing_started] flag
    set, and the next [_card_stream] invocation on that card issues no
    announce call: the announce step is not attempted again. *)
Theorem announce_not_retried w l c s1 f1 s2 f2 :
  heap w !! l = Some c ->
  let w1 := exec (_card_stream l s1 f1) w in
  (exists c1, heap w1 !! l = Some c1 /\ inputing_started c1 = true) /\
  exists evs,
    added w1 (exec (_card_stream l s2 f2) w1) evs /\ announces evs = 0%nat.
Proof.
  intros Hl w1. subst w1. unfold exec.
  destruct (_card_stream_runs w l c s1 f1 Hl)
    as (w1 & e1 & E1 & _ & Hh1 & _ & _ & _).
  rewrite E1. simpl.
  assert (Hl1 : heap w1 !! l = Some (with_inputing true c))
    by (rewrite Hh1; by apply lookup_insert_flag).
  split; [by exists (with_inputing true c)|].
  destruct (_card_stream_runs w1 l _ s2 f2 Hl1)
    as (w2 & e2 & E2 & _ & _ & A2 & _ & N2).
  rewrite E2. exists e2. split; [exact A2|]. simpl in N2. lia.
Qed.

(* ================================================================ *)
(** ** The plain-text path and card creation, for every server *)

Lemma token_event_text e : token_event e -> text_event e.
Proof. destruct e as [[]| | | |]; simpl; tauto. Qed.

Lemma token_event_create id e : token_event e -> create_event id e.
Proof. destruct e as [[]| | | |]; simpl; tauto. Qed.

Lemma _send_text_group msg w :
  is_group msg = true ->
  _send_text msg w =
    (Val tt,
     set_trace
       (trace w ++
        [EvLog Warning
           "Text fallback not supported for group chats, skipping message to {}"])
       w).
Proof.
  unfold is_group. intros H. unfold _send_text. rewrite H. reflexivity.
Qed.

Lemma _send_text_runs msg w :
  exists w' evs,
    _send_text msg w = (Val tt, w') /\
    kept w w' /\ heap w' = heap w /\
    added w w' evs /\ Forall text_event evs.
Proof.
  unfold _send_text.
  destruct (meta_is (metadata msg) "_dingtalk_conversation_type" "2").
  { unfold_cmd. do 2 eexists. split; [reflexivity|]. split; [solve_kept|].
    split; [reflexivity|]. split; [solve_added|]. repeat constructor. }
  unfold bind at 1.
  destruct (_get_access_token_runs w)
    as (tok & w1 & e1 & E & K1 & Hh & _ & A1 & F1).
  rewrite E. unfold_cmd. cbn.
  assert (F1' : Forall text_event e1).
  { eapply Forall_impl; [exact F1|]. intros; by apply token_event_text. }
  destruct (negb (truthy tok)); cbn.
  { exists w1, e1. done. }
  destruct (negb (_http w1)); cbn;
    [|destruct (replies env (served w1)) as [|code body]; cbn;
      [|destruct (negb (code =? 200)); cbn]];
    (do 2 eexists; split; [reflexivity|];
     split; [eapply kept_trans; [exact K1|solve_kept]|];
     split; [cbn; exact Hh|];
     split; [eapply added_app; [exact A1|solve_added]|];
     apply Forall_app; split; [exact F1'|repeat constructor]).
Qed.

Lemma _card_create_runs msg w :
  exists r w' evs,
    _card_create msg w = (Val r, w') /\
    _active_cards w' = _active_cards w /\ _http w' = _http w /\
    added w w' evs /\
    Forall (create_event ("card_" +:+ uuids env (minted w))) evs /\
    match r with
    | None => heap w' = heap w
    | Some l =>
        l = length (heap w) /\
        exists now,
          heap w' = heap w ++ [new_card ("card_" +:+ uuids env (minted w)) now]
    end.
Proof.
  unfold _card_create. unfold bind at 1.
  destruct (_get_access_token_runs w)
    as (tok & w1 & e1 & E & K1 & Hh & Hm & A1 & F1).
  rewrite E. unfold_cmd. cbn.
  assert (F1' : Forall (create_event ("card_" +:+ uuids env (minted w))) e1).
  { eapply Forall_impl; [exact F1|]. intros; by apply token_event_create. }
  destruct K1 as [Kc Kh _ _ _].
  destruct (negb (truthy tok) || negb (_http w1)); cbn.
  { exists None, w1, e1. done. }
  rewrite Hm.
  destruct (replies env (served w1)) as [|code body]; cbn;
    [|destruct (negb (code =? 200)); cbn];
    (do 3 eexists; split; [reflexivity|];
     split; [cbn; exact Kc|]; split; [cbn; exact Kh|];
     split; [eapply added_app; [exact A1|solve_added]|];
     split; [apply Forall_app; split; [exact F1'|repeat constructor]|]);
    cbn; rewrite ?Hh; try done.
  split; [done|]. eexists. reflexivity.
Qed.

Lemma evict_stale_absent k w :
  Dict.get k (_active_cards w) = None -> evict_stale k w = (Val None, w).
Proof. intros H. unfold evict_stale. unfold_cmd. by rewrite H. Qed.

Lemma dispatch_create_failed msg w w1 :
  _card_create msg w = (Val None, w1) ->
  dispatch msg None w = _send_text msg w1.
Proof.
  intros E. unfold dispatch.
  destruct (meta_truthy (metadata msg) "_progress");
    unfold bind at 1; by rewrite E.
Qed.

Lemma run_pair {A} (m : M A) w : m w = (result m w, exec m w).
Proof. unfold result, exec. by destruct (m w). Qed.

Lemma _card_create_ready t msg w :
  token_ready t w ->
  exists r w' evs,
    _card_create msg w = (Val r, w') /\
    token_ready t w' /\ _active_cards w' = _active_cards w /\
    minted w' = S (minted w) /\
    added w w' evs /\
    http_calls evs =
      [ReqCreateAndDeliver t ("card_" +:+ uuids env (minted w))
         (_build_open_space_id (metadata msg)) (is_group msg)] /\
    match replies env (served w) with
    | Status 200 _ =>
        r = Some (length (heap w)) /\
        heap w' = heap w ++ [new_card ("card_" +:+ uuids env (minted w))
                               (clock env (S (ticks w)))]
    | _ => r = None /\ heap w' = heap w
    end.
Proof.
  intros Hr. unfold _card_create. unfold bind at 1.
  rewrite (token_ready_get t w Hr). unfold_cmd. ready_guard Hr.
  destruct (replies env (served w)) as [|code body]; cbn.
  - do 3 eexists. split; [reflexivity|]. split; [exact Hr|].
    do 2 (split; [reflexivity|]). split; [solve_added|]. done.
  - destruct (Z.eqb_spec code 200) as [->|Hne]; cbn.
    + do 3 eexists. split; [reflexivity|]. split; [exact Hr|].
      do 2 (split; [reflexivity|]). split; [solve_added|]. done.
    + do 3 eexists. split; [reflexivity|]. split; [exact Hr|].
      do 2 (split; [reflexivity|]). split; [solve_added|].
      split; [reflexivity|].
      destruct code as [|p|p]; try done.
      repeat (destruct p as [p|p|]; try done).
Qed.

Lemma dispatch_existing_runs msg w l c :
  heap w !! l = Some c ->
  exists w',
    dispatch msg (Some l) w = (Val tt, w') /\
    _active_cards w' =
      if is_progress msg then _active_cards w
      else Dict.remove (chat_id msg) (_active_cards w).
Proof.
  intros Hl. unfold dispatch, is_progress.
  assert (Hlt : (l < length (heap w))%nat) by (by eapply lookup_lt_Some).
  destruct (meta_truthy (metadata msg) "_progress").
  - unfold accumulate_and_stream, update.
    unfold bind at 1. unfold bind at 1. unfold deref at 1. rewrite Hl.
    unfold modify at 1. unfold bind at 1. unfold deref at 1. cbn.
    rewrite list_lookup_insert_eq by done.
    match goal with
    | |- context [_card_stream l ?s ?f ?w1] =>
        destruct (_card_stream_runs w1 l
                    (append_content (content msg +:+ sep) c) s f)
          as (w2 & e2 & E2 & K2 & _)
    end.
    { cbn. by rewrite list_lookup_insert_eq. }
    rewrite E2. exists w2. split; [reflexivity|]. by destruct K2.
  - unfold update.
    unfold bind at 1. unfold bind at 1. unfold deref at 1. rewrite Hl.
    unfold modify at 1. unfold bind at 1.
    match goal with
    | |- context [_card_finish l ?w1] =>
        destruct (_card_finish_runs w1 l (append_content (content msg) c))
          as (w2 & e2 & E2 & K2 & _)
    end.
    { cbn. by rewrite list_lookup_insert_eq. }
    rewrite E2. unfold modify. eexists. split; [reflexivity|].
    cbn. destruct K2 as [-> _ _ _ _]. reflexivity.
Qed.

(* ================================================================ *)
(** ** C6, C10: when card creation fails *)

Lemma _send_ai_card_fallback msg w :
  Dict.get (chat_id msg) (_active_cards w) = None ->
  result (_card_create msg) w = Val None ->
  _send_ai_card msg w = _send_text msg (exec (_card_create msg) w).
Proof.
  intros Hget Hres.
  pose proof (run_pair (_card_create msg) w) as Ec. rewrite Hres in Ec.
  unfold _send_ai_card. unfold bind at 1.
  rewrite (evict_stale_absent _ _ Hget). by apply dispatch_create_failed.
Qed.

(** C6.  With no card for the chat, a failed [_card_create] makes
    [_send_ai_card] continue as the plain-text send and return, with no
    card registered or built.  Creation fails when no token is obtained,
    on a transport exception and on a non-200 answer, and succeeds on a
    200 answer.  The failures of the later calls do not steer the
    dispatcher: with a card at hand it always completes normally and
    leaves the registry as the progress flag alone decides, whatever the
    server answers; a refused card-data update is logged as an error. *)
Theorem creation_failure_falls_back msg w :
  (Dict.get (chat_id msg) (_active_cards w) = None ->
   result (_card_create msg) w = Val None ->
   _send_ai_card msg w = _send_text msg (exec (_card_create msg) w) /\
   result (_send_ai_card msg) w = Val tt /\
   _active_cards (exec (_send_ai_card msg) w) = _active_cards w /\
   heap (exec (_send_ai_card msg) w) = heap w) /\
  (forall tok w1, _get_access_token w = (Val tok, w1) -> truthy tok = false ->
     result (_card_create msg) w = Val None) /\
  (forall t, token_ready t w ->
     (forall b, replies env (served w) <> Status 200 b) ->
     result (_card_create msg) w = Val None) /\
  (forall t b, token_ready t w -> replies env (served w) = Status 200 b ->
     result (_card_create msg) w = Val (Some (length (heap w)))) /\
  (forall l c, heap w !! l = Some c ->
     result (dispatch msg (Some l)) w = Val tt /\
     _active_cards (exec (dispatch msg (Some l)) w) =
       if is_progress msg then _active_cards w
       else Dict.remove (chat_id msg) (_active_cards w)) /\
  (forall t l c flow s, token_ready t w -> heap w !! l = Some c ->
     (forall b, replies env (served w) <> Status 200 b) ->
     result (_card_put_data l flow s) w = Val tt /\
     exists template,
       added w (exec (_card_put_data l flow s) w)
         [EvHttp (ReqPutData t (card_instance_id c) flow s);
          EvLog Error template]).
Proof.
  split; [intros Hget Hres|split; [|split; [|split; [|split]]]].
  - pose proof (run_pair (_card_create msg) w) as Ec. rewrite Hres in Ec.
    pose proof (_send_ai_card_fallback msg w Hget Hres) as Es.
    destruct (_send_text_runs msg (exec (_card_create msg) w))
      as (w' & evs & E & K & Hh & _).
    destruct (_card_create_runs msg w)
      as (r & w1 & e1 & E1 & Hc & _ & _ & _ & Hr).
    rewrite Ec in E1. injection E1 as <- <-.
    split; [exact Es|].
    set (w0 := exec (_card_create msg) w) in *.
    unfold result, exec. rewrite Es, E. cbn.
    split; [reflexivity|]. destruct K as [-> _ _ _ _].
    split; [exact Hc|]. by rewrite Hh.
  - intros tok w1 E Hf. unfold result, _card_create. unfold bind at 1.
    rewrite E. unfold_cmd. cbn. by rewrite Hf.
  - intros t Hr Hrep.
    destruct (_card_create_ready t msg w Hr)
      as (r & w' & evs & E & _ & _ & _ & _ & _ & Hcase).
    unfold result. rewrite E. cbn.
    destruct (replies env (served w)) as [|code body]; [by destruct Hcase as [-> _]|].
    destruct code as [|p|p]; try (by destruct Hcase as [-> _]).
    repeat (destruct p as [p|p|]; try (by destruct Hcase as [-> _])).
    by destruct (Hrep body).
  - intros t b Hr Hrep.
    destruct (_card_create_ready t msg w Hr)
      as (r & w' & evs & E & _ & _ & _ & _ & _ & Hcase).
    unfold result. rewrite E. cbn. rewrite Hrep in Hcase.
    by destruct Hcase as [-> _].
  - intros l c Hl. destruct (dispatch_existing_runs msg w l c Hl) as (w' & E & Hc).
    unfold result, exec. rewrite E. by split.
  - intros t l c flow s Hr Hl Hrep. split.
    { destruct (_card_put_data_runs w l c flow s Hl) as (w' & evs & E & _).
      unfold result. by rewrite E. }
    unfold exec, _card_put_data. unfold bind at 1.
    rewrite (token_ready_get t w Hr). unfold_cmd. ready_guard Hr.
    rewrite Hl. cbn.
    destruct (replies env (served w)) as [|code body]; cbn.
    + eexists. solve_added.
    + destruct (Z.eqb_spec code 200) as [->|Hne]; cbn.
      * by destruct (Hrep body).
      * eexists. solve_added.
Qed.

(** C10.  For a group conversation (conversation type "2") [_send_text]
    only logs a warning and returns: no HTTP request goes out.  Hence,
    when there is no card for the chat and card creation fails,
    [_send_ai_card] adds nothing but that warning after the creation
    attempt, and its whole run holds no request other than those of the
    failed attempt (token exchange and create): nothing is delivered. *)
Theorem group_fallback_delivers_nothing msg w :
  is_group msg = true ->
  (result (_send_text msg) w = Val tt /\
   added w (exec (_send_text msg) w) [group_warning] /\
   served (exec (_send_text msg) w) = served w) /\
  (Dict.get (chat_id msg) (_active_cards w) = None ->
   result (_card_create msg) w = Val None ->
   added (exec (_card_create msg) w) (exec (_send_ai_card msg) w)
     [group_warning] /\
   exists evs,
     added w (exec (_send_ai_card msg) w) evs /\
     Forall (fun r => match r with
                      | ReqAccessToken _ _ | ReqCreateAndDeliver _ _ _ _ => True
                      | _ => False
                      end) (http_calls evs)).
Proof.
  intros Hg. split.
  - unfold result, exec. rewrite (_send_text_group msg w Hg). cbn.
    split; [reflexivity|]. split; reflexivity.
  - intros Hget Hres.
    pose proof (_send_ai_card_fallback msg w Hget Hres) as Es.
    set (w0 := exec (_card_create msg) w) in *.
    rewrite (_send_text_group msg w0 Hg) in Es.
    assert (A2 : added w0 (exec (_send_ai_card msg) w) [group_warning]).
    { unfold exec. rewrite Es. reflexivity. }
    split; [exact A2|].
    destruct (_card_create_runs msg w)
      as (r & w1 & e1 & E1 & _ & _ & A1 & F1 & _).
    assert (w1 = w0) as -> by (subst w0; unfold exec; by rewrite E1).
    exists (e1 ++ [group_warning]).
    split; [by eapply added_app|].
    assert (F : Forall (create_event ("card_" +:+ uuids env (minted w)))
                  (e1 ++ [group_warning])).
    { apply Forall_app. split; [exact F1|]. by repeat constructor. }
    clear -F. induction F as [|e evs He _ IH]; [by constructor|].
    destruct e as [[]| | | |]; simpl in *; try done; by constructor.
Qed.

(* ================================================================ *)
(** ** C4: interruption by an inbound message *)

Lemma _on_message_existing content sender name chat w l c :
  Dict.get (resolve_chat chat sender) (_active_cards w) = Some l ->
  heap w !! l = Some c ->
  _on_message content sender name chat w =
    _handle_message sender (resolve_chat chat sender) content
      (interrupted (resolve_chat chat sender) l w).
Proof.
  intros Hget Hl. unfold _on_message, interrupted.
  fold (resolve_chat chat sender). set (k := resolve_chat chat sender) in *.
  unfold try_except at 1. unfold bind at 1. unfold gets at 1.
  rewrite Hget. unfold bind at 1. unfold modify at 1.
  unfold bind at 1. unfold bind at 1.
  unfold log at 1. unfold emit at 1. unfold modify at 1.
  unfold try_except at 1. unfold exec, log, emit, modify. cbn.
  match goal with
  | |- context [_card_finish l ?w1] =>
      destruct (_card_finish_runs w1 l c Hl) as (w2 & e2 & E2 & _)
  end.
  cbn in E2. rewrite E2. unfold bind. cbn. reflexivity.
Qed.


Lemma interrupted_runs k l c w :
  heap w !! l = Some c ->
  let w1 := exec (log Info "Finishing stale AI card for {} (new message received)")
              (set_active_cards (Dict.remove k (_active_cards w)) w) in
  exists w2 e2,
    _card_finish l w1 = (Val tt, w2) /\
    interrupted k l w = exec (log Info "DingTalk inbound: {} from {}") w2 /\
    _active_cards w2 = Dict.remove k (_active_cards w) /\
    added w1 w2 e2 /\
    added w (interrupted k l w)
      ([EvLog Info "Finishing stale AI card for {} (new message received)"]
       ++ e2 ++ [EvLog Info "DingTalk inbound: {} from {}"]) /\
    Forall (card_event (card_instance_id c)) e2.
Proof.
  intros Hl w1. unfold interrupted. fold w1.
  assert (Hl1 : heap w1 !! l = Some c) by exact Hl.
  destruct (_card_finish_runs w1 l c Hl1)
    as (w2 & e2 & E2 & K2 & _ & A2 & F2 & _).
  exists w2, e2. split; [exact E2|].
  assert (Hx : exec (_card_finish l) w1 = w2) by (unfold exec; by rewrite E2).
  rewrite Hx. split; [reflexivity|].
  split; [by destruct K2 as [-> _ _ _ _]|]. split; [exact A2|].
  split; [|exact F2].
  eapply added_app; [|eapply added_app; [exact A2|]]; reflexivity.
Qed.

(** C4.  When the registry holds a card for the resolved chat key of an
    inbound message, [_on_message] first pops the card and finalizes it,
    and only then hands the message to [_handle_message]: the hand-over is
    the last event of the run, every event before it belongs to the
    finalization of that card, the registry has no card for the key at
    that moment, and with a usable token the finalization has sent the
    accumulated content (final streaming call, then finished update). *)
Theorem inbound_finishes_card_first content sender name chat w l c :
  Dict.get (resolve_chat chat sender) (_active_cards w) = Some l ->
  heap w !! l = Some c ->
  let k := resolve_chat chat sender in
  let w3 := interrupted k l w in
  _on_message content sender name chat w = _handle_message sender k content w3 /\
  result (_on_message content sender name chat) w = Val tt /\
  Dict.get k (_active_cards w3) = None /\
  _active_cards (exec (_on_message content sender name chat) w)
    = _active_cards w3 /\
  trace (exec (_on_message content sender name chat) w)
    = trace w3 ++ [EvHandleMessage sender k content] /\
  (exists evs, added w w3 evs /\ Forall (card_event (card_instance_id c)) evs) /\
  (forall t, token_ready t w ->
     exists evs, added w w3 evs /\
       exists guid,
       http_calls evs =
         announce_call t c ++
         [ReqStreaming t (card_instance_id c) guid (final_content c) true;
          ReqPutData t (card_instance_id c) "3" (final_content c)]).
Proof.
  intros Hget Hl k w3.
  pose proof (_on_message_existing content sender name chat w l c Hget Hl) as E.
  fold k in E. fold w3 in E.
  destruct (interrupted_runs k l c w Hl)
    as (w2 & e2 & E2 & Hw3 & Hc2 & A2 & A & F).
  fold w3 in Hw3, A. clearbody w3.
  split; [exact E|]. unfold result, exec at 1 2. rewrite E.
  unfold _handle_message, emit, modify. cbn.
  split; [reflexivity|]. split.
  { rewrite Hw3. unfold exec, log, emit, modify. cbn. rewrite Hc2.
    apply dict_get_remove_eq. }
  split; [reflexivity|]. split; [reflexivity|]. split.
  { eexists. split; [exact A|]. apply Forall_app. split; [by repeat constructor|].
    apply Forall_app. split; [exact F|]. by repeat constructor. }
  intros t Hr.
  set (w1 := exec (log Info "Finishing stale AI card for {} (new message received)")
              (set_active_cards (Dict.remove k (_active_cards w)) w)) in *.
  assert (Hr1 : token_ready t w1) by exact Hr.
  assert (Hl1 : heap w1 !! l = Some c) by exact Hl.
  destruct (_card_finish_ready t w1 l c Hr1 Hl1)
    as (w2' & e2' & E2' & _ & _ & _ & _ & A2' & C2').
  rewrite E2 in E2'. injection E2' as <-.
  assert (e2 = e2') as ->.
  { unfold added in A2, A2'. rewrite A2 in A2'. by apply app_inv_head in A2'. }
  eexists. split; [exact A|]. exists (uuids env (minted w1)).
  rewrite !http_calls_app. cbn. rewrite C2', app_nil_r. reflexivity.
Qed.

(* ================================================================ *)
(** ** C8: shutdown *)

Lemma for_each_attempts finish cards : forall w,
  for_each cards
    (fun kv => try_except (finish kv.2)
                 (fun _ => log Warning "Failed to finish card for {} on stop: {}")) w
  = (Val tt, attempt_all finish cards w).
Proof.
  unfold attempt_all.
  induction cards as [|kv cards IH]; intros w; simpl; [reflexivity|].
  unfold bind at 1, try_except at 1, attempt.
  destruct (finish kv.2 w) as [[[]|e] w1]; apply IH.
Qed.

Lemma for_each_cancel ts : forall w,
  exists w',
    for_each ts (fun t => emit (EvCancel t)) w = (Val tt, w') /\
    kept w w' /\ trace w' = trace w ++ map EvCancel ts.
Proof.
  induction ts as [|t ts IH]; intros w; simpl.
  - exists w. split; [reflexivity|]. split; [apply kept_refl|].
    by rewrite app_nil_r.
  - unfold bind at 1, emit at 1, modify at 1.
    destruct (IH (set_trace (trace w ++ [EvCancel t]) w))
      as (w' & E & K & T).
    exists w'. split; [exact E|]. split.
    + eapply kept_trans; [|exact K]. solve_kept.
    + rewrite T. cbn. by rewrite <- app_assoc.
Qed.

Lemma attempt_all_ready t cards : forall w,
  token_ready t w ->
  (forall k l, (k, l) ∈ cards -> is_Some (heap w !! l)) ->
  exists evs,
    token_ready t (attempt_all (_card_finish) cards w) /\
    added w (attempt_all (_card_finish) cards w) evs /\
    forall k l c, (k, l) ∈ cards -> heap w !! l = Some c ->
      exists guid,
        ReqStreaming t (card_instance_id c) guid (final_content c) true
          ∈ http_calls evs /\
        ReqPutData t (card_instance_id c) "3" (final_content c)
          ∈ http_calls evs.
Proof.
  unfold attempt_all.
  induction cards as [|[k0 l0] cards IH]; intros w Hr Hv; simpl.
  - exists []. split; [exact Hr|]. split; [apply added_nil|].
    intros k l c H. by apply elem_of_nil in H.
  - destruct (Hv k0 l0) as [c0 Hl0]; [by left|].
    destruct (_card_finish_ready t w l0 c0 Hr Hl0)
      as (w1 & e1 & E1 & Hr1 & _ & Hh1 & _ & A1 & C1).
    assert (Hat : attempt _card_finish l0 w = w1)
      by (unfold attempt; by rewrite E1).
    cbn [snd]. rewrite Hat.
    assert (Hk : forall (l : loc) c, heap w !! l = Some c ->
               exists c', heap w1 !! l = Some c' /\
                 card_instance_id c' = card_instance_id c /\
                 final_content c' = final_content c).
    { intros l c Hl. rewrite Hh1. destruct (decide (l0 = l)) as [Heq|Hne].
      - subst l. rewrite Hl0 in Hl. injection Hl as <-.
        exists (with_inputing true c0). split; [by apply lookup_insert_flag|].
        by split.
      - exists c. by rewrite list_lookup_insert_ne. }
    destruct (IH w1 Hr1) as (e2 & Hr2 & A2 & Hcalls).
    { intros k l Hin. destruct (Hv k l) as [c Hl]; [by right|].
      destruct (Hk l c Hl) as (c' & Hl' & _). by exists c'. }
    exists (e1 ++ e2). split; [exact Hr2|]. split; [by eapply added_app|].
    intros k l c Hin Hl. rewrite http_calls_app.
    apply elem_of_cons in Hin as [Heq|Hin].
    + injection Heq as Hk' Hl'. subst k l. rewrite Hl0 in Hl.
      injection Hl as <-.
      exists (uuids env (minted w)). rewrite C1.
      split; apply elem_of_app; left; apply elem_of_app; right.
      * by left.
      * right. by left.
    + destruct (Hk l c Hl) as (c' & Hl' & Hid & Hfc).
      destruct (Hcalls k l c' Hin Hl') as (guid & H1 & H2).
      rewrite Hid, Hfc in *. exists guid.
      split; apply elem_of_app; by right.
Qed.

Lemma stop_with_runs (finish : loc -> M unit) w :
  let w1 := attempt_all finish (_active_cards w) (set_running false w) in
  exists wc,
    stop_with finish w = (Val tt, set_background_tasks ∅ wc) /\
    _active_cards wc = [] /\ _http wc = false /\
    trace wc = trace w1 ++ (if _http w1 then [EvHttpClose] else [])
                        ++ map EvCancel (elements (_background_tasks w1)).
Proof.
  intros w1. unfold stop_with. unfold bind at 1, modify at 1.
  unfold bind at 1, gets at 1. unfold bind at 1.
  change (_active_cards (set_running false w)) with (_active_cards w).
  rewrite for_each_attempts. fold w1.
  unfold bind at 1, modify at 1. unfold bind at 1, gets at 1.
  unfold bind at 1. cbn [_http set_active_cards].
  destruct (_http w1) eqn:Hh.
  - unfold bind at 1, emit at 1, modify at 1. unfold modify at 1.
    unfold bind at 1, gets at 1. unfold bind at 1.
    match goal with
    | |- context [for_each ?ts _ ?wx] =>
        destruct (for_each_cancel ts wx) as (wc & Ec & Kc & Tc)
    end.
    cbn in Ec, Kc, Tc. cbn. rewrite Ec. unfold modify.
    exists wc. split; [reflexivity|]. destruct Kc as [Kc1 Kc2 _ _ _].
    split; [exact Kc1|]. split; [exact Kc2|].
    rewrite Tc. by rewrite <- app_assoc.
  - unfold ret at 1. unfold bind at 1, gets at 1. unfold bind at 1.
    match goal with
    | |- context [for_each ?ts _ ?wx] =>
        destruct (for_each_cancel ts wx) as (wc & Ec & Kc & Tc)
    end.
    cbn in Ec, Kc, Tc. cbn. rewrite Ec. unfold modify.
    exists wc. split; [reflexivity|]. destruct Kc as [Kc1 Kc2 _ _ _].
    split; [exact Kc1|]. split; [by rewrite Kc2|]. exact Tc.
Qed.

(** C8.  [stop] makes one finalize attempt for every card of the registry,
    in order, each on the state the previous attempt left, whether that
    attempt returned or raised (a raise is logged); afterwards the registry
    is empty, the HTTP client is closed and released, every tracked task
    is cancelled and the task set is empty.  This holds for any finalizer,
    raising or not; with the channel's own [_card_finish] and a usable
    token, the run of [stop] holds, for each registered card, its final
    streaming call and its finished-status update. *)
Theorem stop_finishes_every_card (finish : loc -> M unit) w :
  let w0 := set_running false w in
  let w1 := attempt_all finish (_active_cards w) w0 in
  let w' := exec (stop_with finish) w in
  result (stop_with finish) w = Val tt /\
  (forall pre k l post, _active_cards w = pre ++ (k, l) :: post ->
     w1 = attempt_all finish post
            (attempt finish l (attempt_all finish pre w0))) /\
  _active_cards w' = [] /\ _http w' = false /\ _background_tasks w' = ∅ /\
  trace w' = trace w1 ++ (if _http w1 then [EvHttpClose] else [])
                      ++ map EvCancel (elements (_background_tasks w1)) /\
  (_http w1 = true -> EvHttpClose ∈ trace w') /\
  (forall t, t ∈ _background_tasks w1 -> EvCancel t ∈ trace w') /\
  (forall t, token_ready t w ->
     (forall k l, (k, l) ∈ _active_cards w -> is_Some (heap w !! l)) ->
     exists evs,
       added w (exec stop w) evs /\
       forall k l c, (k, l) ∈ _active_cards w -> heap w !! l = Some c ->
         exists guid,
           ReqStreaming t (card_instance_id c) guid (final_content c) true
             ∈ http_calls evs /\
           ReqPutData t (card_instance_id c) "3" (final_content c)
             ∈ http_calls evs).
Proof.
  intros w0 w1 w'.
  destruct (stop_with_runs finish w) as (wc & E & Hc & Hh & Ht).
  fold w0 in Ht. fold w1 in Ht.
  assert (Hw' : w' = set_background_tasks ∅ wc)
    by (unfold w', exec; by rewrite E).
  split; [unfold result; by rewrite E|].
  split.
  { intros pre k l post Hsplit. unfold w1, attempt_all.
    rewrite Hsplit, fold_left_app. reflexivity. }
  rewrite Hw'. cbn.
  split; [exact Hc|]. split; [exact Hh|]. split; [reflexivity|].
  split; [exact Ht|]. split.
  { intros H1. rewrite Ht, H1. apply elem_of_app. right. by left. }
  split.
  { intros t Hin. rewrite Ht. apply elem_of_app. right. apply elem_of_app.
    right. apply list_elem_of_fmap. exists t. split; [reflexivity|].
    by apply elem_of_elements. }
  intros t Hr Hv.
  assert (Hr0 : token_ready t w0) by exact Hr.
  destruct (attempt_all_ready t (_active_cards w) w0 Hr0 Hv)
    as (evs & _ & A & Hcalls).
  destruct (stop_with_runs _card_finish w) as (wc' & E' & _ & _ & Ht').
  cbv zeta in Ht'. fold w0 in Ht'.
  eexists. split.
  { unfold added, exec, stop. rewrite E'. cbn. rewrite Ht'.
    unfold added in A. change (trace w0) with (trace w) in A. rewrite A.
    rewrite <- app_assoc. reflexivity. }
  intros k l c Hin Hl. destruct (Hcalls k l c Hin Hl) as (guid & H1 & H2).
  exists guid. rewrite http_calls_app. split; apply elem_of_app; by left.
Qed.

(* ================================================================ *)
(** ** C2: progress messages, then the final one *)

Lemma string_app_assoc (a b c : string) : (a +:+ b) +:+ c = a +:+ b +:+ c.
Proof.
  induction a as [|x a IH]; [reflexivity|].
  change (String x ((a +:+ b) +:+ c) = String x (a +:+ b +:+ c)).
  f_equal. exact IH.
Qed.

Lemma string_app_nil_l (a : string) : "" +:+ a = a.
Proof. reflexivity. Qed.

Lemma string_app_sep_nonempty (a b : string) : a +:+ sep +:+ b <> "".
Proof. destruct a; discriminate. Qed.

Lemma final_content_nonempty c :
  accumulated_content c <> "" -> final_content c = accumulated_content c.
Proof. unfold final_content. intros H. apply String.eqb_neq in H. by rewrite H. Qed.

Lemma evict_stale_fresh k w (l : loc) c :
  Dict.get k (_active_cards w) = Some l -> heap w !! l = Some c ->
  clock env (ticks w) - created_at c <= _CARD_TTL_SECONDS ->
  evict_stale k w = (Val (Some l), set_ticks (S (ticks w)) w).
Proof.
  intros Hget Hl Hage. unfold evict_stale. unfold_cmd. cbn.
  rewrite Hget, Hl. cbn.
  destruct (Z.gtb_spec (clock env (ticks w) - created_at c) _CARD_TTL_SECONDS);
    [lia|reflexivity].
Qed.

Lemma accumulate_and_stream_ready t msg w (l : loc) c :
  token_ready t w -> heap w !! l = Some c ->
  exists w' evs,
    accumulate_and_stream msg l w = (Val tt, w') /\
    token_ready t w' /\ _active_cards w' = _active_cards w /\
    heap w' = <[l := with_inputing true
                       (append_content (content msg +:+ sep) c)]> (heap w) /\
    added w w' evs /\
    http_calls evs =
      announce_call t c ++
      [ReqStreaming t (card_instance_id c) (uuids env (minted w))
         (accumulated_content c +:+ content msg +:+ sep) false].
Proof.
  intros Hr Hl. unfold accumulate_and_stream, update.
  assert (Hlt : (l < length (heap w))%nat) by (by eapply lookup_lt_Some).
  unfold bind at 1. unfold bind at 1. unfold deref at 1. rewrite Hl.
  unfold modify at 1. unfold bind at 1. unfold deref at 1. cbn [heap set_heap].
  rewrite list_lookup_insert_eq by done.
  set (c1 := append_content (content msg +:+ sep) c).
  set (w1 := set_heap (<[l:=c1]> (heap w)) w).
  assert (Hr1 : token_ready t w1) by exact Hr.
  assert (Hl1 : heap w1 !! l = Some c1)
    by (unfold w1; cbn; by rewrite list_lookup_insert_eq).
  destruct (_card_stream_ready t w1 l c1 (accumulated_content c1) false Hr1 Hl1)
    as (w2 & e2 & E2 & Hr2 & Hc2 & Hh2 & _ & A2 & C2).
  rewrite E2. exists w2, e2. split; [reflexivity|]. split; [exact Hr2|].
  split; [exact Hc2|]. split.
  { rewrite Hh2. unfold w1. cbn. apply list_insert_insert_eq. }
  split; [exact A2|]. exact C2.
Qed.

Lemma progress_new_ready t msg w b :
  token_ready t w -> is_progress msg = true ->
  Dict.get (chat_id msg) (_active_cards w) = None ->
  replies env (served w) = Status 200 b ->
  exists w' evs,
    _send_ai_card msg w = (Val tt, w') /\
    token_ready t w' /\
    _active_cards w' = Dict.set (chat_id msg) (length (heap w)) (_active_cards w) /\
    heap w' = heap w ++
      [with_inputing true
         (append_content (content msg +:+ sep)
            (new_card ("card_" +:+ uuids env (minted w))
               (clock env (S (ticks w)))))] /\
    added w w' evs /\
    http_calls evs =
      [ReqCreateAndDeliver t ("card_" +:+ uuids env (minted w))
         (_build_open_space_id (metadata msg)) (is_group msg);
       ReqPutData t ("card_" +:+ uuids env (minted w)) "2" "";
       ReqStreaming t ("card_" +:+ uuids env (minted w))
         (uuids env (S (minted w))) (content msg +:+ sep) false].
Proof.
  intros Hr Hp Hget Hrep. unfold _send_ai_card. unfold bind at 1.
  rewrite (evict_stale_absent _ _ Hget). unfold dispatch.
  unfold is_progress in Hp. rewrite Hp. unfold bind at 1.
  destruct (_card_create_ready t msg w Hr)
    as (r & w1 & e1 & E1 & Hr1 & Hc1 & Hm1 & A1 & C1 & Hcase).
  rewrite Hrep in Hcase. destruct Hcase as [-> Hh1]. rewrite E1.
  unfold bind at 1, modify at 1.
  set (cn := new_card _ _) in *.
  set (w2 := set_active_cards _ w1).
  assert (Hr2 : token_ready t w2) by exact Hr1.
  assert (Hl2 : heap w2 !! length (heap w) = Some cn).
  { unfold w2. cbn. rewrite Hh1. by apply list_lookup_middle. }
  destruct (accumulate_and_stream_ready t msg w2 _ cn Hr2 Hl2)
    as (w3 & e3 & E3 & Hr3 & Hc3 & Hh3 & A3 & C3).
  rewrite E3. exists w3, (e1 ++ e3). split; [reflexivity|].
  split; [exact Hr3|]. split; [rewrite Hc3; unfold w2; cbn; by rewrite Hc1|].
  split.
  { rewrite Hh3. unfold w2. cbn. rewrite Hh1.
    rewrite insert_app_r_alt by lia. by rewrite Nat.sub_diag. }
  split; [eapply added_app; [exact A1|exact A3]|].
  rewrite http_calls_app, C1, C3. unfold w2. cbn. by rewrite Hm1.
Qed.

Lemma progress_existing_ready t msg w (l : loc) c :
  token_ready t w -> is_progress msg = true ->
  Dict.get (chat_id msg) (_active_cards w) = Some l -> heap w !! l = Some c ->
  clock env (ticks w) - created_at c <= _CARD_TTL_SECONDS ->
  exists w' evs,
    _send_ai_card msg w = (Val tt, w') /\
    token_ready t w' /\ _active_cards w' = _active_cards w /\
    heap w' = <[l := with_inputing true
                       (append_content (content msg +:+ sep) c)]> (heap w) /\
    added w w' evs /\
    exists guid,
    http_calls evs =
      announce_call t c ++
      [ReqStreaming t (card_instance_id c) guid
         (accumulated_content c +:+ content msg +:+ sep) false].
Proof.
  intros Hr Hp Hget Hl Hage. unfold _send_ai_card. unfold bind at 1.
  rewrite (evict_stale_fresh _ _ l c Hget Hl Hage). unfold dispatch.
  unfold is_progress in Hp. rewrite Hp.
  set (w1 := set_ticks _ w).
  assert (Hr1 : token_ready t w1) by exact Hr.
  assert (Hl1 : heap w1 !! l = Some c) by exact Hl.
  destruct (accumulate_and_stream_ready t msg w1 l c Hr1 Hl1)
    as (w2 & e2 & E2 & Hr2 & Hc2 & Hh2 & A2 & C2).
  rewrite E2. exists w2, e2. split; [reflexivity|]. split; [exact Hr2|].
  split; [exact Hc2|]. split; [exact Hh2|]. split; [exact A2|].
  eexists. exact C2.
Qed.

Lemma final_existing_ready t msg w (l : loc) c :
  token_ready t w -> is_progress msg = false ->
  Dict.get (chat_id msg) (_active_cards w) = Some l -> heap w !! l = Some c ->
  clock env (ticks w) - created_at c <= _CARD_TTL_SECONDS ->
  exists w' evs,
    _send_ai_card msg w = (Val tt, w') /\
    token_ready t w' /\
    _active_cards w' = Dict.remove (chat_id msg) (_active_cards w) /\
    added w w' evs /\
    exists guid,
    http_calls evs =
      announce_call t c ++
      [ReqStreaming t (card_instance_id c) guid
         (final_content (append_content (content msg) c)) true;
       ReqPutData t (card_instance_id c) "3"
         (final_content (append_content (content msg) c))].
Proof.
  intros Hr Hp Hget Hl Hage. unfold _send_ai_card. unfold bind at 1.
  rewrite (evict_stale_fresh _ _ l c Hget Hl Hage). unfold dispatch.
  unfold is_progress in Hp. rewrite Hp.
  assert (Hlt : (l < length (heap w))%nat) by (by eapply lookup_lt_Some).
  unfold update. unfold bind at 1. unfold bind at 1. unfold deref at 1.
  cbn [heap set_ticks]. rewrite Hl. unfold modify at 1. unfold bind at 1.
  set (c1 := append_content (content msg) c).
  match goal with |- context [_card_finish l ?wx] => set (w1 := wx) end.
  assert (Hr1 : token_ready t w1) by exact Hr.
  assert (Hl1 : heap w1 !! l = Some c1)
    by (unfold w1; cbn; by rewrite list_lookup_insert_eq).
  destruct (_card_finish_ready t w1 l c1 Hr1 Hl1)
    as (w2 & e2 & E2 & Hr2 & Hc2 & Hh2 & _ & A2 & C2).
  rewrite E2. unfold modify. eexists. exists e2. split; [reflexivity|].
  split; [exact Hr2|]. split; [cbn; by rewrite Hc2|]. split; [exact A2|].
  eexists. exact C2.
Qed.

(** C2.  On one conversation in card mode, starting without a card, with a
    usable token, a server that accepts the creation and no card going
    stale: a first progress message creates and announces the card and
    streams its content followed by two newlines; a second progress message
    appends its content and two newlines and streams the whole buffer,
    non-final; the final message appends its content without separator,
    and the finalize stream (and the finished update) carry exactly
    content1 + "\n\n" + content2 + "\n\n" + content3; afterwards the
    registry has no card for the key. *)
Theorem progress_then_final_content t w m1 m2 m3 b :
  token_ready t w ->
  Dict.get (chat_id m1) (_active_cards w) = None ->
  replies env (served w) = Status 200 b ->
  (forall n m, clock env n - clock env m <= _CARD_TTL_SECONDS) ->
  chat_id m2 = chat_id m1 -> chat_id m3 = chat_id m1 ->
  is_progress m1 = true -> is_progress m2 = true -> is_progress m3 = false ->
  let w1 := exec (_send_ai_card m1) w in
  let w2 := exec (_send_ai_card m2) w1 in
  let w3 := exec (_send_ai_card m3) w2 in
  let buf1 := content m1 +:+ sep in
  let buf2 := content m1 +:+ sep +:+ content m2 +:+ sep in
  let buf3 := content m1 +:+ sep +:+ content m2 +:+ sep +:+ content m3 in
  exists id (l : loc) g1 g2 g3 e1 e2 e3,
    added w w1 e1 /\ added w1 w2 e2 /\ added w2 w3 e3 /\
    http_calls e1 =
      [ReqCreateAndDeliver t id (_build_open_space_id (metadata m1))
         (is_group m1);
       ReqPutData t id "2" "";
       ReqStreaming t id g1 buf1 false] /\
    Dict.get (chat_id m1) (_active_cards w1) = Some l /\
    accumulated_content <$> heap w1 !! l = Some buf1 /\
    http_calls e2 = [ReqStreaming t id g2 buf2 false] /\
    Dict.get (chat_id m1) (_active_cards w2) = Some l /\
    accumulated_content <$> heap w2 !! l = Some buf2 /\
    http_calls e3 =
      [ReqStreaming t id g3 buf3 true; ReqPutData t id "3" buf3] /\
    Dict.get (chat_id m1) (_active_cards w3) = None.
Proof.
  intros Hr Hget Hrep Hclock Hk2 Hk3 Hp1 Hp2 Hp3 w1 w2 w3 buf1 buf2 buf3.
  destruct (progress_new_ready t m1 w b Hr Hp1 Hget Hrep)
    as (w1' & e1 & E1 & Hr1 & Hc1 & Hh1 & A1 & C1).
  assert (w1 = w1') as Hw1 by (unfold w1, exec; by rewrite E1).
  clearbody w1. subst w1'.
  set (id := "card_" +:+ uuids env (minted w)) in *.
  set (l := length (heap w) : loc) in *.
  set (c1 := with_inputing true
               (append_content (content m1 +:+ sep)
                  (new_card id (clock env (S (ticks w)))))) in *.
  assert (Hg1 : Dict.get (chat_id m1) (_active_cards w1) = Some l)
    by (rewrite Hc1; apply dict_get_set_eq).
  assert (Hl1 : heap w1 !! l = Some c1)
    by (rewrite Hh1; by apply list_lookup_middle).
  assert (Hage1 : clock env (ticks w1) - created_at c1 <= _CARD_TTL_SECONDS)
    by apply Hclock.
  rewrite <- Hk2 in Hg1.
  destruct (progress_existing_ready t m2 w1 l c1 Hr1 Hp2 Hg1 Hl1 Hage1)
    as (w2' & e2 & E2 & Hr2 & Hc2 & Hh2 & A2 & g2 & C2).
  assert (w2 = w2') as Hw2 by (unfold w2, exec; by rewrite E2).
  clearbody w2. subst w2'.
  set (c2 := with_inputing true (append_content (content m2 +:+ sep) c1)) in *.
  assert (Hl2 : heap w2 !! l = Some c2).
  { rewrite Hh2. apply list_lookup_insert_eq. by eapply lookup_lt_Some. }
  assert (Hg2 : Dict.get (chat_id m3) (_active_cards w2) = Some l)
    by (rewrite Hc2, Hk3, <- Hk2; exact Hg1).
  assert (Hage2 : clock env (ticks w2) - created_at c2 <= _CARD_TTL_SECONDS)
    by apply Hclock.
  destruct (final_existing_ready t m3 w2 l c2 Hr2 Hp3 Hg2 Hl2 Hage2)
    as (w3' & e3 & E3 & Hr3 & Hc3 & A3 & g3 & C3).
  assert (w3 = w3') as Hw3 by (unfold w3, exec; by rewrite E3).
  clearbody w3. subst w3'.
  assert (Hb1 : accumulated_content c1 = buf1) by reflexivity.
  assert (Hb2 : accumulated_content c2 = buf2).
  { unfold buf2. cbn. by rewrite !string_app_assoc, string_app_nil_l. }
  assert (Hb3 : final_content (append_content (content m3) c2) = buf3).
  { rewrite final_content_nonempty.
    - unfold buf3. cbn. by rewrite !string_app_assoc, string_app_nil_l.
    - cbn. rewrite !string_app_assoc, string_app_nil_l.
      apply string_app_sep_nonempty. }
  exists id, l, (uuids env (S (minted w))), g2, g3, e1, e2, e3.
  split; [exact A1|]. split; [exact A2|]. split; [exact A3|].
  split; [exact C1|]. split; [by rewrite <- Hk2|].
  split; [by rewrite Hl1|]. split.
  { rewrite C2. cbn. unfold buf2.
    by rewrite !string_app_assoc, string_app_nil_l. }
  split; [rewrite Hc2, <- Hk2; exact Hg1|].
  split; [rewrite Hl2; cbn [fmap option_fmap option_map]; by rewrite Hb2|].
  split; [rewrite C3, Hb3; reflexivity|].
  rewrite Hc3, Hk3. apply dict_get_remove_eq.
Qed.

(* ================================================================ *)
(** ** C3: eviction of a stale card *)

Lemma create_event_minted n e :
  create_event ("card_" +:+ uuids env n) e -> minted_event e.
Proof.
  destruct e as [[]| | | |]; simpl; try tauto. intros ->. by exists n.
Qed.

Lemma card_event_minted n e :
  card_event ("card_" +:+ uuids env n) e -> minted_event e.
Proof.
  destruct e as [[]| | | |]; simpl; try tauto; intros ->; by exists n.
Qed.

Lemma text_event_minted e : text_event e -> minted_event e.
Proof. destruct e as [[]| | | |]; simpl; tauto. Qed.

Lemma minted_event_not_to id e :
  (forall n, "card_" +:+ uuids env n <> id) -> minted_event e -> not_to id e.
Proof.
  intros Hfresh He r -> Ht. simpl in He. rewrite Ht in He.
  destruct He as [n ->]. by apply (Hfresh n).
Qed.

Lemma dispatch_none_runs msg w :
  exists w' evs,
    dispatch msg None w = (Val tt, w') /\
    added w w' evs /\ Forall minted_event evs /\
    (_active_cards w' = _active_cards w \/
     _active_cards w' =
       Dict.set (chat_id msg) (length (heap w)) (_active_cards w)).
Proof.
  destruct (_card_create_runs msg w)
    as (r & w1 & e1 & E1 & Hc1 & _ & A1 & F1 & Hr).
  assert (F1' : Forall minted_event e1).
  { eapply Forall_impl; [exact F1|]. intros e. apply create_event_minted. }
  destruct r as [l|].
  2:{ rewrite (dispatch_create_failed msg w w1 E1).
      destruct (_send_text_runs msg w1) as (w2 & e2 & E2 & K2 & _ & A2 & F2).
      exists w2, (e1 ++ e2). split; [exact E2|].
      split; [by eapply added_app|]. split.
      - apply Forall_app. split; [exact F1'|].
        eapply Forall_impl; [exact F2|]. apply text_event_minted.
      - left. destruct K2 as [-> _ _ _ _]. exact Hc1. }
  destruct Hr as (-> & now & Hh1).
  set (id := "card_" +:+ uuids env (minted w)) in *.
  set (l := length (heap w) : loc) in *.
  assert (Hl1 : heap w1 !! l = Some (new_card id now))
    by (rewrite Hh1; by apply list_lookup_middle).
  assert (Hlt : (l < length (heap w1))%nat) by (by eapply lookup_lt_Some).
  unfold dispatch. destruct (meta_truthy (metadata msg) "_progress").
  - unfold bind at 1. rewrite E1. unfold bind at 1, modify at 1.
    unfold accumulate_and_stream, update.
    unfold bind at 1. unfold bind at 1. unfold deref at 1.
    cbn [heap set_active_cards]. rewrite Hl1.
    unfold modify at 1. unfold bind at 1. unfold deref at 1.
    cbn [heap set_heap]. rewrite list_lookup_insert_eq by done.
    match goal with
    | |- context [_card_stream l ?s ?f ?wx] =>
        destruct (_card_stream_runs wx l
                    (append_content (content msg +:+ sep) (new_card id now)) s f)
          as (w2 & e2 & E2 & K2 & _ & A2 & F2 & _)
    end.
    { cbn. by rewrite list_lookup_insert_eq. }
    rewrite E2. exists w2, (e1 ++ e2). split; [reflexivity|].
    split; [eapply added_app; [exact A1|exact A2]|]. split.
    + apply Forall_app. split; [exact F1'|].
      eapply Forall_impl; [exact F2|]. intros e. apply card_event_minted.
    + right. destruct K2 as [-> _ _ _ _]. cbn. by rewrite Hc1.
  - unfold bind at 1. rewrite E1. unfold update.
    unfold bind at 1. unfold bind at 1. unfold deref at 1. rewrite Hl1.
    unfold modify at 1.
    match goal with
    | |- context [_card_finish l ?wx] =>
        destruct (_card_finish_runs wx l
                    (with_content (content msg) (new_card id now)))
          as (w2 & e2 & E2 & K2 & _ & A2 & F2 & _)
    end.
    { cbn. by rewrite list_lookup_insert_eq. }
    rewrite E2. exists w2, (e1 ++ e2). split; [reflexivity|].
    split; [eapply added_app; [exact A1|exact A2]|]. split.
    + apply Forall_app. split; [exact F1'|].
      eapply Forall_impl; [exact F2|]. intros e. apply card_event_minted.
    + left. destruct K2 as [-> _ _ _ _]. cbn. exact Hc1.
Qed.

Lemma evict_stale_stale k w (l : loc) c :
  Dict.get k (_active_cards w) = Some l -> heap w !! l = Some c ->
  clock env (ticks w) - created_at c > _CARD_TTL_SECONDS ->
  evict_stale k w = (Val None, evicted k l w) /\
  _active_cards (evicted k l w) = Dict.remove k (_active_cards w) /\
  length (heap (evicted k l w)) = length (heap w) /\
  exists e2,
    added (exec (log Warning "Evicting stale AI card for chat {}")
             (set_ticks (S (ticks w)) w))
          (exec (_card_finish l)
             (exec (log Warning "Evicting stale AI card for chat {}")
                (set_ticks (S (ticks w)) w))) e2 /\
    added w (evicted k l w)
      (EvLog Warning "Evicting stale AI card for chat {}" :: e2) /\
    Forall (card_event (card_instance_id c)) e2.
Proof.
  intros Hget Hl Hage. unfold evicted.
  set (w1 := exec (log Warning _) (set_ticks (S (ticks w)) w)).
  assert (Hl1 : heap w1 !! l = Some c) by exact Hl.
  destruct (_card_finish_runs w1 l c Hl1)
    as (w2 & e2 & E2 & K2 & _ & A2 & F2 & _).
  assert (Hx : exec (_card_finish l) w1 = w2) by (unfold exec; by rewrite E2).
  rewrite Hx. cbn [_active_cards set_active_cards heap].
  destruct K2 as [Kc _ _ _ [Kl _]].
  split.
  { unfold evict_stale. unfold bind at 1, gets at 1. rewrite Hget.
    unfold bind at 1, deref at 1. rewrite Hl.
    unfold bind at 1, time_time at 1.
    destruct (Z.gtb_spec (clock env (ticks w) - created_at c) _CARD_TTL_SECONDS);
      [|lia].
    unfold bind at 1. unfold log at 1, emit at 1, modify at 1.
    unfold bind at 1, try_except at 1.
    change (set_trace _ (set_ticks (S (ticks w)) w)) with w1.
    rewrite E2. unfold bind at 1, modify at 1. reflexivity. }
  split; [by rewrite Kc|]. split; [exact Kl|].
  exists e2. split; [exact A2|]. split; [|exact F2].
  unfold added in *. cbn [trace set_active_cards]. rewrite A2.
  unfold w1, exec, log, emit, modify. cbn. by rewrite <- app_assoc.
Qed.

(** C3.  When the registry holds, for the chat of an outbound message, a
    card older than 600 seconds, [_send_ai_card] first finalizes that card
    (best effort) and removes it from the registry, and only then treats
    the message, as if no card existed: up to the removal the only events
    are the eviction warning and the finalization of the stale card (with
    a usable token: its final streaming call and finished update);
    everything after concerns cards with newly minted track ids, so no
    later request is addressed to the stale card as long as the uuid
    generator does not repeat its id; and the registry never maps the
    chat to the stale card again. *)
Theorem stale_card_evicted_first msg w (l : loc) c :
  Dict.get (chat_id msg) (_active_cards w) = Some l ->
  heap w !! l = Some c ->
  clock env (ticks w) - created_at c > _CARD_TTL_SECONDS ->
  let w1 := evicted (chat_id msg) l w in
  let w' := exec (_send_ai_card msg) w in
  _send_ai_card msg w = dispatch msg None w1 /\
  Dict.get (chat_id msg) (_active_cards w1) = None /\
  (exists evs, added w w1 evs /\ Forall (card_event (card_instance_id c)) evs) /\
  (forall t, token_ready t w ->
     exists evs guid, added w w1 evs /\
       http_calls evs =
         announce_call t c ++
         [ReqStreaming t (card_instance_id c) guid (final_content c) true;
          ReqPutData t (card_instance_id c) "3" (final_content c)]) /\
  (exists evs, added w1 w' evs /\ Forall minted_event evs /\
     ((forall n, "card_" +:+ uuids env n <> card_instance_id c) ->
      Forall (not_to (card_instance_id c)) evs)) /\
  Dict.get (chat_id msg) (_active_cards w') <> Some l.
Proof.
  intros Hget Hl Hage w1 w'.
  destruct (evict_stale_stale (chat_id msg) w l c Hget Hl Hage)
    as (Ev & Hc1 & Hlen & e2 & A2 & A & F2).
  fold w1 in Ev, Hc1, Hlen, A.
  assert (Es : _send_ai_card msg w = dispatch msg None w1).
  { unfold _send_ai_card. unfold bind at 1. by rewrite Ev. }
  destruct (dispatch_none_runs msg w1) as (w2 & e3 & E3 & A3 & F3 & Hc3).
  assert (Hw' : w' = w2) by (unfold w', exec; by rewrite Es, E3).
  clearbody w' w1. subst w2.
  split; [exact Es|].
  assert (Hnone : Dict.get (chat_id msg) (_active_cards w1) = None)
    by (rewrite Hc1; apply dict_get_remove_eq).
  split; [exact Hnone|]. split.
  { eexists. split; [exact A|]. constructor; [exact I|exact F2]. }
  split.
  { intros t Hr.
    set (w0 := exec (log Warning "Evicting stale AI card for chat {}")
                 (set_ticks (S (ticks w)) w)) in *.
    assert (Hr0 : token_ready t w0) by exact Hr.
    assert (Hl0 : heap w0 !! l = Some c) by exact Hl.
    destruct (_card_finish_ready t w0 l c Hr0 Hl0)
      as (wf & ef & Ef & _ & _ & _ & _ & Af & Cf).
    assert (e2 = ef) as ->.
    { unfold added, exec in A2, Af. rewrite Ef in A2. cbn in A2.
      rewrite Af in A2. by apply app_inv_head in A2. }
    eexists. exists (uuids env (minted w0)). split; [exact A|].
    cbn. exact Cf. }
  split.
  { exists e3. split; [exact A3|]. split; [exact F3|].
    intros Hfresh. eapply Forall_impl; [exact F3|].
    intros e. by apply minted_event_not_to. }
  destruct Hc3 as [Hc3|Hc3]; rewrite Hc3.
  - by rewrite Hnone.
  - rewrite dict_get_set_eq. intros [= Heq].
    apply lookup_lt_Some in Hl. lia.
Qed.

(* ================================================================ *)
(** ** C7: the token cache *)

(** The cached token is returned, with no request, exactly when a token is
    cached and the clock is before the stored expiry. *)
Lemma _get_access_token_cached w :
  token_valid w = true ->
  _get_access_token w = (Val (_access_token w), set_ticks (S (ticks w)) w).
Proof.
  unfold token_valid. intros H. apply andb_prop in H as [Ht Hc].
  unfold _get_access_token. unfold_cmd. cbn. rewrite Ht. cbn. by rewrite Hc.
Qed.

Lemma _get_access_token_not_cached w :
  token_valid w = false ->
  (_http w = false ->
   result _get_access_token w = Val None /\
   http_calls (trace (exec _get_access_token w)) = http_calls (trace w)) /\
  (_http w = true ->
   served (exec _get_access_token w) = S (served w) /\
   exists evs, added w (exec _get_access_token w) evs /\
     http_calls evs = [ReqAccessToken (client_id cfg) (client_secret cfg)]).
Proof.
  unfold token_valid. intros H. unfold result, exec, _get_access_token.
  unfold_cmd. cbn.
  destruct (truthy (_access_token w)); cbn in *; rewrite ?H; cbn;
    (split; intros Hh; rewrite Hh; cbn;
     [split; [reflexivity|]; by rewrite http_calls_app, app_nil_r|]);
    (destruct (replies env (served w)) as [|code [|tok' [| |]]]; cbn;
     [|destruct (negb (is_success code)); cbn..];
     (split; [reflexivity|]; eexists; split; [solve_added|reflexivity])).
Qed.

(** A successful refresh stores the new token with expiry
    now + ttl - 60 (ttl 7200 when the reply has none) and returns it. *)
Lemma _get_access_token_refreshed w code tok' ttl :
  token_valid w = false -> _http w = true ->
  replies env (served w) = Status code (JsonObject tok' ttl) ->
  is_success code = true -> ttl <> ExpBad ->
  let w' := exec _get_access_token w in
  let now := clock env (ticks (after_check w)) in
  result _get_access_token w = Val tok' /\
  _access_token w' = tok' /\
  _token_expiry w' =
    now + match ttl with ExpInt z => z | _ => 7200 end - 60.
Proof.
  unfold token_valid, after_check. intros H Hh Hrep Hs Httl.
  unfold result, exec, _get_access_token. unfold_cmd. cbn.
  destruct (truthy (_access_token w)); cbn in *; rewrite ?H; cbn;
    rewrite Hh; cbn; rewrite Hrep; cbn; rewrite Hs; cbn;
    destruct ttl; done.
Qed.

(** X11.  A refresh that fails in the exchange itself returns no token and
    leaves the cached token and expiry as they were. *)
Lemma _get_access_token_exchange_failed w :
  token_valid w = false ->
  _http w = false \/ exchange_failed (replies env (served w)) = true ->
  let w' := exec _get_access_token w in
  result _get_access_token w = Val None /\
  _access_token w' = _access_token w /\ _token_expiry w' = _token_expiry w.
Proof.
  unfold token_valid, exchange_failed. intros H Hf.
  unfold result, exec, _get_access_token. unfold_cmd. cbn.
  destruct (truthy (_access_token w)); cbn in *; rewrite ?H; cbn;
    (destruct (_http w); cbn; [|done]);
    (destruct Hf as [Hf|Hf]; [done|]);
    (destruct (replies env (served w)) as [|code [|tok' ttl]]; cbn; [done| |]);
    try (destruct (negb (is_success code)); done);
    rewrite Hf; done.
Qed.

(** A token is never handed out from the cache at or past its expiry. *)
Lemma _get_access_token_expired w :
  _token_expiry w <= clock env (ticks w) -> token_valid w = false.
Proof.
  intros H. unfold token_valid.
  destruct (Z.ltb_spec (clock env (ticks w)) (_token_expiry w)); [lia|].
  apply andb_false_r.
Qed.

(* ================================================================ *)
(** ** Without an HTTP client nothing is sent *)

Lemma _get_access_token_offline w :
  _http w = false ->
  exists tok w' evs,
    _get_access_token w = (Val tok, w') /\
    kept w w' /\ heap w' = heap w /\
    added w w' evs /\ http_calls evs = [].
Proof.
  intros Hh. destruct w as [run http tok exp tasks cards hp tk sv mt tr].
  cbn in Hh. subst http. unfold _get_access_token. unfold_cmd. cbn.
  repeat case_step;
    (do 3 eexists; split; [reflexivity|];
     split; [solve_kept|]; split; [reflexivity|];
     split; [solve_added|reflexivity]).
Qed.

Lemma _card_put_data_offline w l flow s :
  _http w = false ->
  exists w' evs,
    _card_put_data l flow s w = (Val tt, w') /\
    kept w w' /\ heap w' = heap w /\
    added w w' evs /\ http_calls evs = [].
Proof.
  intros Hh. unfold _card_put_data. unfold bind at 1.
  destruct (_get_access_token_offline w Hh)
    as (tok & w1 & e1 & E & K1 & Hh1 & A1 & C1).
  rewrite E. unfold_cmd. cbn.
  assert (Hoff : _http w1 = false) by (destruct K1; congruence).
  rewrite Hoff, orb_true_r. exists w1, e1. done.
Qed.

Lemma _card_stream_offline w (l : loc) c s fin :
  _http w = false -> heap w !! l = Some c ->
  exists w' evs,
    _card_stream l s fin w = (Val tt, w') /\
    kept w w' /\ heap w' = <[l := with_inputing true c]> (heap w) /\
    added w w' evs /\ http_calls evs = [].
Proof.
  intros Hh Hl. unfold _card_stream, _card_ensure_inputing.
  unfold bind at 1. unfold bind at 1. unfold deref at 1. rewrite Hl.
  assert (Htail : forall w1 e1,
    kept w w1 -> heap w1 = <[l := with_inputing true c]> (heap w) ->
    added w w1 e1 -> http_calls e1 = [] ->
    exists w' evs,
      (token <- _get_access_token ;;
       http <- gets _http ;;
       if negb (truthy token) || negb http then ret tt
       else
         card <- deref l ;;
         guid <- uuid4_hex ;;
         r <- http_request (ReqStreaming (default "" token)
                              (card_instance_id card) guid s fin) ;;
         match r with
         | Raised => log Error "Error streaming DingTalk AI card: {}"
         | Status code _ =>
             if negb (code =? 200) then
               log Error "DingTalk card streaming failed ({}): {}"
             else log Debug "DingTalk card streamed (finalize={})"
         end) w1 = (Val tt, w') /\
      kept w w' /\ heap w' = <[l := with_inputing true c]> (heap w) /\
      added w w' evs /\ http_calls evs = []).
  { intros w1 e1 K1 Hh1 A1 C1.
    assert (Hoff : _http w1 = false) by (destruct K1; congruence).
    unfold bind at 1.
    destruct (_get_access_token_offline w1 Hoff)
      as (tok & w2 & e2 & E2 & K2 & Hh2 & A2 & C2).
    rewrite E2. unfold_cmd. cbn.
    assert (Hoff2 : _http w2 = false) by (destruct K2; congruence).
    rewrite Hoff2, orb_true_r.
    exists w2, (e1 ++ e2). split; [reflexivity|].
    split; [by eapply kept_trans|]. split; [congruence|].
    split; [by eapply added_app|]. by rewrite http_calls_app, C1, C2. }
  destruct (inputing_started c) eqn:Hf.
  - unfold ret at 1. apply (Htail w []).
    + apply kept_refl.
    + symmetry. by apply insert_flag_id.
    + apply added_nil.
    + reflexivity.
  - unfold bind at 1.
    destruct (_card_put_data_offline w l "2" "" Hh)
      as (w1 & e1 & E1 & K1 & Hh1 & A1 & C1).
    rewrite E1. unfold update. unfold bind at 1. unfold deref at 1.
    rewrite Hh1, Hl. unfold modify at 1.
    match goal with
    | |- context [bind _get_access_token _ ?wx] =>
        apply (Htail wx e1)
    end.
    + eapply kept_trans; [exact K1|]. split; cbn; try reflexivity.
      rewrite Hh1. by apply heap_kept_insert.
    + cbn. by rewrite Hh1.
    + exact A1.
    + exact C1.
Qed.

Lemma _card_finish_offline w (l : loc) c :
  _http w = false -> heap w !! l = Some c ->
  exists w' evs,
    _card_finish l w = (Val tt, w') /\
    kept w w' /\ heap w' = <[l := with_inputing true c]> (heap w) /\
    added w w' evs /\ http_calls evs = [].
Proof.
  intros Hh Hl. unfold _card_finish. unfold bind at 1, deref. rewrite Hl.
  unfold bind at 1.
  destruct (_card_stream_offline w l c (final_content c) true Hh Hl)
    as (w1 & e1 & E1 & K1 & Hh1 & A1 & C1).
  rewrite E1.
  assert (Hoff : _http w1 = false) by (destruct K1; congruence).
  destruct (_card_put_data_offline w1 l "3" (final_content c) Hoff)
    as (w2 & e2 & E2 & K2 & Hh2 & A2 & C2).
  rewrite E2. exists w2, (e1 ++ e2). split; [reflexivity|].
  split; [by eapply kept_trans|]. split; [congruence|].
  split; [by eapply added_app|]. by rewrite http_calls_app, C1, C2.
Qed.

(* ================================================================ *)
(** ** C1: finalizing a card *)


Lemma _send_text_offline msg w :
  _http w = false ->
  exists w' evs,
    _send_text msg w = (Val tt, w') /\
    kept w w' /\ heap w' = heap w /\
    added w w' evs /\ http_calls evs = [].
Proof.
  intros Hh. unfold _send_text.
  destruct (meta_is (metadata msg) "_dingtalk_conversation_type" "2").
  { unfold_cmd. do 2 eexists. split; [reflexivity|]. split; [solve_kept|].
    split; [reflexivity|]. split; [solve_added|reflexivity]. }
  unfold bind at 1.
  destruct (_get_access_token_offline w Hh)
    as (tok & w1 & e1 & E & K1 & Hh1 & A1 & C1).
  rewrite E. unfold_cmd. cbn.
  assert (Hoff : _http w1 = false) by (destruct K1; congruence).
  destruct (negb (truthy tok)); cbn.
  { exists w1, e1. done. }
  rewrite Hoff. cbn. do 2 eexists. split; [reflexivity|].
  split; [eapply kept_trans; [exact K1|solve_kept]|].
  split; [cbn; exact Hh1|].
  split; [eapply added_app; [exact A1|solve_added]|].
  by rewrite http_calls_app, C1.
Qed.

Lemma _card_create_offline msg w :
  _http w = false ->
  exists w' evs,
    _card_create msg w = (Val None, w') /\
    kept w w' /\ heap w' = heap w /\
    added w w' evs /\ http_calls evs = [].
Proof.
  intros Hh. unfold _card_create. unfold bind at 1.
  destruct (_get_access_token_offline w Hh)
    as (tok & w1 & e1 & E & K1 & Hh1 & A1 & C1).
  rewrite E. unfold_cmd. cbn.
  assert (Hoff : _http w1 = false) by (destruct K1; congruence).
  rewrite Hoff, orb_true_r. exists w1, e1. done.
Qed.

(* ================================================================ *)
(** ** The registry across one dispatch, for every server *)

Lemma http_calls_added_unique w w' e1 e2 :
  added w w' e1 -> added w w' e2 -> e1 = e2.
Proof. unfold added. intros H1 H2. rewrite H1 in H2. by apply app_inv_head in H2. Qed.

Lemma dispatch_existing_shape msg w (l : loc) c :
  heap w !! l = Some c ->
  exists w' evs,
    dispatch msg (Some l) w = (Val tt, w') /\
    _active_cards w' =
      (if is_progress msg then _active_cards w
       else Dict.remove (chat_id msg) (_active_cards w)) /\
    length (heap w') = length (heap w) /\
    _http w' = _http w /\
    added w w' evs /\
    (_http w = false -> http_calls evs = []).
Proof.
  intros Hl. unfold dispatch, is_progress.
  assert (Hlt : (l < length (heap w))%nat) by (by eapply lookup_lt_Some).
  destruct (meta_truthy (metadata msg) "_progress").
  - unfold accumulate_and_stream, update.
    unfold bind at 1. unfold bind at 1. unfold deref at 1. rewrite Hl.
    unfold modify at 1. unfold bind at 1. unfold deref at 1. cbn [heap set_heap].
    rewrite list_lookup_insert_eq by done.
    set (c1 := append_content (content msg +:+ sep) c).
    set (w1 := set_heap (<[l:=c1]> (heap w)) w).
    assert (Hl1 : heap w1 !! l = Some c1)
      by (unfold w1; cbn; by rewrite list_lookup_insert_eq).
    destruct (_card_stream_runs w1 l c1 (accumulated_content c1) false Hl1)
      as (w2 & e2 & E2 & K2 & Hh2 & A2 & _).
    rewrite E2. exists w2, e2. split; [reflexivity|].
    destruct K2 as [Kc Kh _ _ _].
    split; [exact Kc|]. split.
    { rewrite Hh2. unfold w1. cbn. by rewrite !length_insert. }
    split; [exact Kh|]. split; [exact A2|].
    intros Hoff.
    destruct (_card_stream_offline w1 l c1 (accumulated_content c1) false Hoff Hl1)
      as (w2' & e2' & E2' & _ & _ & A2' & C2').
    rewrite E2 in E2'. injection E2' as <-.
    by rewrite (http_calls_added_unique _ _ _ _ A2 A2').
  - unfold update.
    unfold bind at 1. unfold bind at 1. unfold deref at 1. rewrite Hl.
    unfold modify at 1. unfold bind at 1.
    set (c1 := append_content (content msg) c).
    set (w1 := set_heap (<[l:=c1]> (heap w)) w).
    assert (Hl1 : heap w1 !! l = Some c1)
      by (unfold w1; cbn; by rewrite list_lookup_insert_eq).
    destruct (_card_finish_runs w1 l c1 Hl1)
      as (w2 & e2 & E2 & K2 & Hh2 & A2 & _).
    rewrite E2. unfold modify. eexists. exists e2. split; [reflexivity|].
    destruct K2 as [Kc Kh _ _ _]. cbn.
    split; [by rewrite Kc|]. split.
    { rewrite Hh2. unfold w1. cbn. by rewrite !length_insert. }
    split; [exact Kh|]. split; [exact A2|].
    intros Hoff.
    destruct (_card_finish_offline w1 l c1 Hoff Hl1)
      as (w2' & e2' & E2' & _ & _ & A2' & C2').
    rewrite E2 in E2'. injection E2' as <-.
    by rewrite (http_calls_added_unique _ _ _ _ A2 A2').
Qed.

Lemma dispatch_none_shape msg w :
  exists w' evs,
    dispatch msg None w = (Val tt, w') /\
    (length (heap w) <= length (heap w'))%nat /\
    (_active_cards w' = _active_cards w \/
     (length (heap w) < length (heap w'))%nat /\
     _active_cards w' =
       Dict.set (chat_id msg) (length (heap w)) (_active_cards w)) /\
    _http w' = _http w /\
    added w w' evs /\
    (_http w = false -> http_calls evs = []).
Proof.
  destruct (_card_create_runs msg w)
    as (r & w1 & e1 & E1 & Hc1 & Hp1 & A1 & _ & Hr).
  destruct r as [l|].
  2:{ rewrite (dispatch_create_failed msg w w1 E1).
      destruct (_send_text_runs msg w1) as (w2 & e2 & E2 & K2 & Hh2 & A2 & _).
      exists w2, (e1 ++ e2). split; [exact E2|].
      destruct K2 as [Kc Kh _ _ _].
      split; [rewrite Hh2, Hr; lia|]. split; [left; congruence|].
      split; [congruence|]. split; [by eapply added_app|].
      intros Hoff.
      destruct (_card_create_offline msg w Hoff)
        as (w1' & e1' & E1' & _ & _ & A1' & C1').
      rewrite E1 in E1'. injection E1' as <-.
      rewrite (http_calls_added_unique _ _ _ _ A1 A1') in *.
      assert (Hoff1 : _http w1 = false) by congruence.
      destruct (_send_text_offline msg w1 Hoff1)
        as (w2' & e2' & E2' & _ & _ & A2' & C2').
      rewrite E2 in E2'. injection E2' as <-.
      rewrite (http_calls_added_unique _ _ _ _ A2 A2').
      by rewrite http_calls_app, C1', C2'. }
  destruct Hr as (-> & now & Hh1).
  set (id := "card_" +:+ uuids env (minted w)) in *.
  set (l := length (heap w) : loc) in *.
  assert (Hl1 : heap w1 !! l = Some (new_card id now))
    by (rewrite Hh1; by apply list_lookup_middle).
  assert (Hlt : (l < length (heap w1))%nat) by (by eapply lookup_lt_Some).
  assert (Hon : _http w = false -> False).
  { intros Hoff.
    destruct (_card_create_offline msg w Hoff) as (w1' & e1' & E1' & _).
    rewrite E1 in E1'. discriminate E1'. }
  unfold dispatch. destruct (meta_truthy (metadata msg) "_progress").
  - unfold bind at 1. rewrite E1. unfold bind at 1, modify at 1.
    unfold accumulate_and_stream, update.
    unfold bind at 1. unfold bind at 1. unfold deref at 1.
    cbn [heap set_active_cards]. rewrite Hl1.
    unfold modify at 1. unfold bind at 1. unfold deref at 1.
    cbn [heap set_heap]. rewrite list_lookup_insert_eq by done.
    match goal with
    | |- context [_card_stream l ?s ?f ?wx] =>
        destruct (_card_stream_runs wx l
                    (append_content (content msg +:+ sep) (new_card id now)) s f)
          as (w2 & e2 & E2 & K2 & Hh2 & A2 & _)
    end.
    { cbn. by rewrite list_lookup_insert_eq. }
    rewrite E2. exists w2, (e1 ++ e2). split; [reflexivity|].
    destruct K2 as [Kc Kh _ _ _]. cbn in Hh2, Kc, Kh.
    assert (Hlen : length (heap w2) = length (heap w1))
      by (rewrite Hh2; by rewrite !length_insert).
    split; [lia|]. split; [right; split; [lia|by rewrite Kc, Hc1]|].
    split; [congruence|]. split; [eapply added_app; [exact A1|exact A2]|].
    intros Hoff. by destruct (Hon Hoff).
  - unfold bind at 1. rewrite E1. unfold update.
    unfold bind at 1. unfold bind at 1. unfold deref at 1. rewrite Hl1.
    unfold modify at 1.
    match goal with
    | |- context [_card_finish l ?wx] =>
        destruct (_card_finish_runs wx l
                    (with_content (content msg) (new_card id now)))
          as (w2 & e2 & E2 & K2 & Hh2 & A2 & _)
    end.
    { cbn. by rewrite list_lookup_insert_eq. }
    rewrite E2. exists w2, (e1 ++ e2). split; [reflexivity|].
    destruct K2 as [Kc Kh _ _ _]. cbn in Hh2, Kc, Kh.
    assert (Hlen : length (heap w2) = length (heap w1))
      by (rewrite Hh2; by rewrite !length_insert).
    split; [lia|]. split; [left; by rewrite Kc, Hc1|].
    split; [congruence|]. split; [eapply added_app; [exact A1|exact A2]|].
    intros Hoff. by destruct (Hon Hoff).
Qed.

Lemma _send_ai_card_shape msg w :
  registry_valid w ->
  exists w' evs,
    _send_ai_card msg w = (Val tt, w') /\
    (length (heap w) <= length (heap w'))%nat /\
    _http w' = _http w /\
    added w w' evs /\
    (_http w = false -> http_calls evs = []) /\
    (_active_cards w' = _active_cards w \/
     _active_cards w' = Dict.remove (chat_id msg) (_active_cards w) \/
     (length (heap w) < length (heap w'))%nat /\
     (_active_cards w' =
        Dict.set (chat_id msg) (length (heap w)) (_active_cards w) \/
      _active_cards w' =
        Dict.set (chat_id msg) (length (heap w))
          (Dict.remove (chat_id msg) (_active_cards w)))).
Proof.
  intros Hv. unfold _send_ai_card. unfold bind at 1.
  destruct (Dict.get (chat_id msg) (_active_cards w)) as [l|] eqn:Hget.
  2:{ rewrite (evict_stale_absent _ _ Hget).
      destruct (dispatch_none_shape msg w)
        as (w' & evs & E & Hlen & Hd & Hh & A & Q).
      exists w', evs. split; [exact E|]. split; [exact Hlen|].
      split; [exact Hh|]. split; [exact A|]. split; [exact Q|].
      destruct Hd as [Hd|[Hlt Hd]]; [by left|]. right. right. split; [exact Hlt|].
      by left. }
  pose proof (Hv _ _ Hget) as Hlt.
  destruct (lookup_lt_is_Some_2 (heap w) l Hlt) as [c Hl].
  destruct (Z_le_gt_dec (clock env (ticks w) - created_at c) _CARD_TTL_SECONDS)
    as [Hfresh|Hstale].
  - rewrite (evict_stale_fresh _ _ l c Hget Hl Hfresh).
    set (w1 := set_ticks (S (ticks w)) w).
    assert (Hl1 : heap w1 !! l = Some c) by exact Hl.
    destruct (dispatch_existing_shape msg w1 l c Hl1)
      as (w' & evs & E & Hd & Hlen & Hh & A & Q).
    exists w', evs. split; [exact E|]. split; [rewrite Hlen; cbn; lia|].
    split; [exact Hh|]. split; [exact A|]. split; [exact Q|].
    rewrite Hd. destruct (is_progress msg); [by left|]. right. by left.
  - destruct (evict_stale_stale _ _ l c Hget Hl Hstale)
      as (Ev & Hc1 & Hlen1 & e2 & A2 & A1 & _).
    rewrite Ev.
    set (w0 := exec (log Warning "Evicting stale AI card for chat {}")
                 (set_ticks (S (ticks w)) w)) in *.
    assert (Hl0 : heap w0 !! l = Some c) by exact Hl.
    destruct (_card_finish_runs w0 l c Hl0)
      as (wf & ef & Ef & Kf & _ & Af & _).
    assert (Hwf : exec (_card_finish l) w0 = wf) by (unfold exec; by rewrite Ef).
    assert (Hh1 : _http (evicted (chat_id msg) l w) = _http w).
    { unfold evicted. fold w0. rewrite Hwf. cbn. by destruct Kf. }
    set (w1 := evicted (chat_id msg) l w) in *.
    destruct (dispatch_none_shape msg w1)
      as (w' & evs & E & Hlen & Hd & Hh & A & Q).
    exists w', (EvLog Warning "Evicting stale AI card for chat {}" :: e2 ++ evs).
    split; [exact E|]. split; [lia|]. split; [congruence|].
    split.
    { change (EvLog Warning "Evicting stale AI card for chat {}" :: e2 ++ evs)
        with ((EvLog Warning "Evicting stale AI card for chat {}" :: e2) ++ evs).
      by eapply added_app. }
    split.
    { intros Hoff. cbn. rewrite http_calls_app.
      rewrite Q by congruence. rewrite app_nil_r.
      assert (Hoff0 : _http w0 = false) by exact Hoff.
      destruct (_card_finish_offline w0 l c Hoff0 Hl0)
        as (wf' & ef' & Ef' & _ & _ & Af' & Cf').
      rewrite Ef in Ef'. injection Ef' as <-.
      rewrite Hwf in A2.
      by rewrite (http_calls_added_unique _ _ _ _ A2 Af'). }
    rewrite Hlen1 in Hd. rewrite Hc1 in Hd.
    destruct Hd as [Hd|[Hlt' Hd]].
    + right. by left.
    + right. right. split; [lia|]. by right.
Qed.

(* ================================================================ *)
(** ** Properties of the dispatcher beyond the life cycle *)

(** X6.  Whatever the server, the clock and the message, [_send_ai_card]
    returns normally from a state whose registered cards all exist, and
    leaves a registry whose cards all exist and which still has at most
    one card per chat. *)
Theorem send_ai_card_keeps_registry_sound msg w :
  registry_valid w -> Dict.wf (_active_cards w) ->
  result (_send_ai_card msg) w = Val tt /\
  registry_valid (exec (_send_ai_card msg) w) /\
  Dict.wf (_active_cards (exec (_send_ai_card msg) w)).
Proof.
  intros Hv Hwf.
  destruct (_send_ai_card_shape msg w Hv)
    as (w' & evs & E & Hlen & _ & _ & _ & Hd).
  unfold result, exec. rewrite E. cbn. split; [reflexivity|].
  assert (Hrem : forall k (l : loc),
            Dict.get k (Dict.remove (chat_id msg) (_active_cards w)) = Some l ->
            (l < length (heap w))%nat).
  { intros k l H. destruct (decide (chat_id msg = k)) as [<-|Hne].
    - by rewrite dict_get_remove_eq in H.
    - rewrite dict_get_remove_ne in H by done. by eapply Hv. }
  assert (Hset : forall d k (l : loc),
            (forall k' (l' : loc), Dict.get k' d = Some l' ->
                                   (l' < length (heap w))%nat) ->
            (length (heap w) < length (heap w'))%nat ->
            Dict.get k (Dict.set (chat_id msg) (length (heap w)) d) = Some l ->
            (l < length (heap w'))%nat).
  { intros d k l Hd' Hlt H. destruct (decide (chat_id msg = k)) as [<-|Hne].
    - rewrite dict_get_set_eq in H. injection H as <-. exact Hlt.
    - rewrite dict_get_set_ne in H by done. apply Hd' in H. lia. }
  destruct Hd as [Hd|[Hd|[Hlt [Hd|Hd]]]]; rewrite Hd; split.
  - intros k l H. rewrite Hd in H. apply Hv in H. lia.
  - exact Hwf.
  - intros k l H. rewrite Hd in H. apply Hrem in H. lia.
  - by apply dict_wf_remove.
  - intros k l H. rewrite Hd in H. by eapply (Hset _ k l Hv Hlt).
  - by apply dict_wf_set.
  - intros k l H. rewrite Hd in H. by eapply (Hset _ k l Hrem Hlt).
  - by apply dict_wf_set, dict_wf_remove.
Qed.

(** X7.  [_send_ai_card] for one chat never changes the card registered for
    another chat. *)
Theorem send_ai_card_other_chats_untouched msg w k :
  registry_valid w -> k <> chat_id msg ->
  Dict.get k (_active_cards (exec (_send_ai_card msg) w))
  = Dict.get k (_active_cards w).
Proof.
  intros Hv Hne.
  destruct (_send_ai_card_shape msg w Hv)
    as (w' & evs & E & _ & _ & _ & _ & Hd).
  unfold exec. rewrite E. cbn.
  destruct Hd as [Hd|[Hd|[_ [Hd|Hd]]]]; rewrite Hd;
    rewrite ?dict_get_set_ne, ?dict_get_remove_ne by done; reflexivity.
Qed.

(** X1.  [send] takes the card path exactly when the reply mode is "ai_card"
    and the message carries a non-empty conversation type; otherwise it is
    the plain-text send, which never touches the registry or a card and
    issues nothing but token and batch-send requests. *)
Theorem send_routes_by_mode msg w :
  (String.eqb (reply_mode cfg) "ai_card"
   && meta_truthy (metadata msg) "_dingtalk_conversation_type" = true ->
   send msg w = _send_ai_card msg w) /\
  (String.eqb (reply_mode cfg) "ai_card"
   && meta_truthy (metadata msg) "_dingtalk_conversation_type" = false ->
   send msg w = _send_text msg w /\
   result (send msg) w = Val tt /\
   _active_cards (exec (send msg) w) = _active_cards w /\
   heap (exec (send msg) w) = heap w /\
   exists evs, added w (exec (send msg) w) evs /\ Forall text_event evs).
Proof.
  unfold send. split; intros H; rewrite H; [reflexivity|].
  split; [reflexivity|].
  destruct (_send_text_runs msg w) as (w' & evs & E & K & Hh & A & F).
  unfold result, exec. rewrite E. cbn. split; [reflexivity|].
  split; [by destruct K|]. split; [exact Hh|]. by exists evs.
Qed.

(** X3.  Once the HTTP client is gone, [send] issues no request at all, in
    either mode, and still returns normally. *)
Theorem send_without_client_is_silent msg w :
  _http w = false -> registry_valid w ->
  result (send msg) w = Val tt /\
  exists evs, added w (exec (send msg) w) evs /\ http_calls evs = [].
Proof.
  intros Hoff Hv. unfold send.
  destruct (String.eqb (reply_mode cfg) "ai_card"
            && meta_truthy (metadata msg) "_dingtalk_conversation_type").
  - destruct (_send_ai_card_shape msg w Hv)
      as (w' & evs & E & _ & _ & A & Q & _).
    unfold result, exec. rewrite E. cbn. split; [reflexivity|].
    exists evs. split; [exact A|]. by apply Q.
  - destruct (_send_text_offline msg w Hoff)
      as (w' & evs & E & _ & _ & A & Q).
    unfold result, exec. rewrite E. cbn. split; [reflexivity|]. by exists evs.
Qed.

(** X4.  After [stop], whatever is sent issues no request: the client has been
    released and no card is left. *)
Theorem send_after_stop_is_silent msg w :
  let w1 := exec stop w in
  result (send msg) w1 = Val tt /\
  exists evs, added w1 (exec (send msg) w1) evs /\ http_calls evs = [].
Proof.
  intros w1.
  destruct (stop_with_runs _card_finish w) as (wc & E & Hc & Hh & _).
  assert (Hw1 : w1 = set_background_tasks ∅ wc)
    by (unfold w1, exec, stop; by rewrite E).
  assert (Hoff : _http w1 = false) by (rewrite Hw1; exact Hh).
  assert (Hv : registry_valid w1).
  { intros k l H. rewrite Hw1 in H. cbn in H. rewrite Hc in H. discriminate H. }
  clearbody w1. unfold send.
  destruct (String.eqb (reply_mode cfg) "ai_card"
            && meta_truthy (metadata msg) "_dingtalk_conversation_type").
  - destruct (_send_ai_card_shape msg w1 Hv)
      as (w' & evs & E' & _ & _ & A & Q & _).
    unfold result, exec. rewrite E'. cbn. split; [reflexivity|].
    exists evs. split; [exact A|]. by apply Q.
  - destruct (_send_text_offline msg w1 Hoff)
      as (w' & evs & E' & _ & _ & A & Q).
    unfold result, exec. rewrite E'. cbn. split; [reflexivity|]. by exists evs.
Qed.

(** X5.  A second [stop] right after a [stop] adds no event: nothing is left to
    finalize, close or cancel. *)
Theorem stop_twice_adds_nothing w :
  let w1 := exec stop w in
  result stop w1 = Val tt /\ trace (exec stop w1) = trace w1 /\
  _active_cards (exec stop w1) = [] /\ _http (exec stop w1) = false.
Proof.
  intros w1.
  destruct (stop_with_runs _card_finish w) as (wc & E & Hc & Hh & _).
  assert (Hw1 : w1 = set_background_tasks ∅ wc)
    by (unfold w1, exec, stop; by rewrite E).
  assert (Hc1 : _active_cards w1 = []) by (rewrite Hw1; exact Hc).
  assert (Hh1 : _http w1 = false) by (rewrite Hw1; exact Hh).
  assert (Ht1 : _background_tasks w1 = ∅) by (by rewrite Hw1).
  clearbody w1.
  destruct (stop_with_runs _card_finish w1) as (wc' & E' & Hc' & Hh' & Ht').
  cbv zeta in Ht'. rewrite Hc1 in Ht'. cbn in Ht'.
  rewrite Hh1, Ht1, elements_empty in Ht'. cbn in Ht'.
  rewrite app_nil_r in Ht'.
  unfold result, exec, stop. rewrite E'. cbn.
  split; [reflexivity|]. split; [exact Ht'|]. by split.
Qed.

(** X2.  Plain-text send to a private chat: with a usable token exactly one
    batch-send request goes out, to the message's chat id as the only
    user, carrying the content; the call returns normally whatever the
    server answers. *)
Theorem send_text_private_one_request t msg w :
  token_ready t w -> is_group msg = false ->
  result (_send_text msg) w = Val tt /\
  _active_cards (exec (_send_text msg) w) = _active_cards w /\
  exists evs, added w (exec (_send_text msg) w) evs /\
    http_calls evs =
      [ReqBatchSend t (client_id cfg) (chat_id msg) (content msg)].
Proof.
  intros Hr Hg. unfold is_group in Hg.
  assert (E : exists w' evs,
    _send_text msg w = (Val tt, w') /\
    _active_cards w' = _active_cards w /\ added w w' evs /\
    http_calls evs =
      [ReqBatchSend t (client_id cfg) (chat_id msg) (content msg)]).
  { unfold _send_text. rewrite Hg. unfold bind at 1.
    rewrite (token_ready_get t w Hr).
    pose proof Hr as (Hh & _ & Hne & _). apply String.eqb_neq in Hne.
    unfold_cmd. cbn. rewrite Hne. cbn. rewrite Hh. cbn.
    destruct (replies env (served w)) as [|code body]; cbn;
      [|destruct (negb (code =? 200)); cbn];
      (do 2 eexists; split; [reflexivity|]; split; [reflexivity|];
       split; [solve_added|reflexivity]). }
  destruct E as (w' & evs & E & Hc & A & C).
  unfold result, exec. rewrite E. cbn. split; [reflexivity|].
  split; [exact Hc|]. by exists evs.
Qed.

(** X8.  A final message for a chat without card (no progress came first): the
    card is created, announced, closed and marked finished in one go,
    carrying the message content (the placeholder "..." if it is empty),
    and it is never entered into the registry. *)
Theorem final_without_card_not_registered t msg w b :
  token_ready t w -> is_progress msg = false ->
  Dict.get (chat_id msg) (_active_cards w) = None ->
  replies env (served w) = Status 200 b ->
  let id := "card_" +:+ uuids env (minted w) in
  let shown := if String.eqb (content msg) "" then "..." else content msg in
  result (_send_ai_card msg) w = Val tt /\
  _active_cards (exec (_send_ai_card msg) w) = _active_cards w /\
  exists evs, added w (exec (_send_ai_card msg) w) evs /\
    http_calls evs =
      [ReqCreateAndDeliver t id (_build_open_space_id (metadata msg))
         (is_group msg);
       ReqPutData t id "2" "";
       ReqStreaming t id (uuids env (S (minted w))) shown true;
       ReqPutData t id "3" shown].
Proof.
  intros Hr Hp Hget Hrep id shown.
  assert (E : exists w' evs,
    _send_ai_card msg w = (Val tt, w') /\
    _active_cards w' = _active_cards w /\ added w w' evs /\
    http_calls evs =
      [ReqCreateAndDeliver t id (_build_open_space_id (metadata msg))
         (is_group msg);
       ReqPutData t id "2" "";
       ReqStreaming t id (uuids env (S (minted w))) shown true;
       ReqPutData t id "3" shown]).
  { unfold _send_ai_card. unfold bind at 1.
    rewrite (evict_stale_absent _ _ Hget). unfold dispatch.
    unfold is_progress in Hp. rewrite Hp. unfold bind at 1.
    destruct (_card_create_ready t msg w Hr)
      as (r & w1 & e1 & E1 & Hr1 & Hc1 & Hm1 & A1 & C1 & Hcase).
    rewrite Hrep in Hcase. destruct Hcase as [-> Hh1]. rewrite E1.
    fold id in Hh1, C1.
    set (cn := new_card id (clock env (S (ticks w)))) in *.
    set (l := length (heap w) : loc) in *.
    assert (Hl1 : heap w1 !! l = Some cn)
      by (rewrite Hh1; by apply list_lookup_middle).
    unfold update. unfold bind at 1. unfold bind at 1. unfold deref at 1.
    rewrite Hl1. unfold modify at 1.
    set (c1 := with_content (content msg) cn).
    set (w2 := set_heap (<[l:=c1]> (heap w1)) w1).
    assert (Hr2 : token_ready t w2) by exact Hr1.
    assert (Hl2 : heap w2 !! l = Some c1).
    { unfold w2. cbn. apply list_lookup_insert_eq. by eapply lookup_lt_Some. }
    destruct (_card_finish_ready t w2 l c1 Hr2 Hl2)
      as (w3 & e3 & E3 & _ & Hc3 & _ & _ & A3 & C3).
    rewrite E3. exists w3, (e1 ++ e3). split; [reflexivity|].
    split; [by rewrite Hc3; unfold w2; cbn|].
    split; [eapply added_app; [exact A1|exact A3]|].
    rewrite http_calls_app, C1, C3. unfold w2. cbn. by rewrite Hm1. }
  destruct E as (w' & evs & E & Hc & A & C).
  unfold result, exec. rewrite E. cbn. split; [reflexivity|].
  split; [exact Hc|]. by exists evs.
Qed.

(** X9.  A card whose age is at most 600 seconds (exactly 600 included) is not
    evicted: a progress message is streamed to that same card, no card is
    created, and the registry is left as it was. *)
Theorem card_within_ttl_reused t msg w (l : loc) c :
  token_ready t w -> is_progress msg = true ->
  Dict.get (chat_id msg) (_active_cards w) = Some l -> heap w !! l = Some c ->
  clock env (ticks w) - created_at c <= _CARD_TTL_SECONDS ->
  result (_send_ai_card msg) w = Val tt /\
  _active_cards (exec (_send_ai_card msg) w) = _active_cards w /\
  length (heap (exec (_send_ai_card msg) w)) = length (heap w) /\
  exists evs guid, added w (exec (_send_ai_card msg) w) evs /\
    http_calls evs =
      announce_call t c ++
      [ReqStreaming t (card_instance_id c) guid
         (accumulated_content c +:+ content msg +:+ sep) false].
Proof.
  intros Hr Hp Hget Hl Hage.
  destruct (progress_existing_ready t msg w l c Hr Hp Hget Hl Hage)
    as (w' & evs & E & _ & Hc & Hh & A & guid & C).
  unfold result, exec. rewrite E. cbn. split; [reflexivity|].
  split; [exact Hc|]. split; [rewrite Hh; apply length_insert|].
  by exists evs, guid.
Qed.

(** X10.  After a successful refresh with server ttl [z], the token is served
    from the cache, without a request, as long as the clock is before
    refresh time + z - 60, and is exchanged again from then on. *)
Theorem token_refreshed_then_reused w code tok z :
  token_valid w = false -> _http w = true ->
  replies env (served w) = Status code (JsonObject (Some tok) (ExpInt z)) ->
  is_success code = true -> tok <> "" ->
  let w1 := exec _get_access_token w in
  let refreshed_at := clock env (ticks (after_check w)) in
  result _get_access_token w = Val (Some tok) /\
  (clock env (ticks w1) < refreshed_at + z - 60 ->
   _get_access_token w1 = (Val (Some tok), set_ticks (S (ticks w1)) w1)) /\
  (refreshed_at + z - 60 <= clock env (ticks w1) ->
   served (exec _get_access_token w1) = S (served w1)).
Proof.
  intros Hnv Hh Hrep Hs Hne w1 refreshed_at.
  destruct (_get_access_token_refreshed w code (Some tok) (ExpInt z)
              Hnv Hh Hrep Hs) as (Hres & Htok & Hexp); [done|].
  fold w1 in Htok, Hexp. fold refreshed_at in Hexp.
  assert (Hh1 : _http w1 = true).
  { destruct (_get_access_token_runs w) as (tk & wx & evs & E & K & _).
    unfold w1, exec. rewrite E. cbn. destruct K. congruence. }
  split; [exact Hres|]. split.
  - intros Hlt. rewrite (_get_access_token_cached w1); [by rewrite Htok|].
    unfold token_valid. rewrite Htok, (truthy_some _ Hne), Hexp. cbn.
    by apply Z.ltb_lt.
  - intros Hge.
    assert (Hnv1 : token_valid w1 = false).
    { apply _get_access_token_expired. by rewrite Hexp. }
    by destruct (_get_access_token_not_cached w1 Hnv1) as [_ [? _]].
Qed.

Lemma dict_remove_absent k d : Dict.get k d = None -> Dict.remove k d = d.
Proof.
  induction d as [|[k' v] d IH]; simpl; [done|].
  destruct (String.eqb k k'); [done|]. intros H. by rewrite IH.
Qed.

(** X12.  An inbound message for a chat without card is handed over at once:
    the run adds the inbound log record and the hand-over, issues no
    request and leaves registry and cards as they were. *)
Theorem inbound_without_card_only_hands_over content sender name chat w :
  Dict.get (resolve_chat chat sender) (_active_cards w) = None ->
  let w' := exec (_on_message content sender name chat) w in
  result (_on_message content sender name chat) w = Val tt /\
  trace w' = trace w ++ [EvLog Info "DingTalk inbound: {} from {}";
                         EvHandleMessage sender (resolve_chat chat sender)
                           content] /\
  _active_cards w' = _active_cards w /\ heap w' = heap w /\
  served w' = served w.
Proof.
  intros Hget w'. subst w'. unfold result, exec, _on_message.
  fold (resolve_chat chat sender). set (k := resolve_chat chat sender) in *.
  unfold _handle_message. unfold_cmd. cbn. rewrite Hget. cbn.
  rewrite (dict_remove_absent _ _ Hget), <- app_assoc. done.
Qed.

(** X13.  An inbound message never changes the card registered for another
    chat, and [_on_message] returns normally whatever the server does. *)
Theorem inbound_other_chats_untouched content sender name chat w k :
  registry_valid w -> k <> resolve_chat chat sender ->
  result (_on_message content sender name chat) w = Val tt /\
  Dict.get k (_active_cards (exec (_on_message content sender name chat) w))
  = Dict.get k (_active_cards w).
Proof.
  intros Hv Hne.
  destruct (Dict.get (resolve_chat chat sender) (_active_cards w))
    as [l|] eqn:Hget.
  - pose proof (Hv _ _ Hget) as Hlt.
    destruct (lookup_lt_is_Some_2 (heap w) l Hlt) as [c Hl].
    pose proof (_on_message_existing content sender name chat w l c Hget Hl) as E.
    destruct (interrupted_runs (resolve_chat chat sender) l c w Hl)
      as (w2 & e2 & _ & Hw3 & Hc2 & _).
    unfold result, exec. rewrite E, Hw3.
    unfold _handle_message, exec, log, emit, modify. cbn.
    split; [reflexivity|]. rewrite Hc2. by apply dict_get_remove_ne.
  - unfold result, exec, _on_message.
    fold (resolve_chat chat sender).
    unfold _handle_message. unfold_cmd. cbn. rewrite Hget. cbn.
    split; [reflexivity|]. by apply dict_get_remove_ne.
Qed.

Lemma string_app_inj (p a b : string) : p +:+ a = p +:+ b -> a = b.
Proof.
  induction p as [|x p IH]; [done|].
  change (String x (p +:+ a) = String x (p +:+ b) -> a = b).
  intros [= H]. by apply IH.
Qed.

(** X14.  The open space id tells group and private conversations apart and
    keeps their identifiers: two messages get the same open space id only
    if both are group messages with the same conversation id, or both are
    private messages with the same staff id. *)
Theorem open_space_id_injective md1 md2 :
  _build_open_space_id md1 = _build_open_space_id md2 ->
  meta_is md1 "_dingtalk_conversation_type" "2"
  = meta_is md2 "_dingtalk_conversation_type" "2" /\
  if meta_is md1 "_dingtalk_conversation_type" "2"
  then py_str (meta_get md1 "_dingtalk_conversation_id")
       = py_str (meta_get md2 "_dingtalk_conversation_id")
  else py_str (meta_get md1 "_dingtalk_sender_staff_id")
       = py_str (meta_get md2 "_dingtalk_sender_staff_id").
Proof.
  unfold _build_open_space_id.
  destruct (meta_is md1 "_dingtalk_conversation_type" "2"),
           (meta_is md2 "_dingtalk_conversation_type" "2"); intros H.
  - split; [reflexivity|]. by apply string_app_inj in H.
  - exfalso. cbv [String.append] in H. discriminate H.
  - exfalso. cbv [String.append] in H. discriminate H.
  - split; [reflexivity|]. by apply string_app_inj in H.
Qed.

(* ================================================================ *)
(** ** The stream handler *)

Lemma process_scheduled_inv strip parsed raw data c :
  process strip parsed raw data = Scheduled c ->
  exists m,
    parsed = Some m /\ ic_content c <> "" /\
    ic_sender_id c = attr_or (cm_sender_staff_id m) (of_attr (cm_sender_id m)) /\
    ic_metadata c = inbound_metadata m data (ic_sender_name c) /\
    ic_chat_id c =
      if meta_is (ic_metadata c) "_dingtalk_conversation_type" "2"
      then attr_or (cm_conversation_id m)
             (default (ic_sender_id c) (data !! "conversationId"))
      else ic_sender_id c.
Proof.
  unfold process. destruct parsed as [m|]; [|discriminate].
  destruct (match cm_text m with
            | NoText => Some ""
            | BadText => None
            | Text s => Some (strip s)
            end) as [c1|]; [|discriminate].
  destruct (if String.eqb c1 "" then stripped strip raw else Some c1)
    as [content0|]; [|discriminate].
  destruct (String.eqb content0 "") eqn:Hc; [discriminate|].
  intros [= <-]. exists m. cbn. split; [reflexivity|].
  split; [by apply String.eqb_neq|]. done.
Qed.

Lemma inbound_metadata_text m data name :
  String.eqb (reply_mode cfg) "ai_card" = false ->
  inbound_metadata m data name !! "_dingtalk_conversation_type" = None.
Proof. unfold inbound_metadata. intros ->. reflexivity. Qed.

Lemma inbound_metadata_card m data name k :
  String.eqb (reply_mode cfg) "ai_card" = true ->
  inbound_metadata m data name !! k =
    if String.eqb k "_dingtalk_conversation_type" then
      Some (PStr (py_str (attr_or (cm_conversation_type m)
                            (meta_get data "conversationType"))))
    else if String.eqb k "_dingtalk_conversation_id" then
      Some (attr_or (cm_conversation_id m) (meta_get data "conversationId"))
    else if String.eqb k "_dingtalk_sender_staff_id" then
      Some (PStr (attr_or_str (cm_sender_staff_id m) ""))
    else inbound_metadata m data name !! k.
Proof.
  unfold inbound_metadata. intros ->.
  destruct (String.eqb_spec k "_dingtalk_conversation_type") as [->|H1];
    [reflexivity|].
  destruct (String.eqb_spec k "_dingtalk_conversation_id") as [->|H2];
    [reflexivity|].
  destruct (String.eqb_spec k "_dingtalk_sender_staff_id") as [->|H3];
    reflexivity.
Qed.

(** X15.  In text mode the call that [process] schedules is keyed by the
    sender, also for a group message, and its metadata carry no
    conversation type: every reply to it goes out on the plain-text path
    and is never refused as a group message. *)
Theorem process_text_mode_keys_by_sender strip parsed raw data c :
  String.eqb (reply_mode cfg) "ai_card" = false ->
  process strip parsed raw data = Scheduled c ->
  ic_chat_id c = ic_sender_id c /\
  ic_content c <> "" /\
  forall msg w, answers msg c ->
    is_group msg = false /\ send msg w = _send_text msg w.
Proof.
  intros Hmode Hp.
  destruct (process_scheduled_inv strip parsed raw data c Hp)
    as (m & _ & Hne & _ & Hmd & Hchat).
  assert (Hnone : ic_metadata c !! "_dingtalk_conversation_type" = None)
    by (rewrite Hmd; by apply inbound_metadata_text).
  split.
  { rewrite Hchat. unfold meta_is. by rewrite Hnone. }
  split; [exact Hne|]. intros msg w Ha.
  assert (Hm : metadata msg !! "_dingtalk_conversation_type" = None)
    by (rewrite Ha; done).
  split; [unfold is_group, meta_is; by rewrite Hm|].
  unfold send, meta_truthy. rewrite Hm. by rewrite andb_false_r.
Qed.

(** X16.  In card mode, for a message with a conversation type, every reply
    takes the card path.  A group message (type "2") is keyed by its
    conversation and its replies are delivered to the group's open
    space; any other message is keyed by the sender and its replies are
    delivered to the robot space of the sender's staff id. *)
Theorem process_card_mode_routes strip m raw data c :
  String.eqb (reply_mode cfg) "ai_card" = true ->
  process strip (Some m) raw data = Scheduled c ->
  truthy (cm_conversation_type m) = true ->
  (forall msg w, answers msg c -> send msg w = _send_ai_card msg w) /\
  (cm_conversation_type m = Some "2" ->
   ic_chat_id c =
     attr_or (cm_conversation_id m)
       (default (ic_sender_id c) (data !! "conversationId")) /\
   forall msg, answers msg c ->
     is_group msg = true /\
     _build_open_space_id (metadata msg) =
       "dtv1.card//IM_GROUP." +:+
       py_str (attr_or (cm_conversation_id m) (meta_get data "conversationId"))) /\
  (cm_conversation_type m <> Some "2" ->
   ic_chat_id c = ic_sender_id c /\
   forall msg, answers msg c ->
     is_group msg = false /\
     _build_open_space_id (metadata msg) =
       "dtv1.card//IM_ROBOT." +:+ attr_or_str (cm_sender_staff_id m) "").
Proof.
  intros Hmode Hp Ht.
  destruct (process_scheduled_inv strip (Some m) raw data c Hp)
    as (m' & [= <-] & _ & _ & Hmd & Hchat).
  destruct (cm_conversation_type m) as [t|] eqn:Hct; [|discriminate].
  assert (Hty : ic_metadata c !! "_dingtalk_conversation_type" = Some (PStr t)).
  { rewrite Hmd, inbound_metadata_card by done. cbn.
    unfold attr_or. rewrite Hct, Ht. reflexivity. }
  assert (Hcid : ic_metadata c !! "_dingtalk_conversation_id" =
                 Some (attr_or (cm_conversation_id m)
                         (meta_get data "conversationId"))).
  { rewrite Hmd, inbound_metadata_card by done. reflexivity. }
  assert (Hsid : ic_metadata c !! "_dingtalk_sender_staff_id" =
                 Some (PStr (attr_or_str (cm_sender_staff_id m) ""))).
  { rewrite Hmd, inbound_metadata_card by done. reflexivity. }
  split.
  { intros msg w Ha. unfold send, meta_truthy. rewrite Hmode.
    rewrite Ha, Hty by done. cbn. cbn in Ht. by rewrite Ht. }
  split.
  - intros [= ->]. split.
    { rewrite Hchat. unfold meta_is. by rewrite Hty. }
    intros msg Ha.
    assert (Hg : meta_is (metadata msg) "_dingtalk_conversation_type" "2" = true).
    { unfold meta_is. by rewrite Ha, Hty. }
    split; [exact Hg|]. unfold _build_open_space_id. rewrite Hg.
    unfold meta_get. by rewrite Ha, Hcid.
  - intros Hne.
    assert (Hneq : String.eqb t "2" = false).
    { apply String.eqb_neq. congruence. }
    split.
    { rewrite Hchat. unfold meta_is. by rewrite Hty, Hneq. }
    intros msg Ha.
    assert (Hg : meta_is (metadata msg) "_dingtalk_conversation_type" "2" = false).
    { unfold meta_is. by rewrite Ha, Hty. }
    split; [exact Hg|]. unfold _build_open_space_id. rewrite Hg.
    unfold meta_get. by rewrite Ha, Hsid.
Qed.

End Channel.

(* ================================================================== *)
(** ** Instances and counterexamples *)

Lemma token_ready_env_ok d h : token_ready env_ok "tok" (with_cards d h w_ready).
Proof.
  split; [reflexivity|]. split; [reflexivity|]. split; [discriminate|].
  intros n. reflexivity.
Defined.



Lemma announce_at_most_once_witness :
  (inputing_started card_new = true ->
   _card_ensure_inputing cfg0 env_500 0%nat w_new = (Val tt, w_new)) /\
  exists evs,
    added w_new
      (exec (stream_all cfg0 env_500 0%nat [("a", false); ("ab", false); ("abc", true)])
         w_new) evs /\
    (announces evs <= 1)%nat /\
    (inputing_started card_new = true -> announces evs = 0%nat).
Proof.
  apply (announce_at_most_once cfg0 env_500 w_new 0%nat card_new).
  reflexivity.
Defined.

Lemma announce_not_retried_witness :
  let w1 := exec (_card_stream cfg0 env_500 0%nat "a" false) w_new in
  (exists c1, heap w1 !! 0%nat = Some c1 /\ inputing_started c1 = true) /\
  exists evs,
    added w1 (exec (_card_stream cfg0 env_500 0%nat "ab" false) w1) evs /\
    announces evs = 0%nat.
Proof.
  apply (announce_not_retried cfg0 env_500 w_new 0%nat card_new).
  reflexivity.
Defined.

Lemma token_ready_env_500 d h : token_ready env_500 "tok" (with_cards d h w_ready).
Proof.
  split; [reflexivity|]. split; [reflexivity|]. split; [discriminate|].
  intros n. reflexivity.
Defined.

(** C9 as stated fails: the server refuses the announce call of the first
    [_card_stream]; the second one sends the streaming request only. *)
Lemma announce_retry_counterexample :
  ~ announce_retry_claimed cfg0 env_500 "tok" w_new 0%nat.
Proof.
  intros H.
  destruct (H card_new "a" false "ab" false) as (evs & A & N).
  - apply token_ready_env_500.
  - reflexivity.
  - reflexivity.
  - intros n b. discriminate.
  - unfold added in A. vm_compute in A.
    injection A as <-. vm_compute in N. lia.
Qed.

Lemma group_fallback_delivers_nothing_witness :
  is_group msg_group = true /\
  served (exec (_send_text cfg0 env_500 msg_group) w_ready) = served w_ready /\
  added (exec (_card_create cfg0 env_500 msg_group) w_ready)
    (exec (_send_ai_card cfg0 env_500 msg_group) w_ready) [group_warning].
Proof.
  assert (Hg : is_group msg_group = true) by (vm_compute; reflexivity).
  pose proof (group_fallback_delivers_nothing cfg0 env_500 msg_group w_ready Hg)
    as [(_ & _ & Hs) Hf].
  split; [exact Hg|]. split; [exact Hs|].
  apply Hf; vm_compute; reflexivity.
Defined.

Lemma creation_failure_falls_back_witness :
  _send_ai_card cfg0 env_500 msg_group w_ready
  = _send_text cfg0 env_500 msg_group
      (exec (_card_create cfg0 env_500 msg_group) w_ready) /\
  _active_cards (exec (_send_ai_card cfg0 env_500 msg_group) w_ready) = [].
Proof.
  destruct (creation_failure_falls_back cfg0 env_500 msg_group w_ready)
    as [H _].
  destruct H as (H1 & _ & H2 & _); [reflexivity|vm_compute; reflexivity|].
  split; [exact H1|exact H2].
Defined.

(** C7 fails on the code.  The server answers the token exchange with
    status 200 and a body whose [expireIn] cannot be converted by [int]:
    the refresh fails and no token is returned, yet the cached token has
    already been overwritten (line 249 runs before line 251 raises), while
    the stored expiry is the old one. *)
Lemma refresh_bad_ttl_overwrites_token :
  token_valid env_bad_ttl w_expired = false /\
  result (_get_access_token cfg0 env_bad_ttl) w_expired = Val None /\
  _access_token w_expired = Some "old" /\
  _access_token (exec (_get_access_token cfg0 env_bad_ttl) w_expired)
    = Some "new" /\
  _token_expiry (exec (_get_access_token cfg0 env_bad_ttl) w_expired) = 500.
Proof. vm_compute. repeat split; reflexivity. Qed.

Lemma progress_then_final_content_witness :
  let w1 := exec (_send_ai_card cfg0 env_ok msg_group) w_ready in
  let w2 := exec (_send_ai_card cfg0 env_ok msg_progress2) w1 in
  let w3 := exec (_send_ai_card cfg0 env_ok msg_final) w2 in
  let buf := "thinking..." +:+ sep +:+ "still thinking..." +:+ sep +:+ "done" in
  exists id g3 e3,
    added w2 w3 e3 /\
    http_calls e3 =
      [ReqStreaming "tok" id g3 buf true; ReqPutData "tok" id "3" buf] /\
    Dict.get "chat" (_active_cards w3) = None.
Proof.
  intros w1 w2 w3 buf.
  destruct (progress_then_final_content cfg0 env_ok "tok" w_ready
              msg_group msg_progress2 msg_final NotJsonObject)
    as (id & l & g1 & g2 & g3 & e1 & e2 & e3 & _ & _ & A3 & _ & _ & _ & _
        & _ & _ & C3 & Hnone).
  - apply (token_ready_env_ok [] []).
  - reflexivity.
  - reflexivity.
  - intros n m. vm_compute. discriminate.
  - reflexivity.
  - reflexivity.
  - vm_compute. reflexivity.
  - vm_compute. reflexivity.
  - vm_compute. reflexivity.
  - exists id, g3, e3. split; [exact A3|]. split; [exact C3|exact Hnone].
Defined.

Lemma stale_card_evicted_first_witness :
  _send_ai_card cfg0 env_ok msg_group w_stale
  = dispatch cfg0 env_ok msg_group None (evicted cfg0 env_ok "chat" 0%nat w_stale) /\
  Dict.get "chat" (_active_cards (evicted cfg0 env_ok "chat" 0%nat w_stale)) = None /\
  Dict.get "chat"
    (_active_cards (exec (_send_ai_card cfg0 env_ok msg_group) w_stale))
  <> Some 0%nat.
Proof.
  pose proof (stale_card_evicted_first cfg0 env_ok msg_group w_stale 0%nat
                card_old) as H.
  cbv zeta in H.
  destruct H as (H1 & H2 & _ & _ & _ & H6).
  - reflexivity.
  - reflexivity.
  - vm_compute. reflexivity.
  - split; [exact H1|]. split; [exact H2|exact H6].
Defined.

Lemma inbound_finishes_card_first_witness :
  Dict.get "chat" (_active_cards (interrupted cfg0 env_ok "chat" 0%nat w_new))
    = None /\
  trace (exec (_on_message cfg0 env_ok "hi" "user1" "User" (Some "chat")) w_new)
    = trace (interrupted cfg0 env_ok "chat" 0%nat w_new)
      ++ [EvHandleMessage "user1" "chat" "hi"].
Proof.
  pose proof (inbound_finishes_card_first cfg0 env_ok "hi" "user1" "User"
                (Some "chat") w_new 0%nat card_new) as H.
  cbv zeta in H.
  destruct H as (_ & _ & H3 & _ & H5 & _).
  - reflexivity.
  - reflexivity.
  - split; [exact H3|exact H5].
Defined.

(** The runs the scenarios of the specification describe. *)

Example scenario_abc_requests :
  http_calls
    (trace (exec (_send_ai_card cfg0 env_ok msg_final)
              (exec (_send_ai_card cfg0 env_ok msg_progress2)
                 (exec (_send_ai_card cfg0 env_ok msg_group) w_ready))))
  = [ReqCreateAndDeliver "tok" "card_a0" "dtv1.card//IM_GROUP.cid42" true;
     ReqPutData "tok" "card_a0" "2" "";
     ReqStreaming "tok" "card_a0" "a1" ("thinking..." +:+ sep) false;
     ReqStreaming "tok" "card_a0" "a2"
       ("thinking..." +:+ sep +:+ "still thinking..." +:+ sep) false;
     ReqStreaming "tok" "card_a0" "a3"
       ("thinking..." +:+ sep +:+ "still thinking..." +:+ sep +:+ "done") true;
     ReqPutData "tok" "card_a0" "3"
       ("thinking..." +:+ sep +:+ "still thinking..." +:+ sep +:+ "done")].
Proof. vm_compute. reflexivity. Qed.

Example inbound_interrupts_card :
  trace (exec (_on_message cfg0 env_ok "hi" "user1" "User" (Some "chat")) w_new)
  = [EvLog Info "Finishing stale AI card for {} (new message received)";
     EvHttp (ReqPutData "tok" "card_y" "2" "");
     EvLog Debug "DingTalk card put_data (flowStatus={})";
     EvHttp (ReqStreaming "tok" "card_y" "a0" "hello" true);
     EvLog Debug "DingTalk card streamed (finalize={})";
     EvHttp (ReqPutData "tok" "card_y" "3" "hello");
     EvLog Debug "DingTalk card put_data (flowStatus={})";
     EvLog Info "DingTalk inbound: {} from {}";
     EvHandleMessage "user1" "chat" "hi"].
Proof. vm_compute. reflexivity. Qed.

(** [stop] with a finalizer that raises on the first card: the second card
    is finalized all the same, the client is closed, the tasks are
    cancelled. *)
Example stop_survives_raising_finalizer :
  let w := exec (stop_with (finish_boom cfg0 env_ok)) w_two in
  http_calls (trace w)
  = [ReqStreaming "tok" "card_old" "a0" "partial" true;
     ReqPutData "tok" "card_old" "3" "partial"] /\
  stop_warning ∈ trace w /\ EvHttpClose ∈ trace w /\
  EvCancel 3 ∈ trace w /\ EvCancel 5 ∈ trace w /\
  _active_cards w = [] /\ _http w = false /\
  elements (_background_tasks w) = [].
Proof.
  vm_compute. repeat split; try reflexivity;
    repeat (first [apply list_elem_of_here | apply list_elem_of_further]).
Qed.

(* ================================================================== *)
(** ** Properties of the memory store *)

Section MemoryProperties.

Import MemoryStore.

Variable st : Store.

Lemma string_length_app (a b : string) :
  String.length (a +:+ b) = (String.length a + String.length b)%nat.
Proof.
  induction a as [|x a IH]; [reflexivity|].
  change (S (String.length (a +:+ b)) = S (String.length a + String.length b)).
  by rewrite IH.
Qed.

Lemma string_app_inj_r (s a b : string) : a +:+ s = b +:+ s -> a = b.
Proof.
  revert b. induction a as [|x a IH]; intros [|y b] H.
  - reflexivity.
  - change (s = String y b +:+ s) in H.
    apply (f_equal String.length) in H.
    rewrite (string_length_app (String y b) s) in H. cbn in H. lia.
  - change (String x a +:+ s = s) in H.
    apply (f_equal String.length) in H.
    rewrite (string_length_app (String x a) s) in H. cbn in H. lia.
  - change (String x (a +:+ s) = String y (b +:+ s)) in H.
    injection H as -> H. f_equal. by apply IH.
Qed.

Lemma day_file_inj d1 d2 : day_file st d1 = day_file st d2 -> d1 = d2.
Proof.
  unfold day_file. intros H. apply string_app_inj in H.
  apply string_app_inj in H. by apply string_app_inj_r in H.
Qed.

Lemma day_file_ne_memory today :
  today <> "MEMORY" -> day_file st today <> memory_file st.
Proof.
  unfold day_file, memory_file. intros Hne H. apply string_app_inj in H.
  change ("/" +:+ today +:+ ".md" = "/" +:+ "MEMORY" +:+ ".md") in H.
  apply string_app_inj in H. by apply string_app_inj_r in H.
Qed.

Lemma day_file_ne_history today :
  today <> "HISTORY" -> day_file st today <> history_file st.
Proof.
  unfold day_file, history_file. intros Hne H. apply string_app_inj in H.
  change ("/" +:+ today +:+ ".md" = "/" +:+ "HISTORY" +:+ ".md") in H.
  apply string_app_inj in H. by apply string_app_inj_r in H.
Qed.

Lemma memory_file_ne_history : memory_file st <> history_file st.
Proof.
  unfold memory_file, history_file. intros H. apply string_app_inj in H.
  discriminate H.
Qed.

Lemma string_app_nil_r (a : string) : a +:+ "" = a.
Proof.
  induction a as [|x a IH]; [reflexivity|].
  change (String x (a +:+ "") = String x a). by rewrite IH.
Qed.

(** *** Reading through universal newlines *)

Lemma translate_no_cr f s : no_cr (translate_newlines f s) = true.
Proof.
  revert f. induction s as [|c s IH]; intros f; [reflexivity|]. cbn.
  destruct (Ascii.eqb c cr) eqn:Ec; [cbn; apply IH|].
  destruct (Ascii.eqb c lf) eqn:El.
  - destruct f; [apply IH|]. cbn. apply IH.
  - cbn. rewrite Ec. cbn. apply IH.
Qed.

Lemma translate_id s : no_cr s = true -> universal_newlines s = s.
Proof.
  unfold universal_newlines.
  induction s as [|c s IH]; [reflexivity|]. cbn. intros H.
  apply andb_prop in H as [Hc Hs]. apply negb_true_iff in Hc. rewrite Hc.
  destruct (Ascii.eqb c lf) eqn:El.
  - apply Ascii.eqb_eq in El. subst c. by rewrite IH.
  - by rewrite IH.
Qed.

Lemma translate_idem s :
  universal_newlines (universal_newlines s) = universal_newlines s.
Proof. apply translate_id, translate_no_cr. Qed.

Lemma translate_app_no_cr a b :
  no_cr a = true -> universal_newlines (a +:+ b) = a +:+ universal_newlines b.
Proof.
  unfold universal_newlines.
  induction a as [|c a IH]; [reflexivity|]. cbn. intros H.
  apply andb_prop in H as [Hc Ha]. apply negb_true_iff in Hc.
  change (String c a +:+ b) with (String c (a +:+ b)). cbn. rewrite Hc.
  destruct (Ascii.eqb c lf) eqn:El.
  - apply Ascii.eqb_eq in El. subst c. by rewrite IH.
  - by rewrite IH.
Qed.

Lemma translate_nl b : universal_newlines (nl +:+ b) = nl +:+ universal_newlines b.
Proof. reflexivity. Qed.

Lemma translate_app_lf f a b :
  translate_newlines f ((a +:+ nl) +:+ b) =
    translate_newlines f (a +:+ nl) +:+ universal_newlines b.
Proof.
  unfold universal_newlines. revert f.
  induction a as [|c a IH]; intros f.
  - change (("" +:+ nl) +:+ b) with (String lf b).
    change ("" +:+ nl) with (String lf ""). cbn. by destruct f.
  - change ((String c a +:+ nl) +:+ b) with (String c ((a +:+ nl) +:+ b)).
    change (String c a +:+ nl) with (String c (a +:+ nl)). cbn.
    destruct (Ascii.eqb c cr); [by rewrite IH|].
    destruct (Ascii.eqb c lf); [destruct f; by rewrite IH|by rewrite IH].
Qed.

Lemma no_cr_app a b : no_cr (a +:+ b) = no_cr a && no_cr b.
Proof.
  induction a as [|c a IH]; [reflexivity|].
  change (String c a +:+ b) with (String c (a +:+ b)). cbn.
  by rewrite IH, andb_assoc.
Qed.

Lemma map_translate_id notes :
  Forall (fun c => no_cr c = true) notes -> map universal_newlines notes = notes.
Proof.
  induction 1 as [|c notes Hc _ IH]; [reflexivity|]. cbn.
  by rewrite translate_id, IH.
Qed.

(** *** Daily notes *)

Lemma append_all_existing today notes : forall fs existing,
  fs !! day_file st today = Some existing ->
  read_text (append_all st today notes fs) (day_file st today) =
    universal_newlines existing +:+ appended (map universal_newlines notes).
Proof.
  unfold append_all.
  induction notes as [|c notes IH]; intros fs existing Hf; simpl.
  - unfold read_text. by rewrite Hf, string_app_nil_r.
  - rewrite (IH _ (universal_newlines existing +:+ nl +:+ c)).
    + rewrite translate_app_no_cr by apply translate_no_cr.
      by rewrite translate_nl, !string_app_assoc.
    + unfold append_today. rewrite Hf. apply lookup_insert_eq.
Qed.

Lemma append_all_frame today notes p : forall fs,
  p <> day_file st today -> append_all st today notes fs !! p = fs !! p.
Proof.
  unfold append_all. induction notes as [|c notes IH]; intros fs Hp; simpl;
    [reflexivity|].
  rewrite IH by done. unfold append_today.
  destruct (fs !! day_file st today); by rewrite lookup_insert_ne.
Qed.

Lemma join_appended c notes : c +:+ appended notes = join nl (c :: notes).
Proof.
  revert c. induction notes as [|c' notes IH]; intros c.
  - apply string_app_nil_r.
  - change (c +:+ nl +:+ c' +:+ appended notes
            = c +:+ nl +:+ join nl (c' :: notes)).
    by rewrite IH.
Qed.

Lemma translate_header today c :
  universal_newlines (("# " +:+ today +:+ nl +:+ nl) +:+ c) =
    universal_newlines ("# " +:+ today +:+ nl +:+ nl) +:+ universal_newlines c.
Proof.
  replace ("# " +:+ today +:+ nl +:+ nl) with (("# " +:+ today +:+ nl) +:+ nl)
    by (by rewrite !string_app_assoc).
  apply translate_app_lf.
Qed.

(** X17.  The first note of a day creates the file with one header line and
    a blank line; every later note is added on a line of its own.
    [read_today] then returns the header followed by the notes in order,
    each as universal newlines read it: exactly the header and the notes
    when they hold no carriage return.  Files of other days, and the
    long-term and history files, are not touched. *)
Theorem append_today_fresh_day today notes fs :
  fs !! day_file st today = None ->
  notes <> [] ->
  read_today st today (append_all st today notes fs) =
    universal_newlines ("# " +:+ today +:+ nl +:+ nl)
    +:+ join nl (map universal_newlines notes)
  /\ (no_cr today = true -> Forall (fun c => no_cr c = true) notes ->
      read_today st today (append_all st today notes fs) =
        ("# " +:+ today +:+ nl +:+ nl) +:+ join nl notes)
  /\ forall p, p <> day_file st today ->
       append_all st today notes fs !! p = fs !! p.
Proof.
  intros Hnone Hne.
  assert (Hread : read_today st today (append_all st today notes fs) =
    universal_newlines ("# " +:+ today +:+ nl +:+ nl)
    +:+ join nl (map universal_newlines notes)).
  { destruct notes as [|c notes]; [done|].
    unfold read_today.
    change (append_all st today (c :: notes) fs)
      with (append_all st today notes (append_today st today c fs)).
    rewrite (append_all_existing today notes _
               (("# " +:+ today +:+ nl +:+ nl) +:+ c)).
    - rewrite translate_header.
      change (map universal_newlines (c :: notes))
        with (universal_newlines c :: map universal_newlines notes).
      by rewrite <- join_appended, !string_app_assoc.
    - unfold append_today. rewrite Hnone. apply lookup_insert_eq. }
  split; [exact Hread|]. split; [|intros p Hp; by apply append_all_frame].
  intros Ht Hn. rewrite Hread, (map_translate_id notes Hn).
  rewrite translate_id; [reflexivity|].
  rewrite !no_cr_app, Ht. reflexivity.
Qed.

(** X18.  A day's file that already exists is only ever extended: what
    [read_today] returned before stays as a prefix and each note follows
    a newline, read through universal newlines, so exactly the notes when
    they hold no carriage return.  No header is written, not even when
    the existing file is empty. *)
Theorem append_today_extends_existing today notes fs existing :
  fs !! day_file st today = Some existing ->
  read_today st today fs = universal_newlines existing
  /\ read_today st today (append_all st today notes fs) =
       read_today st today fs +:+ appended (map universal_newlines notes)
  /\ (Forall (fun c => no_cr c = true) notes ->
      read_today st today (append_all st today notes fs) =
        read_today st today fs +:+ appended notes).
Proof.
  intros Hf.
  assert (H0 : read_today st today fs = universal_newlines existing).
  { unfold read_today, read_text. by rewrite Hf. }
  assert (H1 : read_today st today (append_all st today notes fs) =
       read_today st today fs +:+ appended (map universal_newlines notes)).
  { rewrite H0. unfold read_today.
    apply (append_all_existing today notes fs existing Hf). }
  split; [exact H0|]. split; [exact H1|].
  intros Hn. by rewrite H1, (map_translate_id notes Hn).
Qed.

(** X19.  What is written to long-term memory is read back through
    universal newlines, whatever the file held before: a carriage return,
    with or without a line feed after it, comes back as one line feed, and
    a text without carriage return comes back as it was written.  The
    three kinds of file do not interfere: writing long-term memory leaves
    the day's notes alone, and neither a note nor a history entry changes
    long-term memory. *)
Theorem long_term_round_trip today rstrip text note entry fs :
  today <> "MEMORY" ->
  today <> "HISTORY" ->
  read_long_term st (write_long_term st text fs) = universal_newlines text
  /\ (no_cr text = true ->
      read_long_term st (write_long_term st text fs) = text)
  /\ read_today st today (write_long_term st text fs) = read_today st today fs
  /\ read_long_term st (append_today st today note fs) = read_long_term st fs
  /\ read_long_term st (append_history st rstrip entry fs)
     = read_long_term st fs
  /\ read_today st today (append_history st rstrip entry fs)
     = read_today st today fs.
Proof.
  intros Hm Hh.
  pose proof (day_file_ne_memory today Hm) as Hdm.
  pose proof (day_file_ne_history today Hh) as Hdh.
  pose proof memory_file_ne_history as Hmh.
  unfold read_long_term, read_today, read_text, write_long_term,
    append_history, append_today.
  repeat split.
  - by rewrite lookup_insert_eq.
  - intros Hn. rewrite lookup_insert_eq. by apply translate_id.
  - by rewrite lookup_insert_ne.
  - destruct (fs !! day_file st today); by rewrite lookup_insert_ne.
  - by rewrite lookup_insert_ne.
  - by rewrite lookup_insert_ne.
Qed.

Lemma append_history_all_text rstrip entries : forall fs,
  file_text (append_history_all st rstrip entries fs) (history_file st) =
    file_text fs (history_file st) +:+ history_text rstrip entries.
Proof.
  unfold append_history_all.
  induction entries as [|e entries IH]; intros fs; simpl.
  - by rewrite string_app_nil_r.
  - rewrite IH. unfold append_history.
    unfold file_text at 1. rewrite lookup_insert_eq.
    by rewrite !string_app_assoc.
Qed.

(** X20.  The history file is append-only: after any sequence of entries it holds
    what it held before (nothing, when it did not exist), followed by each
    entry stripped of trailing white space and closed by a blank line, in
    order; no other file changes. *)
Theorem append_history_appends rstrip entries fs :
  file_text (append_history_all st rstrip entries fs) (history_file st) =
    file_text fs (history_file st) +:+ history_text rstrip entries
  /\ forall p, p <> history_file st ->
       append_history_all st rstrip entries fs !! p = fs !! p.
Proof.
  split; [apply append_history_all_text|].
  intros p Hp. revert fs. unfold append_history_all.
  induction entries as [|e entries IH]; intros fs; simpl; [reflexivity|].
  rewrite IH. unfold append_history. by rewrite lookup_insert_ne.
Qed.

Lemma string_app_nonempty (a b : string) : a <> "" -> a +:+ b <> "".
Proof. destruct a as [|x a]; [done|]. intros _. discriminate. Qed.

(** X21.  The memory context is empty exactly when there is neither long-term
    memory nor a note of today (a missing file counts as empty); otherwise
    it holds one titled section per non-empty source, long-term memory
    first, separated by a blank line. *)
Theorem memory_context_sections today fs :
  (get_memory_context st today fs = "" <->
     read_long_term st fs = "" /\ read_today st today fs = "")
  /\ (read_long_term st fs <> "" -> read_today st today fs <> "" ->
      get_memory_context st today fs =
        (("## Long-term Memory" +:+ nl) +:+ read_long_term st fs)
        +:+ (nl +:+ nl)
        +:+ (("## Today's Notes" +:+ nl) +:+ read_today st today fs))
  /\ (read_long_term st fs <> "" -> read_today st today fs = "" ->
      get_memory_context st today fs =
        ("## Long-term Memory" +:+ nl) +:+ read_long_term st fs)
  /\ (read_long_term st fs = "" -> read_today st today fs <> "" ->
      get_memory_context st today fs =
        ("## Today's Notes" +:+ nl) +:+ read_today st today fs).
Proof.
  unfold get_memory_context.
  destruct (String.eqb_spec (read_long_term st fs) "") as [Hl|Hl];
    destruct (String.eqb_spec (read_today st today fs) "") as [Ht|Ht];
    cbn [app join]; repeat split; try done; try (intros [? ?]; done);
    intros H; exfalso; revert H; by apply string_app_nonempty.
Qed.

Lemma omap_ext_in {A B} (f g : A -> option B) (l : list A) :
  (forall x, x ∈ l -> f x = g x) -> omap f l = omap g l.
Proof.
  induction l as [|x l IH]; intros H; [reflexivity|]. cbn.
  rewrite (H x) by apply list_elem_of_here.
  rewrite IH; [reflexivity|]. intros y Hy. apply H. by apply list_elem_of_further.
Qed.

Lemma range_bound (days : Z) (i : nat) : i ∈ range days -> (Z.of_nat i < days)%Z.
Proof.
  unfold range. rewrite list_elem_of_In, in_seq. lia.
Qed.

(** X22.  The recent memories depend on the files of the last [days] days only:
    none is read for [days <= 0], the result is empty when no file of the
    window exists, and two file systems that agree on the window give the
    same text. *)
Theorem recent_memories_read_window_only date_str days fs fs' :
  (days <= 0 -> get_recent_memories st date_str days fs = "")
  /\ ((forall i : nat, Z.of_nat i < days ->
         fs !! day_file st (date_str i) = None) ->
      get_recent_memories st date_str days fs = "")
  /\ ((forall i : nat, Z.of_nat i < days ->
         fs !! day_file st (date_str i) = fs' !! day_file st (date_str i)) ->
      get_recent_memories st date_str days fs
      = get_recent_memories st date_str days fs').
Proof.
  unfold get_recent_memories. repeat split.
  - intros Hd. unfold range. by replace (Z.to_nat days) with 0%nat by lia.
  - intros Hnone.
    rewrite (omap_ext_in _ (fun _ => None) (range days)).
    + by induction (range days).
    + intros i Hi. cbn. rewrite Hnone; [reflexivity|]. by apply range_bound.
  - intros Hsame. f_equal. apply omap_ext_in.
    intros i Hi. cbn. rewrite Hsame; [reflexivity|]. by apply range_bound.
Qed.

(** *** Consolidation *)

Lemma slice_bound_range {A} (l : list A) (i : Z) :
  0 <= slice_bound l i <= Z.of_nat (length l).
Proof. unfold slice_bound. destruct (i <? 0) eqn:E; lia. Qed.

Lemma py_slice_nil {A} (l : list A) (start stop : Z) :
  slice_bound l stop <= slice_bound l start -> py_slice l start stop = [].
Proof.
  intros H. unfold py_slice.
  by replace (Z.to_nat (slice_bound l stop - slice_bound l start))
    with 0%nat by lia.
Qed.

Lemma py_slice_window {A} (l : list A) (last keep : Z) :
  0 <= last -> 0 < keep -> last + keep <= Z.of_nat (length l) ->
  py_slice l last (- keep) =
    take (Z.to_nat (Z.of_nat (length l) - keep - last)) (drop (Z.to_nat last) l).
Proof.
  intros Hl Hk Hn. unfold py_slice, slice_bound.
  destruct (last <? 0) eqn:E1; [lia|].
  destruct (- keep <? 0) eqn:E2; [|lia].
  do 2 f_equal; lia.
Qed.

(** The outcomes of the part of [consolidate] that talks to the provider. *)
Lemma consolidate_messages_cases d model b keep old s :
  let cur := read_long_term st (files s) in
  (format_lines (upper d) old = None
   /\ consolidate_messages st d model b keep old s = (Exc "KeyError", s))
  \/ (exists lines lvl template,
        format_lines (upper d) old = Some lines
        /\ consolidate_messages st d model b keep old s =
             (Val false, log lvl template (sent (build_prompt cur lines) s))
        /\ (forall h u,
              chat d model (build_prompt cur lines) <> ToolCall (ArgsDict h u))
        /\ (forall t h u,
              chat d model (build_prompt cur lines) = ToolCall (ArgsText t) ->
              json_loads d t <> Some (ArgsDict h u)))
  \/ (exists lines h u,
        format_lines (upper d) old = Some lines
        /\ (chat d model (build_prompt cur lines) = ToolCall (ArgsDict h u)
            \/ exists t,
                 chat d model (build_prompt cur lines) = ToolCall (ArgsText t)
                 /\ json_loads d t = Some (ArgsDict h u))
        /\ consolidate_messages st d model b keep old s =
             apply_args st d b keep cur h u (sent (build_prompt cur lines) s)).
Proof.
  intros cur. unfold consolidate_messages. fold cur.
  destruct (format_lines (upper d) old) as [lines|]; [|by left].
  right.
  destruct (chat d model (build_prompt cur lines)) as [| |[h u|t|]] eqn:Hc.
  - left. do 3 eexists. repeat split; intros; try done; congruence.
  - left. do 3 eexists. repeat split; intros; try done; congruence.
  - right. exists lines, h, u. repeat split; [by left].
  - destruct (json_loads d t) as [[h u|t'|]|] eqn:Hj.
    + right. exists lines, h, u. repeat split. right. by exists t.
    + left. do 3 eexists. repeat split; intros; try done; congruence.
    + left. do 3 eexists. repeat split; intros; try done; congruence.
    + left. do 3 eexists. repeat split; intros; try done; congruence.
  - left. do 3 eexists. repeat split; intros; try done; congruence.
Qed.

(** What applying the arguments of a tool call does. *)
Lemma read_text_translated fs p :
  universal_newlines (read_text fs p) = read_text fs p.
Proof.
  unfold read_text. destruct (fs !! p); [apply translate_idem|reflexivity].
Qed.

(** What applying the arguments of a tool call does: either every write
    goes through, or one raises. *)
Lemma apply_args_cases d b keep cur h u s :
  cur = read_long_term st (files s) ->
  (exists s',
    apply_args st d b keep cur h u s = (Val true, s')
    /\ messages (session s') = messages (session s)
    /\ last_consolidated (session s') =
         (if b then 0
          else Z.of_nat (length (messages (session s))) - keep)
    /\ prompts s' = prompts s
    /\ file_text (files s') (history_file st) =
         file_text (files s) (history_file st)
         +:+ (if jtruthy h then rstrip d (jtext h) +:+ nl +:+ nl else "")
    /\ read_long_term st (files s') =
         (if jtruthy u then universal_newlines (jtext u)
          else read_long_term st (files s))
    /\ (forall p, p <> history_file st -> p <> memory_file st ->
        files s' !! p = files s !! p))
  \/ (exists s' p t residue,
    apply_args st d b keep cur h u s = (Val false, s')
    /\ write_outcome d p t = WriteRaises residue
    /\ ((p, t) = (history_file st, rstrip d (jtext h) +:+ nl +:+ nl)
        \/ (p, t) = (memory_file st, jtext u))
    /\ session s' = session s
    /\ prompts s' = prompts s
    /\ (forall q, q <> history_file st -> q <> memory_file st ->
        files s' !! q = files s !! q)).
Proof.
  intros Hcur.
  pose proof memory_file_ne_history as Hmh.
  assert (Hhm : history_file st <> memory_file st) by (intros E; by apply Hmh).
  assert (Hidem : universal_newlines cur = cur)
    by (rewrite Hcur; apply read_text_translated).
  unfold apply_args, try_write.
  destruct (jtruthy h) eqn:Hh;
    [destruct (write_outcome d (history_file st)
                 (rstrip d (jtext h) +:+ nl +:+ nl)) as [|r1] eqn:W1|];
    cbn [fst snd negb].
  2: { right. do 4 eexists. split; [reflexivity|]. split; [exact W1|].
       split; [by left|].
       cbn. split; [reflexivity|]. split; [reflexivity|].
       intros q Hq1 Hq2. unfold failed_write.
       destruct r1; [by rewrite lookup_insert_ne|done]. }
  all: destruct (jtruthy u) eqn:Hu; cbn [andb];
    [destruct (String.eqb_spec (jtext u) cur) as [He|He]; cbn [negb];
      [|destruct (write_outcome d (memory_file st) (jtext u))
          as [|r2] eqn:W2]|];
    cbn [fst snd negb];
    first
      [ solve
          [ right; do 4 eexists; split; [reflexivity|]; split; [exact W2|];
            split; [by right|];
            cbn; split; [reflexivity|]; split; [reflexivity|];
            intros q Hq1 Hq2; unfold failed_write, append_history;
            destruct r2; by rewrite ?lookup_insert_ne by done ]
      | left; eexists; split; [reflexivity|];
        cbn [session log set_last_consolidated messages last_consolidated
             prompts files set_files];
        unfold read_long_term, read_text, file_text, append_history,
          write_long_term;
        repeat split;
        rewrite ?lookup_insert_eq, ?(lookup_insert_ne _ _ _ _ Hmh),
          ?(lookup_insert_ne _ _ _ _ Hhm), ?lookup_insert_eq,
          ?string_app_nil_r;
        try reflexivity;
        try (intros p Hp1 Hp2; by rewrite ?lookup_insert_ne by done);
        try (rewrite He, Hidem, Hcur; reflexivity) ].
Qed.

Lemma consolidate_skips d model memory_window s :
  let msgs := messages (session s) in
  let n := Z.of_nat (length msgs) in
  n <= memory_window / 2
  \/ n - last_consolidated (session s) <= 0
  \/ py_slice msgs (last_consolidated (session s)) (- (memory_window / 2)) = [] ->
  consolidate st d model false memory_window s = (Val true, s).
Proof.
  intros msgs n H. unfold consolidate. fold msgs n.
  destruct (n <=? memory_window / 2) eqn:E1; [reflexivity|].
  destruct (n - last_consolidated (session s) <=? 0) eqn:E2; [reflexivity|].
  destruct H as [H|[H|H]]; [lia|lia|]. by rewrite H.
Qed.

(** X23.  Without [archive_all], consolidation does nothing (it returns [True],
    sends no prompt and leaves files and session as they are) when the
    session holds no more than [memory_window // 2] messages, when all but
    those have been consolidated already, and, whatever the session holds,
    when the window is 0 or 1. *)
Theorem consolidate_nothing_to_do d model memory_window s :
  let n := Z.of_nat (length (messages (session s))) in
  n <= memory_window / 2
  \/ n - memory_window / 2 <= last_consolidated (session s)
  \/ 0 <= memory_window < 2 ->
  consolidate st d model false memory_window s = (Val true, s).
Proof.
  intros n H. apply consolidate_skips. fold n.
  destruct (Z.le_gt_cases n (memory_window / 2)) as [E1|E1]; [by left|].
  right. right. apply py_slice_nil.
  assert (Hk : n - memory_window / 2 <= last_consolidated (session s)
               \/ memory_window / 2 = 0).
  { destruct H as [H|[H|H]]; [lia|by left|right].
    apply Z.div_small. lia. }
  unfold slice_bound. fold n.
  destruct (last_consolidated (session s) <? 0) eqn:E3;
    destruct (- (memory_window / 2) <? 0) eqn:E4; lia.
Qed.

(** X24.  Without [archive_all], the messages put into the prompt are those from
    [last_consolidated] up to, and not including, the last
    [memory_window // 2]: the session is what was consolidated before,
    then the messages consolidated now, then the ones kept. *)
Theorem consolidate_keeps_recent_messages d model memory_window s :
  let msgs := messages (session s) in
  let n := Z.of_nat (length msgs) in
  let keep := memory_window / 2 in
  let last := last_consolidated (session s) in
  0 <= last -> 0 < keep -> last + keep < n ->
  exists old,
    msgs = take (Z.to_nat last) msgs ++ old ++ drop (Z.to_nat (n - keep)) msgs
    /\ Z.of_nat (length old) = n - keep - last
    /\ Z.of_nat (length (drop (Z.to_nat (n - keep)) msgs)) = keep
    /\ consolidate st d model false memory_window s =
         consolidate_messages st d model false keep old
           (log Info "Memory consolidation: {} to consolidate, {} keep" s).
Proof.
  intros msgs n keep last Hl Hk Hn.
  exists (take (Z.to_nat (n - keep - last)) (drop (Z.to_nat last) msgs)).
  assert (Hlen : length (take (Z.to_nat (n - keep - last))
                           (drop (Z.to_nat last) msgs))
                 = Z.to_nat (n - keep - last)).
  { rewrite length_take, length_drop. unfold n. lia. }
  repeat split.
  - rewrite <- (take_drop (Z.to_nat last) msgs) at 1. f_equal.
    rewrite <- (take_drop (Z.to_nat (n - keep - last))
                  (drop (Z.to_nat last) msgs)) at 1.
    f_equal. rewrite drop_drop. f_equal. lia.
  - rewrite Hlen. lia.
  - rewrite length_drop. unfold n. lia.
  - unfold consolidate. fold msgs n keep last.
    destruct (n <=? keep) eqn:E1; [lia|].
    destruct (n - last <=? 0) eqn:E2; [lia|].
    rewrite py_slice_window by (unfold n in *; lia). fold n.
    destruct (take (Z.to_nat (n - keep - last)) (drop (Z.to_nat last) msgs))
      eqn:E; [|reflexivity].
    cbn in Hlen. lia.
Qed.

(** X25.  Whenever consolidation does not return [True], the session still
    has its messages and its [last_consolidated], and no file but the
    history file and the long-term memory file has changed.  If moreover no
    write raises (so that the provider raised, it made no tool call, the
    arguments were no dict or did not decode, or a message had no role),
    no file has changed at all. *)
Theorem consolidate_failure_changes_nothing d model archive_all memory_window s :
  (consolidate st d model archive_all memory_window s).1 <> Val true ->
  session (consolidate st d model archive_all memory_window s).2 = session s
  /\ (forall q, q <> history_file st -> q <> memory_file st ->
      files (consolidate st d model archive_all memory_window s).2 !! q
      = files s !! q)
  /\ ((forall p t, write_outcome d p t = Written) ->
      files (consolidate st d model archive_all memory_window s).2 = files s).
Proof.
  assert (Hm : forall b keep old s0,
    (consolidate_messages st d model b keep old s0).1 <> Val true ->
    session (consolidate_messages st d model b keep old s0).2 = session s0
    /\ (forall q, q <> history_file st -> q <> memory_file st ->
        files (consolidate_messages st d model b keep old s0).2 !! q
        = files s0 !! q)
    /\ ((forall p t, write_outcome d p t = Written) ->
        files (consolidate_messages st d model b keep old s0).2 = files s0)).
  { intros b keep old s0 Hr.
    destruct (consolidate_messages_cases d model b keep old s0)
      as [[_ E]|[(lines & lvl & tm & _ & E & _)|(lines & h & u & _ & _ & E)]].
    - by rewrite E.
    - by rewrite E.
    - destruct (apply_args_cases d b keep
                  (read_long_term st (files s0)) h u
                  (sent (build_prompt (read_long_term st (files s0)) lines) s0)
                  eq_refl)
        as [(s' & E' & _)|(s' & p & t & r & E' & W & _ & Hs & _ & Hf)].
      + rewrite E, E' in Hr. done.
      + rewrite E, E'. cbn [snd]. split; [exact Hs|]. split; [exact Hf|].
        intros Hw. rewrite Hw in W. discriminate W. }
  unfold consolidate.
  destruct archive_all.
  - intros Hr. by apply Hm in Hr.
  - destruct (_ <=? memory_window / 2); [done|].
    destruct (_ <=? 0); [done|].
    destruct (py_slice _ _ _) eqn:E; [done|].
    intros Hr. by apply Hm in Hr.
Qed.

Lemma prompts_grow_absurd (l : list string) (p : string) : l <> l ++ [p].
Proof.
  intros E. apply (f_equal length) in E. rewrite length_app in E. cbn in E. lia.
Qed.

Lemma consolidate_messages_applies d model b keep old s p h u :
  prompts (consolidate_messages st d model b keep old s).2 = prompts s ++ [p] ->
  (chat d model p = ToolCall (ArgsDict h u)
   \/ exists t, chat d model p = ToolCall (ArgsText t)
                /\ json_loads d t = Some (ArgsDict h u)) ->
  write_outcome d (history_file st) (rstrip d (jtext h) +:+ nl +:+ nl)
    = Written ->
  write_outcome d (memory_file st) (jtext u) = Written ->
  exists s',
    consolidate_messages st d model b keep old s = (Val true, s')
    /\ messages (session s') = messages (session s)
    /\ last_consolidated (session s') =
         (if b then 0 else Z.of_nat (length (messages (session s))) - keep)
    /\ file_text (files s') (history_file st) =
         file_text (files s) (history_file st)
         +:+ (if jtruthy h then rstrip d (jtext h) +:+ nl +:+ nl else "")
    /\ read_long_term st (files s') =
         (if jtruthy u then universal_newlines (jtext u)
          else read_long_term st (files s))
    /\ (forall q, q <> history_file st -> q <> memory_file st ->
        files s' !! q = files s !! q).
Proof.
  intros Hp Hc Wh Wm.
  destruct (consolidate_messages_cases d model b keep old s)
    as [[_ E]|[(lines & lvl & tm & _ & E & Hn1 & Hn2)
              |(lines & h' & u' & _ & Hc' & E)]].
  - rewrite E in Hp. cbn in Hp. by apply prompts_grow_absurd in Hp.
  - rewrite E in Hp. cbn in Hp. apply app_inv_head in Hp.
    injection Hp as Hp. subst p.
    destruct Hc as [Hc|(t & Hc & Hj)]; [by apply Hn1 in Hc|].
    by apply (Hn2 t h u) in Hc.
  - assert (Hpr : prompts (apply_args st d b keep (read_long_term st (files s))
                     h' u'
                     (sent (build_prompt (read_long_term st (files s)) lines) s)).2
                  = prompts s ++ [build_prompt (read_long_term st (files s)) lines]).
    { destruct (apply_args_cases d b keep (read_long_term st (files s)) h' u'
                  (sent (build_prompt (read_long_term st (files s)) lines) s)
                  eq_refl)
        as [(s' & E' & _ & _ & Hpr & _)|(s' & q & t & r & E' & _ & _ & _ & Hpr & _)];
        rewrite E'; exact Hpr. }
    rewrite E, Hpr in Hp. apply app_inv_head in Hp. injection Hp as Hp. subst p.
    assert (h' = h /\ u' = u) as [-> ->].
    { destruct Hc as [Hc|(t & Hc & Hj)]; destruct Hc' as [Hc'|(t' & Hc' & Hj')];
        rewrite Hc in Hc'; try discriminate.
      - by injection Hc' as -> ->.
      - injection Hc' as <-. rewrite Hj in Hj'. by injection Hj' as -> ->. }
    destruct (apply_args_cases d b keep (read_long_term st (files s)) h u
                (sent (build_prompt (read_long_term st (files s)) lines) s)
                eq_refl)
      as [(s' & E' & Hmsg & Hlast & _ & Hhist & Hmem & Hfr)
         |(s' & q & t & r & E' & W & [Hq|Hq] & _)].
    + exists s'. rewrite E, E'. done.
    + injection Hq as -> ->. rewrite Wh in W. discriminate W.
    + injection Hq as -> ->. rewrite Wm in W. discriminate W.
Qed.

(** X26.  When the provider answers the prompt with a [save_memory] call
    whose arguments are a dict, or JSON text that decodes to one, and the
    writes to the history file and to the long-term memory file go through,
    consolidation returns [True]; the messages stay, [last_consolidated]
    becomes 0 with [archive_all] and [len(messages) - memory_window // 2]
    without; a truthy history entry is appended to the history file,
    stripped and closed by a blank line; long-term memory, as
    [read_long_term] returns it, becomes the update read through universal
    newlines when the update is truthy and is kept otherwise, so that a
    missing or empty update never erases it; no other file changes. *)
Theorem consolidate_applies_save_memory d model archive_all memory_window s p h u :
  prompts (consolidate st d model archive_all memory_window s).2
    = prompts s ++ [p] ->
  (chat d model p = ToolCall (ArgsDict h u)
   \/ exists t, chat d model p = ToolCall (ArgsText t)
                /\ json_loads d t = Some (ArgsDict h u)) ->
  write_outcome d (history_file st) (rstrip d (jtext h) +:+ nl +:+ nl)
    = Written ->
  write_outcome d (memory_file st) (jtext u) = Written ->
  exists s',
    consolidate st d model archive_all memory_window s = (Val true, s')
    /\ messages (session s') = messages (session s)
    /\ last_consolidated (session s') =
         (if archive_all then 0
          else Z.of_nat (length (messages (session s))) - memory_window / 2)
    /\ file_text (files s') (history_file st) =
         file_text (files s) (history_file st)
         +:+ (if jtruthy h then rstrip d (jtext h) +:+ nl +:+ nl else "")
    /\ read_long_term st (files s') =
         (if jtruthy u then universal_newlines (jtext u)
          else read_long_term st (files s))
    /\ (forall q, q <> history_file st -> q <> memory_file st ->
        files s' !! q = files s !! q).
Proof.
  unfold consolidate. destruct archive_all.
  - intros Hp Hc Wh Wm.
    by apply (consolidate_messages_applies d model true 0 _ _ p h u Hp Hc).
  - destruct (_ <=? memory_window / 2);
      [intros Hp; cbn in Hp; by apply prompts_grow_absurd in Hp|].
    destruct (_ <=? 0);
      [intros Hp; cbn in Hp; by apply prompts_grow_absurd in Hp|].
    destruct (py_slice _ _ _) eqn:E;
      [intros Hp; cbn in Hp; by apply prompts_grow_absurd in Hp|].
    intros Hp Hc Wh Wm.
    by apply (consolidate_messages_applies d model false _ _ _ p h u Hp Hc).
Qed.

(** X27.  Without [archive_all], a consolidation that returned [True] leaves
    nothing to consolidate: calling it again on the resulting session, with
    any provider, returns [True] at once, without a prompt or a change. *)
Theorem consolidate_again_does_nothing d model d' model' memory_window s :
  (consolidate st d model false memory_window s).1 = Val true ->
  consolidate st d' model' false memory_window
    (consolidate st d model false memory_window s).2
  = (Val true, (consolidate st d model false memory_window s).2).
Proof.
  set (msgs := messages (session s)).
  set (n := Z.of_nat (length msgs)).
  set (keep := memory_window / 2).
  destruct (Z.le_gt_cases n keep) as [E1|E1].
  { rewrite (consolidate_skips d model) by (by left). intros _.
    apply consolidate_skips. by left. }
  destruct (Z.le_gt_cases (n - last_consolidated (session s)) 0) as [E2|E2].
  { rewrite (consolidate_skips d model) by (right; by left). intros _.
    apply consolidate_skips. right. by left. }
  destruct (py_slice msgs (last_consolidated (session s)) (- keep)) eqn:E3.
  { rewrite (consolidate_skips d model) by (right; by right). intros _.
    apply consolidate_skips. right. by right. }
  set (s0 := log Info "Memory consolidation: {} to consolidate, {} keep" s).
  assert (Er : consolidate st d model false memory_window s =
               consolidate_messages st d model false keep (m :: l) s0).
  { unfold consolidate. fold msgs n keep.
    destruct (n <=? keep) eqn:F1; [lia|].
    destruct (n - last_consolidated (session s) <=? 0) eqn:F2; [lia|].
    by rewrite E3. }
  rewrite Er. intros Hr.
  destruct (consolidate_messages_cases d model false keep (m :: l) s0)
    as [[_ E]|[(lines & lvl & tm & _ & E & _)|(lines & h & u & _ & _ & E)]];
    [by rewrite E in Hr|by rewrite E in Hr|].
  destruct (apply_args_cases d false keep (read_long_term st (files s0)) h u
              (sent (build_prompt (read_long_term st (files s0)) lines) s0)
              eq_refl)
    as [(s' & E' & Hmsg & Hlast & _)|(s' & q & t & r & E' & _)];
    [|by rewrite E, E' in Hr].
  rewrite E, E'. cbn [snd]. cbn in Hmsg, Hlast. fold msgs n in Hlast.
  apply consolidate_skips. rewrite Hmsg, Hlast. fold msgs n keep.
  destruct (Z.le_gt_cases keep 0) as [Hk|Hk]; [right; left; lia|].
  right. right. apply py_slice_nil. unfold slice_bound. fold n.
  destruct (n - keep <? 0) eqn:G1; destruct (- keep <? 0) eqn:G2; lia.
Qed.

End MemoryProperties.

(* ================================================================== *)
(** ** Instances of the further properties *)

Lemma registry_valid_w_new : registry_valid w_new.
Proof.
  intros k l H. cbn in H.
  destruct (String.eqb k "chat"); [injection H as <-; cbn; lia|discriminate].
Defined.

Lemma registry_valid_w_offline : registry_valid w_offline.
Proof.
  intros k l H. cbn in H.
  destruct (String.eqb k "chat"); [injection H as <-; cbn; lia|discriminate].
Defined.

Lemma registry_valid_w_two : registry_valid w_two.
Proof.
  intros k l H. cbn in H.
  destruct (String.eqb k "a"); [injection H as <-; cbn; lia|].
  destruct (String.eqb k "b"); [injection H as <-; cbn; lia|discriminate].
Defined.

Lemma send_ai_card_keeps_registry_sound_witness :
  result (_send_ai_card cfg0 env_ok msg_group) w_new = Val tt /\
  registry_valid (exec (_send_ai_card cfg0 env_ok msg_group) w_new) /\
  Dict.wf (_active_cards (exec (_send_ai_card cfg0 env_ok msg_group) w_new)).
Proof.
  apply (send_ai_card_keeps_registry_sound cfg0 env_ok msg_group w_new).
  - apply registry_valid_w_new.
  - unfold Dict.wf. cbn. apply NoDup_singleton.
Defined.

Lemma send_ai_card_other_chats_untouched_witness :
  Dict.get "a" (_active_cards (exec (_send_ai_card cfg0 env_ok msg_group) w_two))
  = Dict.get "a" (_active_cards w_two).
Proof.
  apply (send_ai_card_other_chats_untouched cfg0 env_ok msg_group w_two "a").
  - apply registry_valid_w_two.
  - cbn. discriminate.
Defined.

Lemma send_without_client_is_silent_witness :
  result (send cfg0 env_ok msg_group) w_offline = Val tt /\
  exists evs,
    added w_offline (exec (send cfg0 env_ok msg_group) w_offline) evs /\
    http_calls evs = [].
Proof.
  apply (send_without_client_is_silent cfg0 env_ok msg_group w_offline).
  - reflexivity.
  - apply registry_valid_w_offline.
Defined.

Lemma send_text_private_one_request_witness :
  result (_send_text cfg_text env_ok msg_plain) w_ready = Val tt /\
  _active_cards (exec (_send_text cfg_text env_ok msg_plain) w_ready)
  = _active_cards w_ready /\
  exists evs,
    added w_ready (exec (_send_text cfg_text env_ok msg_plain) w_ready) evs /\
    http_calls evs = [ReqBatchSend "tok" "bot" "user7" "hello"].
Proof.
  apply (send_text_private_one_request cfg_text env_ok "tok" msg_plain w_ready).
  - exact (token_ready_env_ok [] []).
  - vm_compute. reflexivity.
Defined.

Lemma final_without_card_not_registered_witness :
  result (_send_ai_card cfg0 env_ok msg_final) w_ready = Val tt /\
  _active_cards (exec (_send_ai_card cfg0 env_ok msg_final) w_ready) = [] /\
  exists evs,
    added w_ready (exec (_send_ai_card cfg0 env_ok msg_final) w_ready) evs /\
    http_calls evs =
      [ReqCreateAndDeliver "tok" "card_a0" "dtv1.card//IM_GROUP.cid42" true;
       ReqPutData "tok" "card_a0" "2" "";
       ReqStreaming "tok" "card_a0" "a1" "done" true;
       ReqPutData "tok" "card_a0" "3" "done"].
Proof.
  apply (final_without_card_not_registered cfg0 env_ok "tok" msg_final w_ready
           NotJsonObject).
  - exact (token_ready_env_ok [] []).
  - vm_compute. reflexivity.
  - reflexivity.
  - reflexivity.
Defined.

Lemma card_within_ttl_reused_witness :
  clock env_ok (ticks w_edge) - created_at card_edge = _CARD_TTL_SECONDS /\
  _active_cards (exec (_send_ai_card cfg0 env_ok msg_group) w_edge)
  = _active_cards w_edge /\
  length (heap (exec (_send_ai_card cfg0 env_ok msg_group) w_edge)) = 1%nat.
Proof.
  split; [reflexivity|].
  destruct (card_within_ttl_reused cfg0 env_ok "tok" msg_group w_edge 0%nat
              card_edge) as (_ & H1 & H2 & _).
  - apply token_ready_env_ok.
  - vm_compute. reflexivity.
  - reflexivity.
  - reflexivity.
  - vm_compute. discriminate.
  - split; [exact H1|exact H2].
Defined.

Lemma token_refreshed_then_reused_witness :
  let w1 := exec (_get_access_token cfg0 env_token) w_expired in
  result (_get_access_token cfg0 env_token) w_expired = Val (Some "fresh") /\
  _get_access_token cfg0 env_token w1
  = (Val (Some "fresh"), set_ticks (S (ticks w1)) w1).
Proof.
  intros w1.
  pose proof (token_refreshed_then_reused cfg0 env_token w_expired 200 "fresh"
                7200) as H.
  cbv zeta in H.
  destruct H as (H1 & H2 & _).
  - vm_compute. reflexivity.
  - reflexivity.
  - reflexivity.
  - reflexivity.
  - discriminate.
  - split; [exact H1|]. apply H2. vm_compute. reflexivity.
Defined.

Lemma inbound_without_card_only_hands_over_witness :
  trace (exec (_on_message cfg0 env_ok "hi" "user1" "User" (Some "chat")) w_ready)
  = [EvLog Info "DingTalk inbound: {} from {}";
     EvHandleMessage "user1" "chat" "hi"] /\
  served (exec (_on_message cfg0 env_ok "hi" "user1" "User" (Some "chat")) w_ready)
  = 0%nat.
Proof.
  pose proof (inbound_without_card_only_hands_over cfg0 env_ok "hi" "user1"
                "User" (Some "chat") w_ready) as H.
  cbv zeta in H.
  destruct H as (_ & H2 & _ & _ & H5); [reflexivity|].
  split; [exact H2|exact H5].
Defined.

Lemma inbound_other_chats_untouched_witness :
  result (_on_message cfg0 env_ok "hi" "user1" "User" (Some "a")) w_two = Val tt /\
  Dict.get "b"
    (_active_cards
       (exec (_on_message cfg0 env_ok "hi" "user1" "User" (Some "a")) w_two))
  = Some 1%nat.
Proof.
  apply (inbound_other_chats_untouched cfg0 env_ok "hi" "user1" "User"
           (Some "a") w_two "b").
  - apply registry_valid_w_two.
  - vm_compute. discriminate.
Defined.

Lemma open_space_id_injective_witness :
  meta_is group_meta "_dingtalk_conversation_type" "2"
  = meta_is final_meta "_dingtalk_conversation_type" "2".
Proof.
  destruct (open_space_id_injective group_meta final_meta) as [H _].
  - vm_compute. reflexivity.
  - exact H.
Defined.

Lemma process_text_mode_keys_by_sender_witness :
  exists c,
    process cfg_text strip_none (Some cm_group) NoText ∅ = Scheduled c /\
    ic_chat_id c = PStr "staff1" /\ ic_sender_id c = PStr "staff1".
Proof.
  eexists. split; [reflexivity|].
  destruct (process_text_mode_keys_by_sender cfg_text env_ok strip_none
              (Some cm_group) NoText ∅ _ eq_refl eq_refl) as (H & _).
  split; [rewrite H|]; reflexivity.
Defined.

Lemma process_card_mode_routes_witness :
  exists c,
    process cfg0 strip_none (Some cm_group) NoText ∅ = Scheduled c /\
    ic_chat_id c = PStr "cid42" /\
    forall msg w, answers msg c ->
      send cfg0 env_ok msg w = _send_ai_card cfg0 env_ok msg w.
Proof.
  eexists. split; [reflexivity|].
  destruct (process_card_mode_routes cfg0 env_ok strip_none cm_group NoText ∅
              _ eq_refl eq_refl eq_refl) as (H1 & H2 & _).
  split; [|exact H1].
  destruct (H2 eq_refl) as [H _]. rewrite H. reflexivity.
Defined.

Lemma get_access_token_exchange_failed_witness :
  result (_get_access_token cfg0 env_500) w_expired = Val None /\
  _access_token (exec (_get_access_token cfg0 env_500) w_expired) = Some "old" /\
  _token_expiry (exec (_get_access_token cfg0 env_500) w_expired) = 500.
Proof.
  apply (_get_access_token_exchange_failed cfg0 env_500 w_expired).
  - vm_compute. reflexivity.
  - right. reflexivity.
Defined.

Lemma append_today_fresh_day_witness :
  MemoryStore.read_today MemoryStore.store0 "2026-01-02"
    (MemoryStore.append_all MemoryStore.store0 "2026-01-02" ["a"; "b"] ∅)
  = "# 2026-01-02" +:+ MemoryStore.nl +:+ MemoryStore.nl
    +:+ "a" +:+ MemoryStore.nl +:+ "b".
Proof.
  destruct (append_today_fresh_day MemoryStore.store0 "2026-01-02" ["a"; "b"] ∅)
    as (_ & H & _).
  - apply lookup_empty.
  - discriminate.
  - rewrite H; [reflexivity|reflexivity|].
    repeat constructor.
Defined.

Lemma append_today_extends_existing_witness :
  MemoryStore.read_today MemoryStore.store0 "2026-01-02"
    (MemoryStore.append_all MemoryStore.store0 "2026-01-02" ["a"]
       (<[MemoryStore.day_file MemoryStore.store0 "2026-01-02" :=
            String MemoryStore.cr MemoryStore.nl]> ∅))
  = MemoryStore.nl +:+ MemoryStore.nl +:+ "a".
Proof.
  destruct (append_today_extends_existing MemoryStore.store0 "2026-01-02" ["a"]
              (<[MemoryStore.day_file MemoryStore.store0 "2026-01-02" :=
                   String MemoryStore.cr MemoryStore.nl]> ∅)
              (String MemoryStore.cr MemoryStore.nl))
    as (H0 & H1 & _).
  - apply lookup_insert_eq.
  - rewrite H1, H0. reflexivity.
Defined.

Lemma long_term_round_trip_witness :
  MemoryStore.read_long_term MemoryStore.store0
    (MemoryStore.write_long_term MemoryStore.store0
       ("tea" +:+ String MemoryStore.cr MemoryStore.nl +:+ "milk") ∅)
  = "tea" +:+ MemoryStore.nl +:+ "milk".
Proof.
  destruct (long_term_round_trip MemoryStore.store0 "2026-01-02"
              (fun s => s)
              ("tea" +:+ String MemoryStore.cr MemoryStore.nl +:+ "milk")
              "note" "entry" ∅) as [H _].
  - discriminate.
  - discriminate.
  - rewrite H. reflexivity.
Defined.

Lemma consolidate_nothing_to_do_witness :
  MemoryStore.consolidate MemoryStore.store0 MemoryStore.deps_ok "m" false 50
    (MemoryStore.state0 3)
  = (Val true, MemoryStore.state0 3).
Proof.
  apply (consolidate_nothing_to_do MemoryStore.store0 MemoryStore.deps_ok "m" 50
           (MemoryStore.state0 3)).
  left. vm_compute. discriminate.
Defined.

Lemma consolidate_keeps_recent_messages_witness :
  exists old,
    length old = 3%nat /\
    MemoryStore.consolidate MemoryStore.store0 MemoryStore.deps_ok "m" false 4
      (MemoryStore.state0 5)
    = MemoryStore.consolidate_messages MemoryStore.store0 MemoryStore.deps_ok
        "m" false 2 old
        (MemoryStore.log Info
           "Memory consolidation: {} to consolidate, {} keep"
           (MemoryStore.state0 5)).
Proof.
  pose proof (consolidate_keeps_recent_messages MemoryStore.store0
                MemoryStore.deps_ok "m" 4 (MemoryStore.state0 5)) as H.
  cbv zeta in H.
  destruct H as (old & _ & Hlen & _ & Hc).
  - vm_compute. discriminate.
  - vm_compute. reflexivity.
  - vm_compute. reflexivity.
  - exists old. split; [|exact Hc].
    vm_compute in Hlen. apply Nat2Z.inj. exact Hlen.
Defined.

Lemma consolidate_failure_changes_nothing_witness :
  MemoryStore.session
    (MemoryStore.consolidate MemoryStore.store0 MemoryStore.deps_disk_full "m"
       false 4 (MemoryStore.state0 5)).2
  = MemoryStore.session (MemoryStore.state0 5) /\
  MemoryStore.files
    (MemoryStore.consolidate MemoryStore.store0 MemoryStore.deps_silent "m"
       false 4 (MemoryStore.state0 5)).2 = ∅.
Proof.
  split.
  - apply (consolidate_failure_changes_nothing MemoryStore.store0
             MemoryStore.deps_disk_full "m" false 4 (MemoryStore.state0 5)).
    vm_compute. discriminate.
  - apply (consolidate_failure_changes_nothing MemoryStore.store0
             MemoryStore.deps_silent "m" false 4 (MemoryStore.state0 5)).
    + vm_compute. discriminate.
    + intros p t. reflexivity.
Defined.

Lemma consolidate_applies_save_memory_witness :
  exists s',
    MemoryStore.consolidate MemoryStore.store0 MemoryStore.deps_ok "m" false 4
      (MemoryStore.state0 5) = (Val true, s') /\
    MemoryStore.last_consolidated (MemoryStore.session s') = 3 /\
    MemoryStore.read_long_term MemoryStore.store0 (MemoryStore.files s')
    = "likes tea".
Proof.
  destruct (consolidate_applies_save_memory MemoryStore.store0
              MemoryStore.deps_ok "m" false 4 (MemoryStore.state0 5)
              MemoryStore.prompt0
              (Some (MemoryStore.JStr "[2026-01-02 03:04] talked  "))
              (Some (MemoryStore.JStr "likes tea")))
    as (s' & E & _ & Hl & _ & Hm & _).
  - vm_compute. reflexivity.
  - left. reflexivity.
  - reflexivity.
  - reflexivity.
  - exists s'. split; [exact E|]. split; [exact Hl|exact Hm].
Defined.

Lemma consolidate_again_does_nothing_witness :
  MemoryStore.consolidate MemoryStore.store0 MemoryStore.deps_silent "other"
    false 4
    (MemoryStore.consolidate MemoryStore.store0 MemoryStore.deps_ok "m" false 4
       (MemoryStore.state0 5)).2
  = (Val true,
     (MemoryStore.consolidate MemoryStore.store0 MemoryStore.deps_ok "m" false 4
        (MemoryStore.state0 5)).2).
Proof.
  apply (consolidate_again_does_nothing MemoryStore.store0 MemoryStore.deps_ok
           "m" MemoryStore.deps_silent "other" 4 (MemoryStore.state0 5)).
  vm_compute. reflexivity.
Defined.
